(** * agent_api: a shallow embedding of the three Express handlers

    The service (src/index.js, and an earlier copy of the same server kept in
    the repository as src/unnamed/part_000) exposes

      POST /create-order        a thin adapter over the Razorpay order API
      POST /verify-payment      the HMAC-SHA256 check of a checkout signature
      POST /agent_to_customer   the order-confirmation e-mail

    The handlers are written here as functions over JavaScript values in a
    small error-and-trace monad: a handler either sends a response or lets
    an exception leave it, and every call to a collaborator (the gateway
    client, the mail transport) is recorded.  The pieces of the platform the
    handlers rely on (Number, string and truthiness coercions, Math.round,
    parseFloat, HMAC-SHA256) are modelled after ECMA-262 and FIPS 180-4 /
    RFC 2104 so that the handlers can be evaluated on concrete requests. *)

From Stdlib Require Import ZArith List String Ascii Bool Lia QArith.
From Stdlib Require Import Floats.SpecFloat.
Import ListNotations.

Set Warnings "-register-all".

Local Open Scope string_scope.
Local Open Scope Z_scope.

(* ================================================================== *)
(** * Strings *)

Module Str.

(** The double quote, written by code so that templates can be spelled
    without escapes. *)
Definition dq : string := String (ascii_of_nat 34) EmptyString.

Definition is_digit (c : ascii) : bool :=
  let n := nat_of_ascii c in (48 <=? n)%nat && (n <=? 57)%nat.

Definition digit_val (c : ascii) : Z := Z.of_nat (nat_of_ascii c) - 48.

Definition digit_char (d : Z) : ascii := ascii_of_nat (48 + Z.to_nat d).

Fixpoint digits_fuel (fuel : nat) (z : Z) (acc : string) : string :=
  match fuel with
  | O => acc
  | S f =>
      let acc' := String (digit_char (z mod 10)) acc in
      if z <? 10 then acc' else digits_fuel f (z / 10) acc'
  end.

(** Decimal numeral of a non-negative integer. *)
Definition decimal (z : Z) : string :=
  digits_fuel (S (Z.to_nat (Z.log2 z))) z EmptyString.

Fixpoint zeros (n : nat) : string :=
  match n with O => EmptyString | S k => String "0" (zeros k) end.

(** Left-pads a numeral with zeros up to [w] characters. *)
Definition pad (w : nat) (s : string) : string :=
  zeros (w - String.length s) ++ s.

Definition take (n : nat) (s : string) : string := substring 0 n s.
Definition drop (n : nat) (s : string) : string :=
  substring n (String.length s - n) s.

(** [strip_prefix p s] is the rest of [s] after [p], when [s] starts
    with [p]. *)
Fixpoint strip_prefix (p s : string) : option string :=
  match p, s with
  | EmptyString, _ => Some s
  | String a p', String b s' =>
      if Ascii.eqb a b then strip_prefix p' s' else None
  | String _ _, EmptyString => None
  end.

Fixpoint join (sep : string) (l : list string) : string :=
  match l with
  | [] => EmptyString
  | [x] => x
  | x :: r => x ++ sep ++ join sep r
  end.

End Str.

(* ================================================================== *)
(** * Numbers: IEEE 754 binary64, as ECMAScript's Number type *)

Module Num.

Definition number := spec_float.

Definition prec : Z := 53.
Definition emax : Z := 1024.

Definition NaN : number := S754_nan.
Definition Infinity : number := S754_infinity false.
Definition zero : number := S754_zero false.

Definition of_Z (z : Z) : number := binary_normalize prec emax z 0 false.

Definition mul : number -> number -> number := SFmul prec emax.
Definition leb : number -> number -> bool := SFleb.
Definition ltb : number -> number -> bool := SFltb.

Definition is_nan (x : number) : bool :=
  match x with S754_nan => true | _ => false end.

Definition is_zero (x : number) : bool :=
  match x with S754_zero _ => true | _ => false end.

Definition is_finite (x : number) : bool :=
  match x with S754_zero _ | S754_finite _ _ _ => true | _ => false end.

Definition same (x y : number) : bool :=
  match x, y with
  | S754_nan, S754_nan => true
  | S754_zero a, S754_zero b => Bool.eqb a b
  | S754_infinity a, S754_infinity b => Bool.eqb a b
  | S754_finite a m e, S754_finite b n f =>
      Bool.eqb a b && Pos.eqb m n && Z.eqb e f
  | _, _ => false
  end.

(** The Number value of the decimal [m * 10^e] ([m >= 0]), rounded to
    nearest, ties to even; [neg] is the sign of the literal. *)
Definition of_decimal (neg : bool) (m e : Z) : number :=
  match m with
  | Z0 => S754_zero neg
  | Zpos p =>
      if 0 <=? e then binary_round prec emax neg (p * Z.to_pos (10 ^ e)) 0
      else SFdiv prec emax (S754_finite neg p 0)
                           (S754_finite false (Z.to_pos (10 ^ (- e))) 0)
  | Zneg _ => NaN
  end.

(** [Math.round]: the integral Number closest to [x], ties towards
    +Infinity; the sign of a zero result is the sign of [x]. *)
Definition round_to_Z (s : bool) (m : positive) (e : Z) : Z :=
  let sm := cond_Zopp s (Zpos m) in
  if 0 <=? e then sm * 2 ^ e
  else (2 * sm + 2 ^ (- e)) / 2 ^ (- e + 1).

Definition Math_round (x : number) : number :=
  match x with
  | S754_finite s m e =>
      if 0 <=? e then x
      else binary_normalize prec emax (round_to_Z s m e) 0 s
  | _ => x
  end.

(** Exact rational value of a finite Number. *)
Definition to_Q (x : number) : option Q :=
  match x with
  | S754_zero _ => Some 0%Q
  | S754_finite s m e =>
      let sm := cond_Zopp s (Zpos m) in
      Some (if 0 <=? e then inject_Z (sm * 2 ^ e)
            else Qmake sm (Z.to_pos (2 ^ (- e))))
  | _ => None
  end.

(** ** Number::toString (radix 10) *)

(** The integer [n] with [10^(n-1) <= p/q < 10^n], for [p, q > 0]. *)
Fixpoint magnitude_down (fuel : nat) (p q : Z) (t : Z) : Z :=
  match fuel with
  | O => - t
  | S f => if q <=? p * 10 then - t else magnitude_down f (p * 10) q (t + 1)
  end.

Definition magnitude (p q : Z) : Z :=
  if q <=? p then Z.of_nat (String.length (Str.decimal (p / q)))
  else magnitude_down 400 p q 0.

(** [p/q] scaled, as a fraction, so that its integer part has [k]
    digits. *)
Definition scaled (p q n k : Z) : Z * Z :=
  let sh := k - n in
  if 0 <=? sh then (p * 10 ^ sh, q) else (p, q * 10 ^ (- sh)).

(** For [k] digits: the candidate [s] (and its [n]) nearest to [p/q]
    among the [k]-digit decimals that read back as [x], if any. *)
Definition candidate (x : number) (p q n k : Z) : option (Z * Z) :=
  let '(num, den) := scaled p q n k in
  let lo := num / den in
  let r := num mod den in
  let hi := lo + 1 in
  let ok_lo := same (of_decimal false lo (n - k)) x in
  let ok_hi := same (of_decimal false hi (n - k)) x in
  let fix_hi := if hi =? 10 ^ k then (10 ^ (k - 1), n + 1) else (hi, n) in
  match ok_lo, ok_hi with
  | true, true =>
      if 2 * r <? den then Some (lo, n)
      else if den <? 2 * r then Some fix_hi
      else if Z.even lo then Some (lo, n) else Some fix_hi
  | true, false => Some (lo, n)
  | false, true => Some fix_hi
  | false, false => None
  end.

(** The least number of digits that has a candidate, from [k] up;
    seventeen digits always have one for a Number. *)
Fixpoint shortest (fuel : nat) (x : number) (p q n k : Z) : Z * Z * Z :=
  match fuel with
  | O => let '(num, den) := scaled p q n k in (num / den, n, k)
  | S f =>
      match candidate x p q n k with
      | Some (s, n') => (s, n', k)
      | None => shortest f x p q n (k + 1)
      end
  end.

Definition exponent_part (n : Z) : string :=
  "e" ++ (if 0 <=? n - 1 then "+" else "-") ++ Str.decimal (Z.abs (n - 1)).

Definition format (s n k : Z) : string :=
  let ds := Str.decimal s in
  if (k <=? n) && (n <=? 21) then ds ++ Str.zeros (Z.to_nat (n - k))
  else if (0 <? n) && (n <=? 21) then
    Str.take (Z.to_nat n) ds ++ "." ++ Str.drop (Z.to_nat n) ds
  else if (-6 <? n) && (n <=? 0) then
    "0." ++ Str.zeros (Z.to_nat (- n)) ++ ds
  else if k =? 1 then ds ++ exponent_part n
  else Str.take 1 ds ++ "." ++ Str.drop 1 ds ++ exponent_part n.

Definition to_string (x : number) : string :=
  match x with
  | S754_nan => "NaN"
  | S754_zero _ => "0"
  | S754_infinity s => if s then "-Infinity" else "Infinity"
  | S754_finite sg m e =>
      let p := if 0 <=? e then Zpos m * 2 ^ e else Zpos m in
      let q := if 0 <=? e then 1 else 2 ^ (- e) in
      let '(s, n, k) :=
        shortest 17 (S754_finite false m e) p q (magnitude p q) 1 in
      (if sg then "-" else EmptyString) ++ format s n k
  end.

End Num.

(* ================================================================== *)
(** * Numeric literals in strings: StringToNumber and parseFloat *)

Module NumLit.
Import Num.

(** One WhiteSpace or LineTerminator code point at the head of a string
    (strings are held as UTF-8): the rest of the string after it. *)
Definition ws_sequences : list string :=
  let b (l : list Z) :=
    fold_right (fun n s => String (ascii_of_nat (Z.to_nat n)) s)
               EmptyString l in
  [ b [9]; b [10]; b [11]; b [12]; b [13]; b [32]
  ; b [194; 160]                         (* U+00A0 *)
  ; b [225; 154; 128]                    (* U+1680 *)
  ; b [226; 128; 128]; b [226; 128; 129]; b [226; 128; 130]
  ; b [226; 128; 131]; b [226; 128; 132]; b [226; 128; 133]
  ; b [226; 128; 134]; b [226; 128; 135]; b [226; 128; 136]
  ; b [226; 128; 137]; b [226; 128; 138] (* U+2000 .. U+200A *)
  ; b [226; 128; 168]; b [226; 128; 169] (* U+2028, U+2029 *)
  ; b [226; 128; 175]                    (* U+202F *)
  ; b [226; 129; 159]                    (* U+205F *)
  ; b [227; 128; 128]                    (* U+3000 *)
  ; b [239; 187; 191] ].                 (* U+FEFF *)

Definition ws_head (s : string) : option string :=
  fold_right
    (fun p acc => match Str.strip_prefix p s with
                  | Some r => Some r
                  | None => acc
                  end)
    None ws_sequences.

Fixpoint skip_ws_fuel (fuel : nat) (s : string) : string :=
  match fuel with
  | O => s
  | S f => match ws_head s with
           | Some r => skip_ws_fuel f r
           | None => s
           end
  end.

Definition skip_ws (s : string) : string :=
  skip_ws_fuel (String.length s) s.

Definition only_ws (s : string) : bool :=
  match skip_ws s with EmptyString => true | _ => false end.

(** A run of decimal digits: the accumulated value, the number of digits
    read and the rest. *)
Fixpoint scan_digits (s : string) (acc cnt : Z) : Z * Z * string :=
  match s with
  | String c r =>
      if Str.is_digit c
      then scan_digits r (acc * 10 + Str.digit_val c) (cnt + 1)
      else (acc, cnt, s)
  | EmptyString => (acc, cnt, s)
  end.

(** ExponentPart, when complete: its value and the rest. *)
Definition scan_exponent (s : string) : option (Z * string) :=
  match s with
  | String c r =>
      if Ascii.eqb c "e" || Ascii.eqb c "E" then
        let '(neg, r1) :=
          match r with
          | String "-" r' => (true, r')
          | String "+" r' => (false, r')
          | _ => (false, r)
          end in
        let '(v, cnt, r2) := scan_digits r1 0 0 in
        if 0 <? cnt then Some (if neg then - v else v, r2) else None
      else None
  | EmptyString => None
  end.

Inductive literal :=
| LInfinity
| LDecimal (m e : Z).   (* m * 10^e *)

(** The longest StrUnsignedDecimalLiteral at the head of [s]. *)
Definition scan_unsigned (s : string) : option (literal * string) :=
  match Str.strip_prefix "Infinity" s with
  | Some r => Some (LInfinity, r)
  | None =>
      let '(ip, ci, r1) := scan_digits s 0 0 in
      let '(m, cf, r2) :=
        match r1 with
        | String "." r' => scan_digits r' ip 0
        | _ => (ip, -1, r1)
        end in
      if (ci =? 0) && (cf <=? 0) then None
      else
        let frac := Z.max cf 0 in
        match scan_exponent r2 with
        | Some (ex, r3) => Some (LDecimal m (ex - frac), r3)
        | None => Some (LDecimal m (- frac), r2)
        end
  end.

Definition scan_signed (s : string) : option (bool * literal * string) :=
  let '(neg, r) :=
    match s with
    | String "-" r' => (true, r')
    | String "+" r' => (false, r')
    | _ => (false, s)
    end in
  match scan_unsigned r with
  | Some (l, rest) => Some (neg, l, rest)
  | None => None
  end.

Definition literal_value (neg : bool) (l : literal) : number :=
  match l with
  | LInfinity => S754_infinity neg
  | LDecimal m e => of_decimal neg m e
  end.

(** [parseFloat] on a string: leading white space is skipped and the
    longest prefix that is a StrDecimalLiteral is read; NaN if none. *)
Definition parse_float_prefix (s : string) : number :=
  match scan_signed (skip_ws s) with
  | Some (neg, l, _) => literal_value neg l
  | None => NaN
  end.

(** Digits of a radix 2, 8 or 16 integer literal. *)
Definition radix_digit (radix : Z) (c : ascii) : option Z :=
  let n := Z.of_nat (nat_of_ascii c) in
  let d := if (48 <=? n) && (n <=? 57) then n - 48
           else if (97 <=? n) && (n <=? 102) then n - 87
           else if (65 <=? n) && (n <=? 70) then n - 55
           else 99 in
  if d <? radix then Some d else None.

Fixpoint scan_radix (radix : Z) (s : string) (acc cnt : Z) : Z * Z * string :=
  match s with
  | String c r =>
      match radix_digit radix c with
      | Some d => scan_radix radix r (acc * radix + d) (cnt + 1)
      | None => (acc, cnt, s)
      end
  | EmptyString => (acc, cnt, s)
  end.

Definition scan_non_decimal (s : string) : option (Z * string) :=
  match s with
  | String "0" (String c r) =>
      let radix :=
        if Ascii.eqb c "x" || Ascii.eqb c "X" then 16
        else if Ascii.eqb c "o" || Ascii.eqb c "O" then 8
        else if Ascii.eqb c "b" || Ascii.eqb c "B" then 2
        else 0 in
      if radix =? 0 then None
      else let '(v, cnt, rest) := scan_radix radix r 0 0 in
           if 0 <? cnt then Some (v, rest) else None
  | _ => None
  end.

(** StringToNumber: the whole string, white space trimmed, must be a
    StrNumericLiteral; the empty string is +0. *)
Definition StringToNumber (s : string) : number :=
  let t := skip_ws s in
  match t with
  | EmptyString => zero
  | _ =>
      match scan_signed t with
      | Some (neg, l, rest) =>
          if only_ws rest then literal_value neg l
          else match scan_non_decimal t with
               | Some (v, rest') => if only_ws rest' then of_Z v else NaN
               | None => NaN
               end
      | None => NaN
      end
  end.

End NumLit.

(* ================================================================== *)
(** * JavaScript values and the coercions the handlers rely on *)

Module JS.
Import Num.

(** The values a handler can meet: what [JSON.parse] produces for a
    request body, [undefined] for an absent property, and Error
    instances raised by the runtime or by a collaborator. *)
Inductive value :=
| VUndef
| VNull
| VBool (b : bool)
| VNum (x : number)
| VStr (s : string)
| VObj (fields : list (string * value))
| VArr (items : list value)
| VError (name message : string).

(** Induction over values, through the elements of arrays and the fields
    of objects. *)
Section ValueInduction.
Variable P : value -> Prop.
Hypothesis P_undef : P VUndef.
Hypothesis P_null : P VNull.
Hypothesis P_bool : forall b, P (VBool b).
Hypothesis P_num : forall x, P (VNum x).
Hypothesis P_str : forall s, P (VStr s).
Hypothesis P_obj : forall fs, Forall (fun kv => P (snd kv)) fs -> P (VObj fs).
Hypothesis P_arr : forall items, Forall P items -> P (VArr items).
Hypothesis P_error : forall n m, P (VError n m).

Fixpoint value_induction (v : value) : P v :=
match v with
| VUndef => P_undef
| VNull => P_null
| VBool b => P_bool b
| VNum x => P_num x
| VStr s => P_str s
| VObj fs =>
    P_obj fs
      ((fix fields (l : list (string * value))
          : Forall (fun kv => P (snd kv)) l :=
          match l with
          | [] => Forall_nil _
          | kv :: r => Forall_cons kv (value_induction (snd kv)) (fields r)
          end) fs)
| VArr items =>
    P_arr items
      ((fix elems (l : list value) : Forall P l :=
          match l with
          | [] => Forall_nil _
          | x :: r => Forall_cons x (value_induction x) (elems r)
          end) items)
| VError n m => P_error n m
end.
End ValueInduction.

(** Completion of an evaluation: a value, or an exception. *)
Inductive result (A : Type) :=
| Ok (a : A)
| Throw (e : value).
Arguments Ok {A} a.
Arguments Throw {A} e.

Definition rbind {A B} (r : result A) (k : A -> result B) : result B :=
  match r with
  | Ok a => k a
  | Throw e => Throw e
  end.

Definition TypeError (msg : string) : value := VError "TypeError" msg.

Definition nullish (v : value) : bool :=
  match v with VUndef | VNull => true | _ => false end.

(** Own properties of a parsed object, first binding of a key. *)
Fixpoint lookup (k : string) (fs : list (string * value)) : value :=
  match fs with
  | [] => VUndef
  | (k', v) :: r => if String.eqb k k' then v else lookup k r
  end.

Definition has_own (k : string) (fs : list (string * value)) : bool :=
  existsb (fun kv => String.eqb k (fst kv)) fs.

(** Property read [v.name].  The names the handlers read (amount,
    currency, orderNumber, agentName, message, ...) are defined on no
    prototype, so a read on a string, number, boolean or array, or of a
    key an object does not own, is [undefined]; a read on [undefined] or
    [null] raises a TypeError. *)
Definition get_prop (v : value) (name : string) : result value :=
  match v with
  | VUndef =>
      Throw (TypeError ("Cannot read properties of undefined (reading '"
                          ++ name ++ "')"))
  | VNull =>
      Throw (TypeError ("Cannot read properties of null (reading '"
                          ++ name ++ "')"))
  | VObj fs => Ok (lookup name fs)
  | VError n m =>
      Ok (if String.eqb name "message" then VStr m
          else if String.eqb name "name" then VStr n
          else VUndef)
  | _ => Ok VUndef
  end.

(** ToBoolean. *)
Definition truthy (v : value) : bool :=
  match v with
  | VUndef | VNull => false
  | VBool b => b
  | VNum x => negb (is_zero x || is_nan x)
  | VStr EmptyString => false
  | VStr (String _ _) => true
  | VObj _ | VArr _ | VError _ _ => true
  end.

(** [a || b] and [a && b] on already evaluated operands. *)
Definition or_else (a b : value) : value := if truthy a then a else b.

(** ToString(ToPrimitive(v)).  A plain object prints through
    Object.prototype.toString unless it owns a (necessarily
    non-callable) toString property, in which case no primitive can be
    obtained; an array prints as its elements joined by commas, with
    undefined and null elements empty. *)
Fixpoint to_string (v : value) : result string :=
  match v with
  | VUndef => Ok "undefined"
  | VNull => Ok "null"
  | VBool b => Ok (if b then "true" else "false")
  | VNum x => Ok (Num.to_string x)
  | VStr s => Ok s
  | VObj fs =>
      if has_own "toString" fs
      then Throw (TypeError "Cannot convert object to primitive value")
      else Ok "[object Object]"
  | VArr items =>
      rbind
        ((fix elems (l : list value) : result (list string) :=
            match l with
            | [] => Ok []
            | x :: r =>
                rbind (match x with
                       | VUndef | VNull => Ok EmptyString
                       | _ => to_string x
                       end)
                      (fun s => rbind (elems r) (fun ss => Ok (s :: ss)))
            end) items)
        (fun ss => Ok (Str.join "," ss))
  | VError n m =>
      Ok (match n, m with
          | _, EmptyString => n
          | EmptyString, _ => m
          | _, _ => n ++ ": " ++ m
          end)
  end.

(** ToNumber. *)
Definition to_number (v : value) : result number :=
  match v with
  | VUndef => Ok NaN
  | VNull => Ok zero
  | VBool b => Ok (if b then of_Z 1 else zero)
  | VNum x => Ok x
  | VStr s => Ok (NumLit.StringToNumber s)
  | _ => rbind (to_string v) (fun s => Ok (NumLit.StringToNumber s))
  end.

(** The global [isNaN]. *)
Definition isNaN (v : value) : result bool :=
  rbind (to_number v) (fun x => Ok (is_nan x)).

(** [v <= y] for a Number [y]. *)
Definition le_number (v : value) (y : number) : result bool :=
  rbind (to_number v) (fun x => Ok (leb x y)).

(** [v * y] for a Number [y]. *)
Definition times (v : value) (y : number) : result number :=
  rbind (to_number v) (fun x => Ok (mul x y)).

(** The global [parseFloat]: the argument is printed and the print is
    read.  A Number reads back as itself (Number::toString prints enough
    digits for that), except that -0 prints as "0". *)
Definition parseFloat (v : value) : result number :=
  match v with
  | VNum (S754_zero _) => Ok zero
  | VNum x => Ok x
  | _ => rbind (to_string v) (fun s => Ok (NumLit.parse_float_prefix s))
  end.

(** [s === v] for a string [s]. *)
Definition strict_eq_string (s : string) (v : value) : bool :=
  match v with
  | VStr t => String.eqb s t
  | _ => false
  end.

(** [Object.keys(v).length] for a value that is neither undefined nor
    null. *)
Definition keys_length (v : value) : nat :=
  match v with
  | VObj fs => List.length fs
  | VArr items => List.length items
  | VStr s => String.length s
  | _ => O
  end.

End JS.

(* ================================================================== *)
(** * SHA-256 (FIPS 180-4) and HMAC (RFC 2104), as Node's crypto module
      computes [createHmac("sha256", key).update(text).digest("hex")] *)

Module Crypto.

Definition bytes := list Z.

Definition bytes_of_string (s : string) : bytes :=
  map (fun c => Z.of_nat (nat_of_ascii c)) (list_ascii_of_string s).

(** ** 32-bit words *)

Definition w32 (x : Z) : Z := Z.land x 0xffffffff.
Definition add32 (x y : Z) : Z := w32 (x + y).
Definition rotr (n x : Z) : Z :=
  Z.lor (Z.shiftr x n) (w32 (Z.shiftl x (32 - n))).
Definition not32 (x : Z) : Z := Z.lxor x 0xffffffff.

Definition Ch (x y z : Z) : Z := Z.lxor (Z.land x y) (Z.land (not32 x) z).
Definition Maj (x y z : Z) : Z :=
  Z.lxor (Z.lxor (Z.land x y) (Z.land x z)) (Z.land y z).
Definition Sigma0 (x : Z) : Z :=
  Z.lxor (Z.lxor (rotr 2 x) (rotr 13 x)) (rotr 22 x).
Definition Sigma1 (x : Z) : Z :=
  Z.lxor (Z.lxor (rotr 6 x) (rotr 11 x)) (rotr 25 x).
Definition sigma0 (x : Z) : Z :=
  Z.lxor (Z.lxor (rotr 7 x) (rotr 18 x)) (Z.shiftr x 3).
Definition sigma1 (x : Z) : Z :=
  Z.lxor (Z.lxor (rotr 17 x) (rotr 19 x)) (Z.shiftr x 10).

(** The constants are defined as the standard defines them: the first 32
    bits of the fractional parts of the cube roots (for the rounds) and of
    the square roots (for the initial hash value) of the first primes. *)
Fixpoint primes_from (fuel : nat) (count : nat) (c : Z) (found : list Z)
  : list Z :=
match fuel, count with
| S f, S k =>
    if forallb (fun q => negb (c mod q =? 0)) found
    then primes_from f k (c + 1) (found ++ [c])%list
    else primes_from f count (c + 1) found
| _, _ => found
end.

Definition first_primes (n : nat) : list Z := primes_from 400 n 2 [].

(** Integer cube root, bit by bit from bit [n - 1] down. *)
Fixpoint cube_root_bits (n : nat) (x r : Z) : Z :=
match n with
| O => r
| S k =>
    let c := r + 2 ^ Z.of_nat k in
    cube_root_bits k x (if c * c * c <=? x then c else r)
end.

Definition fractional_cube_root (q : Z) : Z :=
w32 (cube_root_bits 40 (q * 2 ^ 96) 0).

Definition fractional_square_root (q : Z) : Z :=
w32 (Z.sqrt (q * 2 ^ 64)).

Definition K256 : list Z :=
Eval vm_compute in map fractional_cube_root (first_primes 64).

Definition H256 : list Z :=
Eval vm_compute in map fractional_square_root (first_primes 8).

(** ** Padding and parsing into blocks of sixteen words *)

Definition be_bytes (n : nat) (x : Z) : bytes :=
  map (fun i => Z.land (Z.shiftr x (8 * Z.of_nat i)) 0xff) (rev (seq 0 n)).

Definition pad (m : bytes) : bytes :=
  let l := Z.of_nat (List.length m) in
  (m ++ [0x80] ++ repeat 0 (Z.to_nat ((55 - l) mod 64))
     ++ be_bytes 8 (8 * l))%list.

Definition be_word (b3 b2 b1 b0 : Z) : Z :=
  Z.lor (Z.lor (Z.shiftl b3 24) (Z.shiftl b2 16)) (Z.lor (Z.shiftl b1 8) b0).

Fixpoint words (bs : bytes) : list Z :=
  match bs with
  | b3 :: b2 :: b1 :: b0 :: r => be_word b3 b2 b1 b0 :: words r
  | _ => []
  end.

Fixpoint blocks (fuel : nat) (ws : list Z) : list (list Z) :=
  match fuel, ws with
  | S f, _ :: _ => firstn 16 ws :: blocks f (skipn 16 ws)
  | _, _ => []
  end.

(** ** The hash computation *)

Fixpoint schedule (n : nat) (w : list Z) : list Z :=
  match n with
  | O => w
  | S k =>
      let t := List.length w in
      let at_ i := nth (t - i) w 0 in
      schedule k
        (w ++ [add32 (add32 (sigma1 (at_ 2%nat)) (at_ 7%nat))
                     (add32 (sigma0 (at_ 15%nat)) (at_ 16%nat))])%list
  end.

Record regs := { ra : Z; rb : Z; rc : Z; rd : Z;
                 re : Z; rf : Z; rg : Z; rh : Z }.

Definition round (s : regs) (kw : Z * Z) : regs :=
  let t1 := add32 (add32 (add32 (rh s) (Sigma1 (re s)))
                         (add32 (Ch (re s) (rf s) (rg s)) (fst kw)))
                  (snd kw) in
  let t2 := add32 (Sigma0 (ra s)) (Maj (ra s) (rb s) (rc s)) in
  {| ra := add32 t1 t2; rb := ra s; rc := rb s; rd := rc s;
     re := add32 (rd s) t1; rf := re s; rg := rf s; rh := rg s |}.

Definition compress (h : regs) (block : list Z) : regs :=
  let s := fold_left round (combine K256 (schedule 48 block)) h in
  {| ra := add32 (ra h) (ra s); rb := add32 (rb h) (rb s);
     rc := add32 (rc h) (rc s); rd := add32 (rd h) (rd s);
     re := add32 (re h) (re s); rf := add32 (rf h) (rf s);
     rg := add32 (rg h) (rg s); rh := add32 (rh h) (rh s) |}.

Definition initial : regs :=
  {| ra := nth 0 H256 0; rb := nth 1 H256 0; rc := nth 2 H256 0;
     rd := nth 3 H256 0; re := nth 4 H256 0; rf := nth 5 H256 0;
     rg := nth 6 H256 0; rh := nth 7 H256 0 |}.

Definition sha256 (m : bytes) : bytes :=
  let ws := words (pad m) in
  let h := fold_left compress (blocks (List.length ws) ws) initial in
  List.concat (map (be_bytes 4)
              [ra h; rb h; rc h; rd h; re h; rf h; rg h; rh h]).

(** ** HMAC *)

Definition block_size : nat := 64.

Definition hmac_key (key : bytes) : bytes :=
  let k := if (block_size <? List.length key)%nat then sha256 key else key in
  (k ++ repeat 0 (block_size - List.length k))%list.

Definition hmac_sha256 (key msg : bytes) : bytes :=
  let k := hmac_key key in
  let ipad := map (Z.lxor 0x36) k in
  let opad := map (Z.lxor 0x5c) k in
  sha256 (opad ++ sha256 (ipad ++ msg))%list.

(** ** Lowercase hexadecimal *)

Definition hex_digit (d : Z) : ascii :=
  ascii_of_nat (Z.to_nat (if d <? 10 then 48 + d else 87 + d)).

Fixpoint hex (bs : bytes) : string :=
  match bs with
  | [] => EmptyString
  | b :: r => String (hex_digit (b / 16)) (String (hex_digit (b mod 16)) (hex r))
  end.

Definition hmac_sha256_hex (key text : string) : string :=
  hex (hmac_sha256 (bytes_of_string key) (bytes_of_string text)).

End Crypto.

(* ================================================================== *)
(** * The confirmation e-mail template

    The text of the template literal [htmlContent] of the
    /agent_to_customer handler, cut at its nine substitutions into the
    pieces [piece0] .. [piece9], in order.  The pieces are
    spelled with a backquote wherever the source has a double quote (a
    template literal holds no backquote of its own); [text] puts the
    double quotes back. *)

Module Template.

Fixpoint text (s : string) : string :=
  match s with
  | EmptyString => EmptyString
  | String c r =>
      String (if Ascii.eqb c "`" then ascii_of_nat 34 else c) (text r)
  end.

Definition utf8 (l : list Z) : string :=
  fold_right (fun n s => String (ascii_of_nat (Z.to_nat n)) s) EmptyString l.

Definition piece0 : string := text "
    <!DOCTYPE html>
    <html lang=`en`>
    <head>...</head>
    <body style=`margin:0; padding:0; font-family: 'Segoe UI', Tahoma, Geneva, Verdana, sans-serif; background-color: #f8f9fa;`>
      <table role=`presentation` ...>
        <!-- Header -->
        <tr>...</tr>

        <!-- Main Content -->
        <tr>
          <td style=`padding: 40px 30px;`>

            <!-- Greeting -->
            <div style=`margin-bottom: 30px;`>
              <h2 style=`color: #2c3e50; margin: 0 0 15px; font-size: 24px; font-weight: 600;`>
                Hello ".

(** The greeting ends with the waving-hand glyph as the file holds it. *)
Definition piece1 (wave : string) : string :=
  "! " ++ wave ++ text "
              </h2>
              <p style=`color: #5a6c7d; line-height: 1.6; margin: 0; font-size: 16px;`>
                We're excited to confirm that your order has been successfully placed and is being processed. Here are the details:
              </p>
            </div>

            <!-- Order Summary Card -->
            <div style=`background: linear-gradient(145deg, #f8f9ff 0%, #e8f2ff 100%); border-radius: 12px; padding: 25px; margin-bottom: 30px; border: 1px solid #e3f2fd;`>
              <div style=`display: flex; align-items: center; margin-bottom: 20px;`>
                <img src=`https://cdn-icons-png.flaticon.com/512/3081/3081559.png` alt=`Order` style=`width: 24px; height: 24px; margin-right: 10px;`>
                <h3 style=`color: #2c3e50; margin: 0; font-size: 20px; font-weight: 600;`>Order Summary</h3>
              </div>

              <table style=`width: 100%; border-collapse: collapse;`>
                <tr>
                  <td style=`padding: 8px 0; color: #5a6c7d; font-weight: 500;`>Order Number:</td>
                  <td style=`padding: 8px 0; color: #2c3e50; font-weight: 700; text-align: right;`>#".

Definition piece2 : string := text "</td>
                </tr>
                <tr>
                  <td style=`padding: 8px 0; color: #5a6c7d; font-weight: 500;`>Total Amount:</td>
                  <td style=`padding: 8px 0; color: #27ae60; font-weight: 700; text-align: right; font-size: 18px;`>".

Definition piece3 : string := text " ".

Definition piece4 : string := text "</td>
                </tr>
                <tr>
                  <td style=`padding: 8px 0; color: #5a6c7d; font-weight: 500;`>Advance Paid:</td>
                  <td style=`padding: 8px 0; color: #e67e22; font-weight: 700; text-align: right;`>".

Definition piece5 : string := text " ".

Definition piece6 : string := text "</td>
                </tr>
                <tr>
                  <td style=`padding: 8px 0; color: #5a6c7d; font-weight: 500;`>Payment Method:</td>
                  <td style=`padding: 8px 0; color: #2c3e50; font-weight: 600; text-align: right;`>".

Definition piece7 : string := text "</td>
                </tr>
                <!-- NEW: Agent Name -->
                <tr>
                  <td style=`padding: 8px 0; color: #5a6c7d; font-weight: 500;`>Agent Name:</td>
                  <td style=`padding: 8px 0; color: #2c3e50; font-weight: 700; text-align: right;`>".

Definition piece8 : string := text "</td>
                </tr>
                <tr>
                  <td style=`padding: 8px 0; color: #5a6c7d; font-weight: 500;`>Product:</td>
                  <td style=`padding: 8px 0; color: #2c3e50; font-weight: 700; text-align: right;`>".

Definition piece9 : string := text "</td>
                </tr>
              </table>
            </div>

            <!-- Products Section ... -->
            <!-- Customer & Shipping Info ... -->
            <!-- Timeline ... -->
            <!-- CTA ... -->

          </td>
        </tr>

        <!-- Footer ... -->
      </table>
    </body>
    </html>
  ".

End Template.

(* ================================================================== *)
(** * Dates: [Date.prototype.toISOString] *)

Module Date.

(** Year, month and day of a day number counted from 1970-01-01, in the
    proleptic Gregorian calendar. *)
Definition civil_from_days (days : Z) : Z * Z * Z :=
let z := days + 719468 in
let era := z / 146097 in
let doe := z - era * 146097 in
let yoe := (doe - doe / 1460 + doe / 36524 - doe / 146096) / 365 in
let doy := doe - (365 * yoe + yoe / 4 - yoe / 100) in
let mp := (5 * doy + 2) / 153 in
let d := doy - (153 * mp + 2) / 5 + 1 in
let m := if mp <? 10 then mp + 3 else mp - 9 in
let y := yoe + era * 400 in
(if m <=? 2 then y + 1 else y, m, d).

Definition year_string (y : Z) : string :=
if (0 <=? y) && (y <=? 9999) then Str.pad 4 (Str.decimal y)
else (if y <? 0 then "-" else "+") ++ Str.pad 6 (Str.decimal (Z.abs y)).

(** The ISO 8601 print of a time value in milliseconds since the epoch. *)
Definition toISOString (ms : Z) : string :=
let '(y, m, d) := civil_from_days (ms / 86400000) in
let r := ms mod 86400000 in
year_string y ++ "-" ++ Str.pad 2 (Str.decimal m)
  ++ "-" ++ Str.pad 2 (Str.decimal d)
  ++ "T" ++ Str.pad 2 (Str.decimal (r / 3600000))
  ++ ":" ++ Str.pad 2 (Str.decimal (r / 60000 mod 60))
  ++ ":" ++ Str.pad 2 (Str.decimal (r / 1000 mod 60))
  ++ "." ++ Str.pad 3 (Str.decimal (r mod 1000)) ++ "Z".

End Date.

(* ================================================================== *)
(** * The handlers' run-time: environment, clock, collaborators *)

Module Runtime.
Import JS.

(** What a collaborator's promise is rejected with: an Error (nodemailer,
    network failures) or a plain object (the gateway's error payload). *)
Inductive reason :=
| RError (name message : string)
| RObject (fields : list (string * value)).

Definition reason_value (r : reason) : value :=
match r with
| RError n m => VError n m
| RObject fs => VObj fs
end.

(** The outbound calls a handler makes. *)
Inductive call :=
| OrdersCreate (options : value)      (* razorpay.orders.create(options) *)
| SendMail (mailOptions : value).     (* transporter.sendMail(mailOptions) *)

(** Everything outside the handler: [process.env], the successive readings
    of the clock, and how the two collaborators answer. *)
Record world := {
  env : string -> option string;
  clock : nat -> Z;
  orders_create : value -> value + reason;
  sendMail : value -> list (string * value) + reason
}.

Record state := { reads : nat; calls : list call }.

(** Handler code: reads the world, threads the state, may throw. *)
Definition M (A : Type) : Type := world -> state -> result A * state.

Definition ret {A} (a : A) : M A := fun _ st => (Ok a, st).

Definition bind {A B} (m : M A) (k : A -> M B) : M B :=
fun w st =>
  match m w st with
  | (Ok a, st') => k a w st'
  | (Throw e, st') => (Throw e, st')
  end.

Definition lift {A} (r : result A) : M A := fun _ st => (r, st).

(** [try { m } catch (error) { h error }]. *)
Definition try_catch {A} (m : M A) (h : value -> M A) : M A :=
fun w st =>
  match m w st with
  | (Ok a, st') => (Ok a, st')
  | (Throw e, st') => h e w st'
  end.

(** [process.env.NAME]: a string, or undefined. *)
Definition getenv (w : world) (name : string) : value :=
match env w name with
| Some s => VStr s
| None => VUndef
end.

Definition process_env (name : string) : M value :=
fun w st => (Ok (getenv w name), st).

(** [Date.now()], and the time value of [new Date()]. *)
Definition Date_now : M Z :=
fun w st =>
  (Ok (clock w (reads st)), {| reads := S (reads st); calls := calls st |}).

(** [await razorpay.orders.create(options)]. *)
Definition razorpay_orders_create (options : value) : M value :=
fun w st =>
  let st' := {| reads := reads st;
                calls := (calls st ++ [OrdersCreate options])%list |} in
  match orders_create w options with
  | inl order => (Ok order, st')
  | inr r => (Throw (reason_value r), st')
  end.

(** [await transporter.sendMail(mailOptions)]. *)
Definition transporter_sendMail (mailOptions : value) : M value :=
fun w st =>
  let st' := {| reads := reads st;
                calls := (calls st ++ [SendMail mailOptions])%list |} in
  match sendMail w mailOptions with
  | inl info => (Ok (VObj info), st')
  | inr r => (Throw (reason_value r), st')
  end.

(** [const { first, ... } = source]: the source must be neither undefined
    nor null. *)
Definition destructure (v : value) (first source : string) : result unit :=
match v with
| VUndef | VNull =>
    Throw (TypeError ("Cannot destructure property '" ++ first ++ "' of '"
                        ++ source ++ "' as it is "
                        ++ (match v with VNull => "null" | _ => "undefined" end)
                        ++ "."))
| _ => Ok tt
end.

(** A property of a destructured (hence object-coercible) value. *)
Definition prop (v : value) (name : string) : value :=
match get_prop v name with
| Ok x => x
| Throw _ => VUndef
end.

(** [crypto.createHmac("sha256", key).update(text).digest("hex")]: the key
    must be a string ([process.env] holds nothing else but undefined). *)
Definition createHmac_sha256_hex (key : value) (text : string) : result string :=
match key with
| VStr k => Ok (Crypto.hmac_sha256_hex k text)
| _ =>
    Throw (TypeError ("The " ++ Str.dq ++ "key" ++ Str.dq
                        ++ " argument must be of type string or an instance of ArrayBuffer, Buffer, TypedArray, DataView, KeyObject, or CryptoKey. Received undefined"))
end.

(** [res.status(code).json(body)]. *)
Record response := { status : Z; json : value }.

Definition respond (code : Z) (fields : list (string * value)) : response :=
{| status := code; json := VObj fields |}.

(** How the handling of one request ends: a response was sent, or an
    exception left the handler (the promise of the async handler is
    rejected and no response is sent by it). *)
Inductive outcome :=
| Responded (r : response)
| Escaped (e : value).

Definition handle (h : value -> M response) (w : world) (body : value)
  : outcome * list call :=
match h body w {| reads := O; calls := [] |} with
| (Ok r, st) => (Responded r, calls st)
| (Throw e, st) => (Escaped e, calls st)
end.

(** What a client observes of an outcome: the status code and the success
    flag of the JSON body, when a response was sent. *)
Definition status_of (o : outcome) : option Z :=
match o with
| Responded r => Some (status r)
| Escaped _ => None
end.

Definition success_of (o : outcome) : option value :=
match o with
| Responded r => Some (prop (json r) "success")
| Escaped _ => None
end.

(** The amounts of the gateway calls of a trace. *)
Definition amounts_sent (cs : list call) : list value :=
flat_map (fun c => match c with
                   | OrdersCreate options => [prop options "amount"]
                   | SendMail _ => []
                   end) cs.

(** A field of the JSON body of a response holds the value [v]. *)
Definition body_includes (r : response) (v : value) : Prop :=
match json r with
| VObj fields => exists k, In (k, v) fields
| _ => False
end.

End Runtime.

Declare Scope handler_scope.
Delimit Scope handler_scope with handler.
Notation "x <- m ;; k" := (Runtime.bind m (fun x => k))
  (at level 100, m at next level, right associativity) : handler_scope.
Notation "' pat <- m ;; k" := (Runtime.bind m (fun x => let pat := x in k))
  (at level 100, pat pattern, m at next level, right associativity)
  : handler_scope.

(* ================================================================== *)
(** * src/index.js

    The three route handlers.  Console output is left out: the logged
    expressions read the request and the environment and cannot throw;
    the one that has an effect, the receipt default of /create-order,
    which reads the clock, is kept. *)

Module Index.
Import JS Runtime.
Local Open Scope handler_scope.

(** The glyphs of the template, byte for byte as index.js holds them. *)
Definition wave : string :=
Template.utf8 [195; 176; 197; 184; 226; 128; 152; 226; 128; 185].
Definition rupee : string :=
Template.utf8 [195; 162; 226; 128; 154; 194; 185].

(** [receipt || `receipt_${Date.now()}`]. *)
Definition receipt_or_default (receipt : value) : M value :=
if truthy receipt then ret receipt
else t <- Date_now ;;
     ret (VStr ("receipt_" ++ Num.to_string (Num.of_Z t))).

(** [!amount || isNaN(amount) || amount <= 0]. *)
Definition invalid_amount (amount : value) : result bool :=
if negb (truthy amount) then Ok true
else rbind (isNaN amount) (fun nan =>
     if nan then Ok true else le_number amount Num.zero).

(** POST /create-order *)
Definition create_order (body : value) : M response :=
try_catch
  (key_id <- process_env "RAZORPAY_KEY_ID" ;;
   key_secret <- process_env "RAZORPAY_KEY_SECRET" ;;
   if negb (truthy key_id) || negb (truthy key_secret) then
     ret (respond 500 [ ("success", VBool false)
                      ; ("message", VStr "Razorpay configuration error")
                      ; ("error", VStr "Missing credentials") ])
   else
     _ <- lift (destructure body "amount" "req.body") ;;
     let amount := prop body "amount" in
     let currency := prop body "currency" in
     let receipt := prop body "receipt" in
     let notes := prop body "notes" in
     if negb (truthy body) || Nat.eqb (keys_length body) 0 then
       ret (respond 400 [ ("success", VBool false)
                        ; ("message", VStr "Invalid request")
                        ; ("error", VStr "Request body is empty") ])
     else
       invalid <- lift (invalid_amount amount) ;;
       if invalid then
         ret (respond 400 [ ("success", VBool false)
                          ; ("message", VStr "Invalid amount")
                          ; ("error", VStr "Amount must be a positive number")
                          ; ("receivedAmount", amount) ])
       else
         parsedAmount <- lift (parseFloat amount) ;;
         (* the parameters are logged: the receipt default reads the clock *)
         _ <- receipt_or_default receipt ;;
         receipt' <- receipt_or_default receipt ;;
         let options :=
           VObj [ ("amount",
                   VNum (Num.Math_round (Num.mul parsedAmount (Num.of_Z 100))))
                ; ("currency", or_else currency (VStr "INR"))
                ; ("receipt", receipt')
                ; ("notes", or_else notes (VObj [])) ] in
         order <- razorpay_orders_create options ;;
         key <- process_env "RAZORPAY_KEY_ID" ;;
         ret (respond 200 [ ("success", VBool true)
                          ; ("order", order)
                          ; ("key", key) ]))
  (fun error =>
     message <- lift (get_prop error "message") ;;
     timestamp <- Date_now ;;
     requestId <- Date_now ;;
     ret (respond 500
            [ ("success", VBool false)
            ; ("message", VStr "Failed to create order")
            ; ("error", message)
            ; ("debug",
               VObj [ ("timestamp", VStr (Date.toISOString timestamp))
                    ; ("requestId",
                       VStr (Num.to_string (Num.of_Z requestId))) ]) ])).

(** POST /verify-payment *)
Definition verify_payment (body : value) : M response :=
try_catch
  (_ <- lift (destructure body "razorpay_order_id" "req.body") ;;
   let razorpay_order_id := prop body "razorpay_order_id" in
   let razorpay_payment_id := prop body "razorpay_payment_id" in
   let razorpay_signature := prop body "razorpay_signature" in
   order_text <- lift (to_string razorpay_order_id) ;;
   payment_text <- lift (to_string razorpay_payment_id) ;;
   let sign := order_text ++ "|" ++ payment_text in
   secret <- process_env "RAZORPAY_KEY_SECRET" ;;
   expectedSignature <- lift (createHmac_sha256_hex secret sign) ;;
   let isAuthentic := strict_eq_string expectedSignature razorpay_signature in
   if isAuthentic then
     ret (respond 200 [ ("success", VBool true)
                      ; ("message", VStr "Payment verification successful")
                      ; ("orderId", razorpay_order_id)
                      ; ("paymentId", razorpay_payment_id) ])
   else
     ret (respond 400 [ ("success", VBool false)
                      ; ("message", VStr "Payment verification failed") ]))
  (fun error =>
     message <- lift (get_prop error "message") ;;
     ret (respond 500
            [ ("success", VBool false)
            ; ("message", VStr "Internal server error during verification")
            ; ("error", message) ])).

(** [(orderDetails && orderDetails.agentName) || agentName
      || 'Call Center Agent'] *)
Definition resolvedAgentName (orderDetails agentName : value) : value :=
or_else
  (or_else (if truthy orderDetails then prop orderDetails "agentName"
            else orderDetails)
           agentName)
  (VStr "Call Center Agent").

(** The template literal [htmlContent]: each substitution is evaluated and
    printed in turn. *)
Definition htmlContent (wave rupee : string)
    (customerDetails orderDetails resolved productName : value)
  : result string :=
rbind (get_prop customerDetails "firstName") (fun firstName =>
rbind (to_string firstName) (fun s_firstName =>
rbind (get_prop orderDetails "orderNumber") (fun orderNumber =>
rbind (to_string orderNumber) (fun s_orderNumber =>
rbind (get_prop orderDetails "currency") (fun currency1 =>
rbind (to_string (or_else currency1 (VStr rupee))) (fun s_currency1 =>
rbind (get_prop orderDetails "totalAmount") (fun totalAmount =>
rbind (to_string totalAmount) (fun s_totalAmount =>
rbind (get_prop orderDetails "currency") (fun currency2 =>
rbind (to_string (or_else currency2 (VStr rupee))) (fun s_currency2 =>
rbind (get_prop orderDetails "Advance_Amount") (fun advance =>
rbind (to_string advance) (fun s_advance =>
rbind (get_prop orderDetails "paymentMethod") (fun paymentMethod =>
rbind (to_string paymentMethod) (fun s_paymentMethod =>
rbind (to_string resolved) (fun s_agent =>
rbind (to_string productName) (fun s_product =>
Ok (Template.piece0 ++ s_firstName
      ++ Template.piece1 wave ++ s_orderNumber
      ++ Template.piece2 ++ s_currency1
      ++ Template.piece3 ++ s_totalAmount
      ++ Template.piece4 ++ s_currency2
      ++ Template.piece5 ++ s_advance
      ++ Template.piece6 ++ s_paymentMethod
      ++ Template.piece7 ++ s_agent
      ++ Template.piece8 ++ s_product
      ++ Template.piece9))))))))))))))))).

(** POST /agent_to_customer, for the glyphs of the template. *)
Definition agent_to_customer_with (wave rupee : string) (body : value)
  : M response :=
(* nothing here is inside a try block until the mail is sent; the request
   is logged first, which evaluates nothing that can throw *)
_ <- lift (destructure body "customerEmail" "req.body") ;;
let customerEmail := prop body "customerEmail" in
let orderDetails := prop body "orderDetails" in
let customerDetails := prop body "customerDetails" in
let productName := prop body "productName" in
let agentName := prop body "agentName" in
if negb (truthy customerEmail) then
  ret (respond 400 [ ("success", VBool false)
                   ; ("message", VStr "Customer email is required") ])
else
  orderNumber <- lift (get_prop orderDetails "orderNumber") ;;
  s_orderNumber <- lift (to_string orderNumber) ;;
  let emailSubject := "Order Confirmation #" ++ s_orderNumber in
  let resolved := resolvedAgentName orderDetails agentName in
  html <- lift (htmlContent wave rupee customerDetails orderDetails
                            resolved productName) ;;
  email_user <- process_env "EMAIL_USER" ;;
  let mailOptions :=
    VObj [ ("from", email_user)
         ; ("to", customerEmail)
         ; ("cc", email_user)
         ; ("subject", VStr emailSubject)
         ; ("html", VStr html) ] in
  try_catch
    (info <- transporter_sendMail mailOptions ;;
     (* the message identifier is read for the log only *)
     _ <- lift (get_prop info "messageId") ;;
     ret (respond 200
            [ ("success", VBool true)
            ; ("message", VStr "Confirmation email sent successfully!") ]))
    (fun error =>
       message <- lift (get_prop error "message") ;;
       ret (respond 500
              [ ("success", VBool false)
              ; ("message", VStr "Failed to send confirmation email")
              ; ("error", message) ])).

Definition agent_to_customer : value -> M response :=
agent_to_customer_with wave rupee.

End Index.

(* ================================================================== *)
(** * src/unnamed/part_000: the earlier copy of the server

    Its /verify-payment and /agent_to_customer handlers have the text of
    index.js (the template holds the two glyphs in their proper UTF-8
    form); its /create-order handler has no validation. *)

Module Part000.
Import JS Runtime.
Local Open Scope handler_scope.

Definition wave : string := Template.utf8 [240; 159; 145; 139].
Definition rupee : string := Template.utf8 [226; 130; 185].

(** POST /create-order *)
Definition create_order (body : value) : M response :=
try_catch
  (_ <- lift (destructure body "amount" "req.body") ;;
   let amount := prop body "amount" in
   let currency := prop body "currency" in
   let receipt := prop body "receipt" in
   let notes := prop body "notes" in
   paise <- lift (times amount (Num.of_Z 100)) ;;
   receipt' <- Index.receipt_or_default receipt ;;
   let options :=
     VObj [ ("amount", VNum paise)
          ; ("currency", or_else currency (VStr "INR"))
          ; ("receipt", receipt')
          ; ("notes", or_else notes (VObj [])) ] in
   order <- razorpay_orders_create options ;;
   key_id <- process_env "RAZORPAY_KEY_ID" ;;
   ret (respond 200 [ ("success", VBool true)
                    ; ("order", order)
                    ; ("key", key_id) ]))
  (fun error =>
     message <- lift (get_prop error "message") ;;
     ret (respond 500 [ ("success", VBool false)
                      ; ("message", VStr "Failed to create order")
                      ; ("error", message) ])).

Definition verify_payment : value -> M response := Index.verify_payment.

Definition agent_to_customer : value -> M response :=
Index.agent_to_customer_with wave rupee.

End Part000.

(* ================================================================== *)
(** * Sample worlds and requests *)

Module Samples.
Import JS Runtime.

(** A configured deployment whose collaborators answer. *)
Definition shop : world :=
{| env := fun name =>
            if String.eqb name "RAZORPAY_KEY_ID" then Some "rzp_test_1"
            else if String.eqb name "RAZORPAY_KEY_SECRET" then Some "s3cr3t"
            else if String.eqb name "EMAIL_USER" then Some "shop@example.com"
            else None;
   clock := fun k => 1793583723456 + Z.of_nat k;
   orders_create := fun options =>
     inl (VObj [ ("id", VStr "order_1")
               ; ("amount", prop options "amount") ]);
   sendMail := fun _ => inl [ ("messageId", VStr "<m1@example.com>") ] |}.

(** The same deployment with no gateway credentials in the environment. *)
Definition unconfigured : world :=
{| env := fun name =>
            if String.eqb name "EMAIL_USER" then Some "shop@example.com"
            else None;
   clock := clock shop;
   orders_create := orders_create shop;
   sendMail := sendMail shop |}.

(** The same deployment with a gateway that rejects every order. *)
Definition gateway_down : world :=
{| env := env shop;
   clock := clock shop;
   orders_create := fun _ => inr (RError "Error" "getaddrinfo ENOTFOUND");
   sendMail := sendMail shop |}.

(** The same deployment with a mail transport that fails. *)
Definition mail_down : world :=
{| env := env shop;
   clock := clock shop;
   orders_create := orders_create shop;
   sendMail := fun _ => inr (RError "Error" "connect ECONNREFUSED") |}.

(** 499.99, as [JSON.parse] reads it. *)
Definition n499_99 : Num.number := Num.of_decimal false 49999 (-2).

Definition order_request : value := VObj [ ("amount", VNum n499_99) ].

(** 4.35, whose binary64 product with 100 is 434.99999999999994. *)
Definition n4_35 : Num.number := Num.of_decimal false 435 (-2).

Definition fractional_request : value := VObj [ ("amount", VNum n4_35) ].

Definition negative_amount_request : value :=
VObj [ ("amount", VNum (Num.of_Z (-5))) ].

(** 0.015: the Number is a little below the decimal, and its binary64
    product with 100 is 1.5. *)
Definition n0_015 : Num.number := Num.of_decimal false 15 (-3).

Definition small_fraction_request : value := VObj [ ("amount", VNum n0_015) ].

(** 1e308, whose product with 100 is beyond the largest Number. *)
Definition n1e308 : Num.number := Num.of_decimal false 1 308.

Definition huge_amount_request : value := VObj [ ("amount", VNum n1e308) ].

(** An order request whose amount is the boolean [true]. *)
Definition boolean_amount_request : value := VObj [ ("amount", VBool true) ].

Definition verify_request : value :=
VObj [ ("razorpay_order_id", VStr "order_1")
     ; ("razorpay_payment_id", VStr "pay_1")
     ; ("razorpay_signature",
        VStr "c4ba7785e595b717abd8b4847eaf30e97f23acbdbe1b8f5cbbf17d28d63b068f") ].

Definition verify_request_without_ids : value :=
VObj [ ("razorpay_signature",
        VStr "03e5f585dab7df454e1a10ed014d6cd597a01169faee64b2452f394dd37f5406") ].

Definition confirmation_request : value :=
VObj [ ("customerEmail", VStr "asha@example.com")
     ; ("orderDetails",
        VObj [ ("orderNumber", VNum (Num.of_Z 1042))
             ; ("totalAmount", VNum n499_99)
             ; ("Advance_Amount", VNum (Num.of_Z 100))
             ; ("paymentMethod", VStr "UPI")
             ; ("agentName", VStr "X") ])
     ; ("customerDetails", VObj [ ("firstName", VStr "Asha") ])
     ; ("productName", VStr "Kit")
     ; ("agentName", VStr "Y") ].

(** A confirmation request that carries the customer's address only. *)
Definition confirmation_without_order_details : value :=
VObj [ ("customerEmail", VStr "asha@example.com") ].

Definition confirmation_without_email : value :=
VObj [ ("orderDetails", VObj [ ("orderNumber", VNum (Num.of_Z 1042)) ])
     ; ("customerDetails", VObj [ ("firstName", VStr "Asha") ])
     ; ("productName", VStr "Kit") ].

(** An order request whose amount is a string, as a form would send it. *)
Definition string_amount_request : value :=
VObj [ ("amount", VStr "499.99") ].

(** A confirmation request whose address is the empty string. *)
Definition confirmation_with_empty_email : value :=
VObj [ ("customerEmail", VStr EmptyString)
     ; ("orderDetails", VObj [ ("orderNumber", VNum (Num.of_Z 1042)) ])
     ; ("customerDetails", VObj [ ("firstName", VStr "Asha") ])
     ; ("productName", VStr "Kit") ].

(** A confirmation request with order details and no customerDetails. *)
Definition confirmation_without_customer_details : value :=
VObj [ ("customerEmail", VStr "asha@example.com")
     ; ("orderDetails", VObj [ ("orderNumber", VNum (Num.of_Z 1042)) ])
     ; ("productName", VStr "Kit") ].

(** A confirmation request whose first name and product name are markup,
    and whose agent is named at the top level only. *)
Definition confirmation_with_markup : value :=
VObj [ ("customerEmail", VStr "asha@example.com")
     ; ("orderDetails",
        VObj [ ("orderNumber", VNum (Num.of_Z 1042))
             ; ("currency", VStr "$")
             ; ("totalAmount", VNum n499_99)
             ; ("Advance_Amount", VNum (Num.of_Z 100))
             ; ("paymentMethod", VStr "UPI") ])
     ; ("customerDetails", VObj [ ("firstName", VStr "<b>Asha</b>") ])
     ; ("productName", VStr "<img src=x>")
     ; ("agentName", VStr "Y") ].

End Samples.

(* ================================================================== *)
(** * The vocabulary of the statements below: the responses of the
      handlers by name, and the conditions the statements speak of *)

Module Vocabulary.
Import JS Runtime.

Definition verified (order_id payment_id : value) : response :=
respond 200 [ ("success", VBool true)
            ; ("message", VStr "Payment verification successful")
            ; ("orderId", order_id)
            ; ("paymentId", payment_id) ].

Definition not_verified : response :=
respond 400 [ ("success", VBool false)
            ; ("message", VStr "Payment verification failed") ].

Definition configuration_error : response :=
respond 500 [ ("success", VBool false)
            ; ("message", VStr "Razorpay configuration error")
            ; ("error", VStr "Missing credentials") ].

Definition empty_body : response :=
respond 400 [ ("success", VBool false)
            ; ("message", VStr "Invalid request")
            ; ("error", VStr "Request body is empty") ].

Definition bad_amount (amount : value) : response :=
respond 400 [ ("success", VBool false)
            ; ("message", VStr "Invalid amount")
            ; ("error", VStr "Amount must be a positive number")
            ; ("receivedAmount", amount) ].

Definition order_created (order key : value) : response :=
respond 200 [ ("success", VBool true)
            ; ("order", order)
            ; ("key", key) ].

Definition email_required : response :=
respond 400 [ ("success", VBool false)
            ; ("message", VStr "Customer email is required") ].

Definition email_sent : response :=
respond 200 [ ("success", VBool true)
            ; ("message", VStr "Confirmation email sent successfully!") ].

Definition email_failed (message : value) : response :=
respond 500 [ ("success", VBool false)
            ; ("message", VStr "Failed to send confirmation email")
            ; ("error", message) ].

(** Both gateway credentials are set, and not to the empty string. *)
Definition configured (w : world) : Prop :=
truthy (getenv w "RAZORPAY_KEY_ID") = true
/\ truthy (getenv w "RAZORPAY_KEY_SECRET") = true.

(** The options object of index.js for a request that passes validation
    with the parsed amount [parsed]: the receipt default is the second
    reading of the clock (the first one is logged). *)
Definition receipt_sent (w : world) (receipt : value) : value :=
if truthy receipt then receipt
else VStr ("receipt_" ++ Num.to_string (Num.of_Z (clock w 1))).

Definition options_sent (w : world) (body : value) (parsed : Num.number)
  : value :=
VObj [ ("amount", VNum (Num.Math_round (Num.mul parsed (Num.of_Z 100))))
     ; ("currency", or_else (prop body "currency") (VStr "INR"))
     ; ("receipt", receipt_sent w (prop body "receipt"))
     ; ("notes", or_else (prop body "notes") (VObj [])) ].

(** An amount the validation is meant to stop: absent from the body, not
    a number (its Number coercion is NaN), or at most zero. *)
Definition unacceptable_amount (amount : value) : Prop :=
amount = VUndef
\/ (exists x, to_number amount = Ok x /\ Num.is_nan x = true)
\/ (exists x, to_number amount = Ok x /\ Num.leb x Num.zero = true).

(** The /agent_to_customer handler, in either copy of the server. *)
Definition confirmation_handler (h : value -> M response) : Prop :=
h = Index.agent_to_customer \/ h = Part000.agent_to_customer.

(** Code that throws Error objects and rejection reasons only, never
    undefined or null, so that [error.message] can be read in a catch
    clause. *)
Definition throws_objects {A} (m : M A) : Prop :=
forall w st e st', m w st = (Throw e, st') -> nullish e = false.

Definition result_throws_objects {A} (r : result A) : Prop :=
forall e, r = Throw e -> nullish e = false.

(** The answer of the catch clause of /create-order in index.js, with
    the two readings of the clock it reports. *)
Definition order_failed (message : value) (timestamp requestId : Z)
  : response :=
respond 500
  [ ("success", VBool false)
  ; ("message", VStr "Failed to create order")
  ; ("error", message)
  ; ("debug",
     VObj [ ("timestamp", VStr (Date.toISOString timestamp))
          ; ("requestId", VStr (Num.to_string (Num.of_Z requestId))) ]) ].

(** The answer of the catch clause of /create-order in part_000. *)
Definition order_failed_plain (message : value) : response :=
respond 500 [ ("success", VBool false)
            ; ("message", VStr "Failed to create order")
            ; ("error", message) ].

(** The answer of the catch clause of /verify-payment. *)
Definition verification_failed (message : value) : response :=
respond 500 [ ("success", VBool false)
            ; ("message", VStr "Internal server error during verification")
            ; ("error", message) ].

(** How many times index.js has read the clock when it calls the
    gateway: twice (the log, the options) when the receipt is defaulted. *)
Definition reads_before_call (receipt : value) : nat :=
if truthy receipt then 0%nat else 2%nat.

(** The options object of part_000 for an amount that coerces to [x]: the
    receipt default is the first reading of the clock. *)
Definition part000_options_sent (w : world) (body : value) (x : Num.number)
  : value :=
VObj [ ("amount", VNum (Num.mul x (Num.of_Z 100)))
     ; ("currency", or_else (prop body "currency") (VStr "INR"))
     ; ("receipt",
        if truthy (prop body "receipt") then prop body "receipt"
        else VStr ("receipt_" ++ Num.to_string (Num.of_Z (clock w 0))))
     ; ("notes", or_else (prop body "notes") (VObj [])) ].

(** The rational [N / D] lies where the record says: at its mantissa,
    below, at or above the middle of the mantissa and its successor. *)
Definition located (mrs : shr_record) (N D : Z) : Prop :=
match shr_r mrs, shr_s mrs with
| false, false => N = shr_m mrs * D
| false, true => shr_m mrs * D < N /\ 2 * N < (2 * shr_m mrs + 1) * D
| true, false => 2 * N = (2 * shr_m mrs + 1) * D
| true, true => (2 * shr_m mrs + 1) * D < 2 * N /\ N < (shr_m mrs + 1) * D
end.

(** A lowercase hexadecimal digit. *)
Definition is_lower_hex (c : ascii) : bool :=
let n := nat_of_ascii c in
((48 <=? n)%nat && (n <=? 57)%nat) || ((97 <=? n)%nat && (n <=? 102)%nat).

End Vocabulary.

(* ================================================================== *)
(** * Properties *)

Import JS Runtime Vocabulary.

(** ** Stepping through handler code *)

Lemma destructure_ok (v : value) (first source : string) :
  nullish v = false -> destructure v first source = Ok tt.
Proof. destruct v; simpl; intros H; try reflexivity; discriminate H. Qed.

Lemma strict_eq_string_iff (s : string) (v : value) :
  strict_eq_string s v = true <-> v = VStr s.
Proof.
  destruct v; simpl; split; intros H; try discriminate H.
  - apply String.eqb_eq in H. now subst.
  - injection H as ->. apply String.eqb_refl.
Qed.

Lemma strict_eq_string_other (s : string) (v : value) :
  v <> VStr s -> strict_eq_string s v = false.
Proof.
  intros H. destruct (strict_eq_string s v) eqn:E; [ | reflexivity ].
  apply strict_eq_string_iff in E. contradiction.
Qed.

Ltac step := cbv beta iota zeta.

(** ** The platform model on known values *)

(** FIPS 180-4 and RFC 4231 test vectors. *)
Example sha256_test_vectors :
  Crypto.hex (Crypto.sha256 (Crypto.bytes_of_string "abc"))
    = "ba7816bf8f01cfea414140de5dae2223b00361a396177a9cb410ff61f20015ad"
  /\ Crypto.hex (Crypto.sha256 (Crypto.bytes_of_string
        "abcdbcdecdefdefgefghfghighijhijkijkljklmklmnlmnomnopnopq"))
     = "248d6a61d20638b8e5c026930c3e6039a33ce45964ff2167f6ecedd419db06c1"
  /\ Crypto.hmac_sha256_hex "Jefe" "what do ya want for nothing?"
     = "5bdcc146bf60754e6a042426089575c75a003f089d2739839dec58b964ec3843".
Proof. vm_compute. repeat split. Qed.

(** The spec's scenario: order_1, pay_1 and the secret s3cr3t. *)
Example expected_signature_of_the_scenario :
  Crypto.hmac_sha256_hex "s3cr3t" ("order_1" ++ "|" ++ "pay_1")
    = "c4ba7785e595b717abd8b4847eaf30e97f23acbdbe1b8f5cbbf17d28d63b068f".
Proof. vm_compute. reflexivity. Qed.

(** Number::toString. *)
Example numbers_print :
  map (fun me => Num.to_string (Num.of_decimal false (fst me) (snd me)))
      [ (49999, -2); (1, 21); (1, 20); (1, -6); (1, -7); (5, -324)
      ; (17976931348623157, 292); (9007199254740993, 0); (12345678, -3) ]
    = [ "499.99"; "1e+21"; "100000000000000000000"; "0.000001"; "1e-7"
      ; "5e-324"; "1.7976931348623157e+308"; "9007199254740992"
      ; "12345.678" ].
Proof. vm_compute. reflexivity. Qed.

(** StringToNumber (what [isNaN] and [<=] see) against [parseFloat]. *)
Example strings_read :
  map (fun s => Num.to_string (NumLit.StringToNumber s))
      [ "499.99"; " 12 "; "12px"; "0x10"; ""; "abc"; "-.5e1"; "Infinity" ]
    = [ "499.99"; "12"; "NaN"; "16"; "0"; "NaN"; "-5"; "Infinity" ]
  /\ map (fun s => Num.to_string (NumLit.parse_float_prefix s))
         [ "499.99"; " 12 "; "12px"; "0x10"; ""; "abc"; "-.5e1"; "Infinity" ]
     = [ "499.99"; "12"; "12"; "0"; "NaN"; "NaN"; "-5"; "Infinity" ].
Proof. vm_compute. split; reflexivity. Qed.

(** A printed Number reads back as itself. *)
Example printed_numbers_read_back :
  forallb (fun x => Num.same (NumLit.parse_float_prefix (Num.to_string x)) x)
          [ Samples.n499_99; Samples.n4_35; Num.of_Z 49999
          ; Num.of_decimal false 1 (-1); Num.of_decimal false 5 (-324)
          ; Num.of_decimal false 17976931348623157 292; Num.Infinity ]
    = true.
Proof. vm_compute. reflexivity. Qed.

(** [Math.round], and the binary64 products it is applied to. *)
Example rounding_examples :
  map (fun me => Num.to_string
                   (Num.Math_round (Num.of_decimal (fst (fst me))
                                                   (snd (fst me)) (snd me))))
      [ (false, 25, -1); (true, 25, -1); (false, 24, -1); (true, 26, -1)
      ; (false, 49, -2) ]
    = [ "3"; "-2"; "2"; "-3"; "0" ]
  /\ Num.Math_round (Num.of_decimal true 5 (-1)) = S754_zero true
  /\ Num.to_string (Num.mul Samples.n499_99 (Num.of_Z 100)) = "49999"
  /\ Num.to_string (Num.mul Samples.n4_35 (Num.of_Z 100))
     = "434.99999999999994".
Proof. vm_compute. repeat split. Qed.

Example dates_print :
  Date.toISOString 0 = "1970-01-01T00:00:00.000Z"
  /\ Date.toISOString 951782400000 = "2000-02-29T00:00:00.000Z"
  /\ Date.toISOString 1793583723456 = "2026-11-02T01:42:03.456Z".
Proof. vm_compute. repeat split. Qed.

(** ** [Math.round] returns the nearest integer as a Number *)

(** [Math.round] picks the nearest integer, the upper one on a tie: the
    integer [r] it computes for a finite [x] satisfies
    [r - 1/2 <= x < r + 1/2]. *)
Lemma round_to_Z_is_nearest (s : bool) (m : positive) (e : Z) (q : Q) :
  Num.to_Q (S754_finite s m e) = Some q ->
  (inject_Z (Num.round_to_Z s m e) - (1 # 2) <= q
   /\ q < inject_Z (Num.round_to_Z s m e) + (1 # 2))%Q.
Proof.
  unfold Num.to_Q, Num.round_to_Z. intros H. injection H as <-.
  set (sm := cond_Zopp s (Z.pos m)).
  destruct (0 <=? e) eqn:He.
  - unfold Qle, Qlt, Qminus, Qplus, Qopp, inject_Z. simpl. lia.
  - apply Z.leb_gt in He.
    assert (Hk : 0 < 2 ^ (- e)) by (apply Z.pow_pos_nonneg; lia).
    assert (Hpow : 2 ^ (- e + 1) = 2 * 2 ^ (- e))
      by (rewrite Z.pow_add_r by lia; lia).
    rewrite Hpow.
    pose proof (Z.div_mod (2 * sm + 2 ^ (- e)) (2 * 2 ^ (- e))
                          ltac:(lia)) as Hdm.
    pose proof (Z.mod_pos_bound (2 * sm + 2 ^ (- e)) (2 * 2 ^ (- e))
                                ltac:(lia)) as Hmod.
    set (r := (2 * sm + 2 ^ (- e)) / (2 * 2 ^ (- e))) in *.
    unfold Qle, Qlt, Qminus, Qplus, Qopp, inject_Z. simpl.
    rewrite Z2Pos.id by lia. nia.
Qed.

(** The Number [Math.round] returns is the Number of that integer. *)
Lemma Math_round_of_fraction (s : bool) (m : positive) (e : Z) :
  e < 0 ->
  Num.Math_round (S754_finite s m e)
    = binary_normalize Num.prec Num.emax (Num.round_to_Z s m e) 0 s.
Proof.
  intros He. unfold Num.Math_round.
  destruct (0 <=? e) eqn:E; [ apply Z.leb_le in E; lia | reflexivity ].
Qed.

Lemma digits2_pos_iter_xO (p k : positive) :
  digits2_pos (Pos.iter xO p k) = (digits2_pos p + k)%positive.
Proof.
  induction k as [ | k IH ] using Pos.peano_ind.
  - simpl. lia.
  - rewrite Pos.iter_succ. simpl. rewrite IH. lia.
Qed.

Lemma iter_xO_value (p k : positive) :
  Z.pos (Pos.iter xO p k) = Z.pos p * 2 ^ Z.pos k.
Proof.
  induction k as [ | k IH ] using Pos.peano_ind.
  - simpl. lia.
  - rewrite Pos.iter_succ, Pos2Z.inj_xO, IH, Pos2Z.inj_succ.
    rewrite Z.pow_succ_r by lia. lia.
Qed.

Lemma digits2_pos_upper (p : positive) :
  Z.pos p < 2 ^ Z.pos (digits2_pos p).
Proof.
  induction p as [ p IH | p IH | ]; simpl digits2_pos;
    rewrite ?Pos2Z.inj_succ, ?Z.pow_succ_r by lia; lia.
Qed.

Lemma digits2_pos_lower (p : positive) :
  2 ^ (Z.pos (digits2_pos p) - 1) <= Z.pos p.
Proof.
  induction p as [ p IH | p IH | ]; simpl digits2_pos.
  - rewrite Pos2Z.inj_succ.
    replace (Z.succ (Z.pos (digits2_pos p)) - 1)
      with (Z.succ (Z.pos (digits2_pos p) - 1)) by lia.
    rewrite Z.pow_succ_r by lia. lia.
  - rewrite Pos2Z.inj_succ.
    replace (Z.succ (Z.pos (digits2_pos p)) - 1)
      with (Z.succ (Z.pos (digits2_pos p) - 1)) by lia.
    rewrite Z.pow_succ_r by lia. lia.
  - simpl. lia.
Qed.

(** A mantissa of 53 bits with an exponent in range is not rounded. *)
Lemma binary_round_aux_canonical (sx : bool) (mz : positive) (ez : Z) :
  digits2_pos mz = 53%positive -> -1074 <= ez <= 971 ->
  binary_round_aux Num.prec Num.emax sx (Z.pos mz) ez loc_Exact
    = S754_finite sx mz ez.
Proof.
  intros Hd He.
  assert (Hshift : forall l,
             shr_fexp Num.prec Num.emax (Z.pos mz) ez l
               = (shr_record_of_loc (Z.pos mz) l, ez)).
  { intros l. unfold shr_fexp, Zdigits2, fexp, emin, Num.prec, Num.emax.
    rewrite Hd.
    replace (Z.max (53 + ez - 53) (3 - 1024 - 53) - ez) with 0 by lia.
    reflexivity. }
  unfold binary_round_aux. rewrite Hshift. cbn [shr_record_of_loc shr_m
    loc_of_shr_record round_nearest_even]. rewrite Hshift.
  cbn [shr_record_of_loc shr_m].
  unfold Num.prec, Num.emax.
  destruct (Z.leb_spec ez (1024 - 53)); [ reflexivity | lia ].
Qed.

(** An integer below 2^53 in magnitude is a Number. *)
Lemma binary_round_small (sx : bool) (p : positive) :
  Z.pos p < 2 ^ 53 ->
  exists mz ez,
    binary_round Num.prec Num.emax sx p 0 = S754_finite sx mz ez
    /\ -52 <= ez <= 0
    /\ Z.pos mz = Z.pos p * 2 ^ (- ez).
Proof.
  intros Hp.
  assert (Hd : Z.pos (digits2_pos p) <= 53).
  { pose proof (digits2_pos_lower p) as L.
    destruct (Z.le_gt_cases (Z.pos (digits2_pos p)) 53) as [ | G ];
      [ assumption | ].
    assert (2 ^ 53 <= 2 ^ (Z.pos (digits2_pos p) - 1))
      by (apply Z.pow_le_mono_r; lia).
    lia. }
  unfold binary_round, shl_align, fexp, emin.
  replace (Z.max (Z.pos (digits2_pos p) + 0 - Num.prec)
                 (3 - Num.emax - Num.prec) - 0)
    with (Z.pos (digits2_pos p) - 53) by (unfold Num.prec, Num.emax; lia).
  replace (Z.max (Z.pos (digits2_pos p) + 0 - Num.prec)
                 (3 - Num.emax - Num.prec))
    with (Z.pos (digits2_pos p) - 53) by (unfold Num.prec, Num.emax; lia).
  destruct (Z.pos (digits2_pos p) - 53) as [ | k | k ] eqn:E; [ | lia | ].
  - exists p, 0.
    rewrite (binary_round_aux_canonical sx p 0) by lia.
    repeat split; lia.
  - exists (Pos.iter xO p k), (Z.neg k).
    rewrite (binary_round_aux_canonical sx (Pos.iter xO p k) (Z.neg k)).
    + repeat split; try lia. rewrite iter_xO_value. reflexivity.
    + rewrite digits2_pos_iter_xO. lia.
    + lia.
Qed.

Lemma of_integer_exact (sz : bool) (r : Z) :
  Z.abs r < 2 ^ 53 ->
  exists q, Num.to_Q (binary_normalize Num.prec Num.emax r 0 sz) = Some q
            /\ (q == inject_Z r)%Q.
Proof.
  intros Hr. destruct r as [ | p | p ]; cbn [binary_normalize].
  - exists 0%Q. split; reflexivity.
  - destruct (binary_round_small false p) as (mz & ez & -> & He & Hm);
      [ lia | ].
    cbn [Num.to_Q cond_Zopp]. eexists. split; [ reflexivity | ].
    destruct (Z.leb_spec 0 ez).
    + assert (ez = 0) by lia. subst ez. change (2 ^ (- 0)) with 1 in Hm.
      unfold Qeq, inject_Z. cbn [Qnum Qden]. change (2 ^ 0) with 1. lia.
    + unfold Qeq, inject_Z. cbn [Qnum Qden].
      rewrite Z2Pos.id by (apply Z.pow_pos_nonneg; lia). lia.
  - destruct (binary_round_small true p) as (mz & ez & -> & He & Hm);
      [ lia | ].
    cbn [Num.to_Q cond_Zopp]. eexists. split; [ reflexivity | ].
    destruct (Z.leb_spec 0 ez).
    + assert (ez = 0) by lia. subst ez. change (2 ^ (- 0)) with 1 in Hm.
      unfold Qeq, inject_Z. cbn [Qnum Qden]. change (2 ^ 0) with 1. lia.
    + unfold Qeq, inject_Z. cbn [Qnum Qden].
      rewrite Z2Pos.id by (apply Z.pow_pos_nonneg; lia). lia.
Qed.

(** For a finite Number [x] (a mantissa below 2^53), [Math.round x] is
    the Number of an integer [r] with [r - 1/2 <= x < r + 1/2]. *)
Lemma Math_round_is_nearest_integer (s : bool) (m : positive) (e : Z) (q : Q) :
  Z.pos m < 2 ^ 53 ->
  Num.to_Q (S754_finite s m e) = Some q ->
  exists (r : Z) (q' : Q),
    Num.to_Q (Num.Math_round (S754_finite s m e)) = Some q'
    /\ (q' == inject_Z r)%Q
    /\ (inject_Z r - (1 # 2) <= q /\ q < inject_Z r + (1 # 2))%Q.
Proof.
  intros Hm Hq.
  pose proof (round_to_Z_is_nearest s m e q Hq) as Hnear.
  exists (Num.round_to_Z s m e).
  destruct (Z.leb_spec 0 e) as [He | He].
  - exists q. unfold Num.Math_round.
    destruct (Z.leb_spec 0 e); [ | lia ].
    split; [ exact Hq | ]. split; [ | exact Hnear ].
    cbn [Num.to_Q] in Hq. unfold Num.round_to_Z.
    destruct (Z.leb_spec 0 e); [ | lia ].
    injection Hq as <-. reflexivity.
  - rewrite (Math_round_of_fraction s m e He).
    destruct (of_integer_exact s (Num.round_to_Z s m e)) as (q' & E & Heq).
    + unfold Num.round_to_Z. destruct (Z.leb_spec 0 e); [ lia | ].
      assert (Hk : 2 <= 2 ^ (- e)).
      { change 2 with (2 ^ 1) at 1. apply Z.pow_le_mono_r; lia. }
      assert (Hpow : 2 ^ (- e + 1) = 2 * 2 ^ (- e))
        by (rewrite Z.pow_add_r by lia; lia).
      rewrite Hpow.
      set (sm := cond_Zopp s (Z.pos m)).
      assert (Hsm : - 2 ^ 53 < sm < 2 ^ 53) by (destruct s; simpl in *; lia).
      set (D := 2 ^ (- e)) in *.
      apply Z.abs_lt. split.
      * apply Z.lt_le_trans with (m := - 2 ^ 52); [ lia | ].
        apply Z.div_le_lower_bound; [ lia | ]. nia.
      * apply Z.le_lt_trans with (m := 2 ^ 52); [ | lia ].
        apply Z.div_le_upper_bound; [ lia | ]. nia.
    + exists q'. split; [ exact E | ]. split; [ exact Heq | exact Hnear ].
Qed.

(** ** The result of a binary64 rounding *)

Lemma shr_1_m (r : shr_record) :
  0 <= shr_m r -> shr_m (shr_1 r) = shr_m r / 2.
Proof.
  destruct r as [m r s]. cbn [shr_m]. intros Hm.
  destruct m as [ | [ p | p | ] | p ]; cbn [shr_1 shr_m];
    try (Z.to_euclidean_division_equations; lia).
Qed.

Lemma iter_shr_1_m (p : positive) (r : shr_record) :
  0 <= shr_m r ->
  shr_m (iter_pos shr_1 p r) = shr_m r / 2 ^ Z.pos p.
Proof.
  revert r. induction p as [ p IH | p IH | ]; intros r Hr; cbn [iter_pos].
  - assert (Hp : 0 < 2 ^ Z.pos p) by (apply Z.pow_pos_nonneg; lia).
    assert (H1 : 0 <= shr_m (shr_1 r))
      by (rewrite shr_1_m by assumption; apply Z.div_pos; lia).
    assert (H2 : 0 <= shr_m (iter_pos shr_1 p (shr_1 r)))
      by (rewrite IH by assumption; apply Z.div_pos; lia).
    rewrite IH, IH, shr_1_m by assumption.
    rewrite !Z.div_div by lia. f_equal.
    replace (Z.pos p~1) with (1 + Z.pos p + Z.pos p) by lia.
    rewrite !Z.pow_add_r by lia. change (2 ^ 1) with 2. lia.
  - assert (Hp : 0 < 2 ^ Z.pos p) by (apply Z.pow_pos_nonneg; lia).
    assert (H2 : 0 <= shr_m (iter_pos shr_1 p r))
      by (rewrite IH by assumption; apply Z.div_pos; lia).
    rewrite IH, IH by assumption.
    rewrite !Z.div_div by lia. f_equal.
    replace (Z.pos p~0) with (Z.pos p + Z.pos p) by lia.
    rewrite !Z.pow_add_r by lia. lia.
  - rewrite shr_1_m by assumption. reflexivity.
Qed.

Lemma shr_record_of_loc_m (m : Z) (l : location) :
  shr_m (shr_record_of_loc m l) = m.
Proof. destruct l as [ | [ | | ] ]; reflexivity. Qed.

Lemma Zdigits2_upper (m : Z) : 0 <= m -> m < 2 ^ Zdigits2 m.
Proof.
  destruct m as [ | p | p ]; intros H; [ reflexivity | | lia ].
  apply digits2_pos_upper.
Qed.

Lemma shr_m_nonneg (r : shr_record) (e n : Z) :
  0 <= shr_m r -> 0 <= shr_m (fst (shr r e n)).
Proof.
  intros H. destruct n as [ | p | p ]; cbn [shr fst]; try assumption.
  rewrite iter_shr_1_m by assumption.
  apply Z.div_pos; [ assumption | apply Z.pow_pos_nonneg; lia ].
Qed.

Lemma round_nearest_even_nonneg (m : Z) (l : location) :
  0 <= m -> 0 <= round_nearest_even m l.
Proof.
  intros H. destruct l as [ | [ | | ] ]; cbn [round_nearest_even];
    try destruct (Z.even m); lia.
Qed.

(** A mantissa shifted to the exponent of the format has at most 53
    bits. *)
Lemma shr_fexp_bounded (m e : Z) :
  0 <= m ->
  shr_m (fst (shr_fexp Num.prec Num.emax m e loc_Exact)) < 2 ^ 53.
Proof.
  intros Hm. unfold shr_fexp. cbn [shr_record_of_loc].
  pose proof (Zdigits2_upper m Hm) as Hd.
  assert (Hd0 : 0 <= Zdigits2 m) by (destruct m; simpl; lia).
  set (d := Zdigits2 m) in *.
  assert (Hf : d + e - 53 <= fexp Num.prec Num.emax (d + e))
    by (unfold fexp, Num.prec; lia).
  destruct (fexp Num.prec Num.emax (d + e) - e) as [ | p | p ] eqn:En;
    cbn [shr fst shr_m].
  - apply Z.lt_le_trans with (1 := Hd). apply Z.pow_le_mono_r; lia.
  - rewrite iter_shr_1_m by (cbn [shr_m]; assumption). cbn [shr_m].
    apply Z.div_lt_upper_bound; [ apply Z.pow_pos_nonneg; lia | ].
    rewrite <- Z.pow_add_r by lia.
    apply Z.lt_le_trans with (1 := Hd). apply Z.pow_le_mono_r; lia.
  - apply Z.lt_le_trans with (1 := Hd). apply Z.pow_le_mono_r; lia.
Qed.

(** The result of a rounding: a zero, an infinity or a finite Number of
    the sign that was asked for, with a mantissa of at most 53 bits. *)
Lemma binary_round_aux_cases (sx : bool) (mx ex : Z) (lx : location) :
  0 <= mx ->
  binary_round_aux Num.prec Num.emax sx mx ex lx = S754_zero sx
  \/ binary_round_aux Num.prec Num.emax sx mx ex lx = S754_infinity sx
  \/ exists m e,
       binary_round_aux Num.prec Num.emax sx mx ex lx = S754_finite sx m e
       /\ Z.pos m < 2 ^ 53.
Proof.
  intros Hmx. unfold binary_round_aux.
  destruct (shr_fexp Num.prec Num.emax mx ex lx) as [mrs' e'] eqn:E1.
  assert (H1 : 0 <= shr_m mrs').
  { change mrs' with (fst (mrs', e')). rewrite <- E1. unfold shr_fexp.
    apply shr_m_nonneg. now rewrite shr_record_of_loc_m. }
  pose proof (round_nearest_even_nonneg (shr_m mrs') (loc_of_shr_record mrs') H1)
    as H2.
  set (m1 := round_nearest_even (shr_m mrs') (loc_of_shr_record mrs')) in *.
  pose proof (shr_fexp_bounded m1 e' H2) as H3.
  assert (H4 : 0 <= shr_m (fst (shr_fexp Num.prec Num.emax m1 e' loc_Exact))).
  { unfold shr_fexp. apply shr_m_nonneg. now rewrite shr_record_of_loc_m. }
  destruct (shr_fexp Num.prec Num.emax m1 e' loc_Exact) as [mrs'' e''].
  cbn [fst] in H3, H4.
  destruct (shr_m mrs'') as [ | m | m ]; [ now left | | lia ].
  destruct (e'' <=? Num.emax - Num.prec); [ | now (right; left) ].
  right. right. exists m, e''. now split.
Qed.

Lemma of_Z_100 : Num.of_Z 100 = S754_finite false 7036874417766400 (-46).
Proof. vm_compute. reflexivity. Qed.

(** The product of a positive Number and 100: a finite positive Number
    (or zero), or +Infinity; never NaN. *)
Lemma times_100_cases (A : Num.number) :
  Num.ltb Num.zero A = true ->
  Num.mul A (Num.of_Z 100) = S754_zero false
  \/ Num.mul A (Num.of_Z 100) = Num.Infinity
  \/ exists m e,
       Num.mul A (Num.of_Z 100) = S754_finite false m e /\ Z.pos m < 2 ^ 53.
Proof.
  intros H. rewrite of_Z_100.
  destruct A as [ s | s | | s m e ]; try discriminate H;
    destruct s; try discriminate H.
  - right. left. reflexivity.
  - unfold Num.mul. cbn [SFmul xorb].
    apply binary_round_aux_cases. lia.
Qed.

(** ** Correct rounding, and amounts of whole paise *)

Lemma shr_1_located (mrs : shr_record) (N D : Z) :
  0 <= shr_m mrs -> 0 < D ->
  located mrs N D -> located (shr_1 mrs) N (2 * D).
Proof.
  destruct mrs as [m r s]. unfold located. cbn [shr_m shr_r shr_s].
  intros Hm HD.
  destruct m as [ | [ p | p | ] | p ]; destruct r, s;
    cbn [shr_1 shr_m shr_r shr_s orb]; lia.
Qed.

Lemma iter_shr_1_located (p : positive) (mrs : shr_record) (N D : Z) :
  0 <= shr_m mrs -> 0 < D ->
  located mrs N D -> located (iter_pos shr_1 p mrs) N (2 ^ Z.pos p * D).
Proof.
  revert mrs D. induction p as [ p IH | p IH | ]; intros mrs D Hm HD H;
    cbn [iter_pos].
  - assert (Hp : 0 < 2 ^ Z.pos p) by (apply Z.pow_pos_nonneg; lia).
    assert (H1 : 0 <= shr_m (shr_1 mrs))
      by (rewrite shr_1_m by assumption; apply Z.div_pos; lia).
    assert (H2 : 0 <= shr_m (iter_pos shr_1 p (shr_1 mrs)))
      by (rewrite iter_shr_1_m by assumption; apply Z.div_pos; lia).
    replace (2 ^ Z.pos p~1 * D) with (2 ^ Z.pos p * (2 ^ Z.pos p * (2 * D))).
    + apply IH; [ assumption | lia | ]. apply IH; [ assumption | lia | ].
      now apply shr_1_located.
    + replace (Z.pos p~1) with (1 + Z.pos p + Z.pos p) by lia.
      rewrite !Z.pow_add_r by lia. change (2 ^ 1) with 2. lia.
  - assert (Hp : 0 < 2 ^ Z.pos p) by (apply Z.pow_pos_nonneg; lia).
    assert (H2 : 0 <= shr_m (iter_pos shr_1 p mrs))
      by (rewrite iter_shr_1_m by assumption; apply Z.div_pos; lia).
    replace (2 ^ Z.pos p~0 * D) with (2 ^ Z.pos p * (2 ^ Z.pos p * D)).
    + apply IH; [ assumption | lia | ]. now apply IH.
    + replace (Z.pos p~0) with (Z.pos p + Z.pos p) by lia.
      rewrite !Z.pow_add_r by lia. lia.
  - change (2 ^ 1) with 2. now apply shr_1_located.
Qed.

(** A shift by [n >= 0] places. *)
Lemma shr_spec (mrs : shr_record) (e n N D : Z) :
  0 <= n -> 0 <= shr_m mrs -> 0 < D -> located mrs N D ->
  snd (shr mrs e n) = e + n
  /\ shr_m (fst (shr mrs e n)) = shr_m mrs / 2 ^ n
  /\ located (fst (shr mrs e n)) N (2 ^ n * D).
Proof.
  intros Hn Hm HD H. destruct n as [ | p | p ]; [ | | lia ];
    cbn [shr fst snd].
  - rewrite Z.add_0_r, Z.div_1_r. change (2 ^ 0) with 1.
    rewrite Z.mul_1_l. repeat split. exact H.
  - split; [ reflexivity | ].
    split; [ now apply iter_shr_1_m | now apply iter_shr_1_located ].
Qed.

Lemma shr_record_of_loc_loc (m : Z) (l : location) :
  loc_of_shr_record (shr_record_of_loc m l) = l.
Proof. destruct l as [ | [ | | ] ]; reflexivity. Qed.

(** Rounding to nearest moves to a neighbour at most half a unit away. *)
Lemma round_nearest_even_located (mrs : shr_record) (N D : Z) :
  0 < D -> located mrs N D ->
  (round_nearest_even (shr_m mrs) (loc_of_shr_record mrs) = shr_m mrs
   \/ round_nearest_even (shr_m mrs) (loc_of_shr_record mrs) = shr_m mrs + 1)
  /\ - D <= 2 * (round_nearest_even (shr_m mrs) (loc_of_shr_record mrs) * D - N)
     <= D.
Proof.
  destruct mrs as [m r s]. unfold located. cbn [shr_m shr_r shr_s].
  intros HD H.
  destruct r, s; cbn [loc_of_shr_record round_nearest_even];
    try destruct (Z.even m); split; try lia; try (now left); now right.
Qed.

Lemma Zdigits2_unique (m n : Z) :
  2 ^ (n - 1) <= m < 2 ^ n -> 0 < n -> Zdigits2 m = n.
Proof.
  intros [Hlo Hhi] Hn.
  assert (Hm : 0 < m).
  { apply Z.lt_le_trans with (2 := Hlo). apply Z.pow_pos_nonneg; lia. }
  destruct m as [ | p | p ]; try lia. cbn [Zdigits2].
  pose proof (digits2_pos_lower p) as L. pose proof (digits2_pos_upper p) as U.
  set (d := Z.pos (digits2_pos p)) in *.
  assert (Hd : 0 < d) by (unfold d; lia).
  destruct (Z.lt_trichotomy d n) as [ Hlt | [ Heq | Hgt ] ];
    [ exfalso | assumption | exfalso ].
  - assert (2 ^ d <= 2 ^ (n - 1)) by (apply Z.pow_le_mono_r; lia). lia.
  - assert (2 ^ n <= 2 ^ (d - 1)) by (apply Z.pow_le_mono_r; lia). lia.
Qed.

Lemma Zdigits2_bounds (m : Z) :
  0 < m -> 2 ^ (Zdigits2 m - 1) <= m < 2 ^ Zdigits2 m.
Proof.
  destruct m as [ | p | p ]; try lia. intros _. cbn [Zdigits2].
  split; [ apply digits2_pos_lower | apply digits2_pos_upper ].
Qed.

(** Rounding a mantissa of at least 53 bits, in the normal range: the
    result is a finite Number with a mantissa of exactly 53 bits, at
    most half a unit in the last place from the rational it stands
    for. *)
Lemma binary_round_aux_normal
    (sx : bool) (mx ex : Z) (lx : location) (N D : Z) :
  0 < D ->
  2 ^ 52 <= mx ->
  located (shr_record_of_loc mx lx) N D ->
  -1074 <= ex + Zdigits2 mx - 53 ->
  ex + Zdigits2 mx - 52 <= 971 ->
  exists m j,
    binary_round_aux Num.prec Num.emax sx mx ex lx
      = S754_finite sx m (ex + j)
    /\ 2 ^ 52 <= Z.pos m < 2 ^ 53
    /\ (j = Zdigits2 mx - 53 \/ j = Zdigits2 mx - 52)
    /\ - (2 ^ j * D) <= 2 * (Z.pos m * (2 ^ j * D) - N) <= 2 ^ j * D.
Proof.
  intros HD Hmx Hloc Hlo Hhi.
  assert (Hpos : 0 < mx) by lia.
  pose proof (Zdigits2_bounds mx Hpos) as [Hdl Hdu].
  set (d := Zdigits2 mx) in *.
  assert (Hd : 53 <= d).
  { destruct (Z.le_gt_cases 53 d) as [ | G ]; [ assumption | exfalso ].
    assert (2 ^ d <= 2 ^ 52) by (apply Z.pow_le_mono_r; lia). lia. }
  unfold binary_round_aux, shr_fexp. fold d.
  replace (fexp Num.prec Num.emax (d + ex) - ex) with (d - 53)
    by (unfold fexp, emin, Num.prec, Num.emax; lia).
  pose proof (shr_spec (shr_record_of_loc mx lx) ex (d - 53) N D
                ltac:(lia) ltac:(rewrite shr_record_of_loc_m; lia) HD Hloc)
    as (He1 & Hm1 & Hl1).
  destruct (shr (shr_record_of_loc mx lx) ex (d - 53)) as [mrs1 e1].
  cbn [fst snd] in He1, Hm1, Hl1. subst e1.
  rewrite shr_record_of_loc_m in Hm1.
  assert (Hpow : 0 < 2 ^ (d - 53)) by (apply Z.pow_pos_nonneg; lia).
  assert (Hsplit : 2 ^ d = 2 ^ 53 * 2 ^ (d - 53))
    by (rewrite <- Z.pow_add_r by lia; f_equal; lia).
  assert (Hsplit' : 2 ^ (d - 1) = 2 ^ 52 * 2 ^ (d - 53))
    by (rewrite <- Z.pow_add_r by lia; f_equal; lia).
  assert (Hm1b : 2 ^ 52 <= shr_m mrs1 < 2 ^ 53).
  { rewrite Hm1. split.
    - apply Z.div_le_lower_bound; lia.
    - apply Z.div_lt_upper_bound; lia. }
  destruct (round_nearest_even_located mrs1 N (2 ^ (d - 53) * D)
              ltac:(lia) Hl1) as [Hm2 Herr].
  set (m2 := round_nearest_even (shr_m mrs1) (loc_of_shr_record mrs1)) in *.
  assert (Hm2b : 2 ^ 52 <= m2 <= 2 ^ 53) by lia.
  destruct (Z.eq_dec m2 (2 ^ 53)) as [Etop | Ntop].
  - (* the rounding carried into a 54th bit *)
    rewrite Etop.
    replace (Zdigits2 (2 ^ 53)) with 54 by reflexivity.
    replace (fexp Num.prec Num.emax (54 + (ex + (d - 53))) - (ex + (d - 53)))
      with 1 by (unfold fexp, emin, Num.prec, Num.emax; lia).
    cbn [shr shr_record_of_loc iter_pos shr_1 shr_m].
    change (2 ^ 53) with 9007199254740992. cbn [shr_1 shr_m].
    exists 4503599627370496%positive, (d - 52).
    replace (ex + (d - 53) + 1) with (ex + (d - 52)) by lia.
    unfold Num.emax, Num.prec.
    destruct (Z.leb_spec (ex + (d - 52)) (1024 - 53)); [ | lia ].
    split; [ reflexivity | ]. split; [ lia | ]. split; [ now right | ].
    replace (2 ^ (d - 52)) with (2 * 2 ^ (d - 53))
      by (replace (d - 52) with (1 + (d - 53)) by lia;
          rewrite Z.pow_add_r by lia; reflexivity).
    rewrite Etop in Herr. change (2 ^ 53) with 9007199254740992 in Herr.
    lia.
  - assert (Hd2 : Zdigits2 m2 = 53) by (apply Zdigits2_unique; lia).
    rewrite Hd2.
    replace (fexp Num.prec Num.emax (53 + (ex + (d - 53))) - (ex + (d - 53)))
      with 0 by (unfold fexp, emin, Num.prec, Num.emax; lia).
    cbn [shr shr_record_of_loc shr_m].
    destruct m2 as [ | m | m ] eqn:Em; try lia.
    exists m, (d - 53).
    unfold Num.emax, Num.prec.
    destruct (Z.leb_spec (ex + (d - 53)) (1024 - 53)); [ | lia ].
    split; [ reflexivity | ]. split; [ lia | ]. split; [ now left | ].
    exact Herr.
Qed.

Lemma div_eucl_div_mod (a b : Z) : Z.div_eucl a b = (a / b, a mod b).
Proof. unfold Z.div, Z.modulo. now destruct (Z.div_eucl a b). Qed.

(** The location of a quotient by one hundred, from its remainder. *)
Lemma new_location_100_located (N : Z) :
  located (shr_record_of_loc (N / 100) (new_location 100 (N mod 100))) N 100.
Proof.
  pose proof (Z.div_mod N 100 ltac:(lia)) as E.
  pose proof (Z.mod_pos_bound N 100 ltac:(lia)) as B.
  set (q := N / 100) in *. set (r := N mod 100) in *.
  unfold new_location. cbn [Z.even]. unfold new_location_even.
  destruct (Z.eqb_spec r 0) as [ Z | NZ ].
  - unfold located. cbn [shr_record_of_loc shr_m shr_r shr_s]. lia.
  - destruct (Z.compare_spec (2 * r) 100); unfold located;
      cbn [shr_record_of_loc shr_m shr_r shr_s]; lia.
Qed.

(** The Number of [k / 100]: a mantissa [ma] of 53 bits and an exponent
    [ea] with [|ma * 2^ea - k / 100| <= 2^ea / 2]. *)
Lemma of_decimal_hundredths (k : Z) :
  0 < k < 2 ^ 48 ->
  exists ma j,
    Num.of_decimal false k (-2)
      = S754_finite false ma (Zdigits2 k - 60 + j)
    /\ 2 ^ 52 <= Z.pos ma < 2 ^ 53
    /\ 0 <= j <= 2
    /\ - (2 ^ j * 100)
       <= 2 * (Z.pos ma * (2 ^ j * 100) - k * 2 ^ (60 - Zdigits2 k))
       <= 2 ^ j * 100.
Proof.
  intros [Hk0 Hk].
  pose proof (Zdigits2_bounds k Hk0) as [Hdl Hdu].
  set (d1 := Zdigits2 k) in *.
  assert (Hd1 : 1 <= d1 <= 48).
  { split.
    - destruct k; try lia. unfold d1. cbn. lia.
    - destruct (Z.le_gt_cases d1 48) as [ | G ]; [ assumption | exfalso ].
      assert (2 ^ 48 <= 2 ^ (d1 - 1)) by (apply Z.pow_le_mono_r; lia). lia. }
  destruct k as [ | p | p ]; try lia.
  unfold Num.of_decimal. cbn [Z.leb Z.compare Z.opp].
  change (Z.to_pos (10 ^ 2)) with 100%positive.
  unfold SFdiv. cbn [xorb].
  unfold SFdiv_core_binary. fold d1.
  change (Zdigits2 (Z.pos 100)) with 7.
  replace (Z.min (fexp Num.prec Num.emax (d1 + 0 - (7 + 0))) (0 - 0))
    with (d1 - 60) by (unfold fexp, emin, Num.prec, Num.emax; lia).
  replace (0 - 0 - (d1 - 60)) with (60 - d1) by lia.
  destruct (60 - d1) as [ | s | s ] eqn:Es; try lia.
  rewrite Z.shiftl_mul_pow2 by lia. rewrite <- Es.
  set (N := Z.pos p * 2 ^ (60 - d1)).
  rewrite div_eucl_div_mod.
  assert (Hs : 2 ^ 60 = 2 ^ d1 * 2 ^ (60 - d1))
    by (rewrite <- Z.pow_add_r by lia; f_equal; lia).
  assert (Hs' : 2 ^ 59 = 2 ^ (d1 - 1) * 2 ^ (60 - d1))
    by (rewrite <- Z.pow_add_r by lia; f_equal; lia).
  assert (Hpow : 0 < 2 ^ (60 - d1)) by (apply Z.pow_pos_nonneg; lia).
  assert (HN : 2 ^ 59 <= N < 2 ^ 60) by (unfold N; nia).
  assert (Hq : 2 ^ 52 <= N / 100 < 2 ^ 54).
  { split.
    - apply Z.div_le_lower_bound; lia.
    - apply Z.div_lt_upper_bound; lia. }
  assert (Hdq : Zdigits2 (N / 100) = 53 \/ Zdigits2 (N / 100) = 54).
  { destruct (Z.lt_ge_cases (N / 100) (2 ^ 53)).
    - left. apply Zdigits2_unique; lia.
    - right. apply Zdigits2_unique; lia. }
  destruct (binary_round_aux_normal false (N / 100) (d1 - 60)
              (new_location 100 (N mod 100)) N 100
              ltac:(lia) ltac:(lia) (new_location_100_located N)
              ltac:(lia) ltac:(lia))
    as (ma & j & E & Hma & Hj & Herr).
  exists ma, j. split; [ exact E | ]. split; [ exact Hma | ].
  split; [ lia | exact Herr ].
Qed.

(** An amount of whole paise goes through the multiplication and the
    rounding unharmed: [Math.round (k/100 * 100)] is [k]. *)
Lemma whole_paise_exact (k : Z) :
  0 < k < 2 ^ 48 ->
  Num.Math_round (Num.mul (Num.of_decimal false k (-2)) (Num.of_Z 100))
    = Num.of_Z k.
Proof.
  intros Hk.
  destruct (of_decimal_hundredths k Hk) as (ma & jd & -> & Hma & Hjd & Hd).
  pose proof (Zdigits2_bounds k ltac:(lia)) as [Hdl Hdu].
  set (d1 := Zdigits2 k) in *.
  assert (Hd1 : 1 <= d1 <= 48).
  { split.
    - destruct k; try lia. unfold d1. cbn. lia.
    - destruct (Z.le_gt_cases d1 48) as [ | G ]; [ assumption | exfalso ].
      assert (2 ^ 48 <= 2 ^ (d1 - 1)) by (apply Z.pow_le_mono_r; lia). lia. }
  rewrite of_Z_100. unfold Num.mul. cbn [SFmul xorb].
  set (mx := Z.pos (ma * 7036874417766400)).
  assert (Emx : mx = Z.pos ma * (100 * 2 ^ 46)) by (unfold mx; lia).
  assert (Hmx : 2 ^ 104 <= mx < 2 ^ 106) by lia.
  assert (Hdx : Zdigits2 mx = 105 \/ Zdigits2 mx = 106).
  { destruct (Z.lt_ge_cases mx (2 ^ 105)).
    - left. apply Zdigits2_unique; lia.
    - right. apply Zdigits2_unique; lia. }
  set (ex := d1 - 60 + jd + -46).
  destruct (binary_round_aux_normal false mx ex loc_Exact mx 1
              ltac:(lia) ltac:(lia)
              ltac:(unfold located; cbn [shr_record_of_loc shr_m shr_r shr_s]; lia)
              ltac:(unfold ex; lia) ltac:(unfold ex; lia))
    as (mp & jm & -> & Hmp & Hjm & Hm).
  assert (Hjm' : 52 <= jm <= 54) by lia.
  set (ep := ex + jm).
  assert (Hep : ep <= -2) by (unfold ep, ex; lia).
  rewrite (Math_round_of_fraction false mp ep) by lia.
  unfold Num.of_Z. f_equal.
  unfold Num.round_to_Z. cbn [cond_Zopp].
  destruct (Z.leb_spec 0 ep); [ lia | ].
  set (t := - ep - 2).
  assert (Ht : 0 <= t) by (unfold t; lia).
  assert (HT : 0 < 2 ^ t) by (apply Z.pow_pos_nonneg; lia).
  replace (- ep) with (2 + t) by (unfold t; lia).
  replace (2 + t + 1) with (3 + t) by lia.
  rewrite !Z.pow_add_r by lia. change (2 ^ 2) with 4. change (2 ^ 3) with 8.
  (* 2 ^ (60 - d1) = 2 ^ (jd + jm - 46) * (4 * 2 ^ t) *)
  assert (Hs : 2 ^ (60 - d1) = 2 ^ (jd + jm - 46) * (4 * 2 ^ t)).
  { change 4 with (2 ^ 2). rewrite <- !Z.pow_add_r by lia.
    f_equal. unfold t, ep, ex. lia. }
  rewrite Hs in Hd. rewrite Emx in Hm.
  set (T := 2 ^ t) in *.
  assert (Hcases : (jd = 0 \/ jd = 1 \/ jd = 2)
                   /\ (jm = 52 \/ jm = 53 \/ jm = 54)) by lia.
  symmetry.
  apply Z.div_unique_pos with (r := 2 * Z.pos mp + 4 * T - k * (8 * T));
    [ | lia ].
  clearbody T. clear - Hd Hm HT Hcases Hma Hmp.
  destruct Hcases as [[-> | [-> | ->]] [-> | [-> | ->]]];
    repeat match type of Hd with
           | context [2 ^ ?e] =>
               let v := eval vm_compute in (2 ^ e) in
               change (2 ^ e) with v in Hd
           end;
    repeat match type of Hm with
           | context [2 ^ ?e] =>
               let v := eval vm_compute in (2 ^ e) in
               change (2 ^ e) with v in Hm
           end;
    lia.
Qed.

(** ** What is thrown, and what the try blocks catch *)

Lemma rbind_throws_objects {A B} (r : result A) (k : A -> result B) :
  result_throws_objects r ->
  (forall a, result_throws_objects (k a)) ->
  result_throws_objects (rbind r k).
Proof.
  intros Hr Hk e. destruct r as [a | e']; simpl.
  - apply Hk.
  - intros H. injection H as <-. now apply Hr.
Qed.

Lemma ok_throws_objects {A} (a : A) : result_throws_objects (Ok a).
Proof. intros e H. discriminate H. Qed.

Lemma to_string_throws_objects (v : value) : result_throws_objects (to_string v).
Proof.
  induction v as [ | | b | x | s | fs _ | items IH | n m ]
    using value_induction;
    try (intros e H; discriminate H).
  - intros e. simpl. destruct (has_own "toString" fs); intros H;
      [ injection H as <-; reflexivity | discriminate H ].
  - cbn [to_string]. apply rbind_throws_objects; [ | intros; apply ok_throws_objects ].
    induction IH as [ | x r Hx _ IHr ]; [ apply ok_throws_objects | ].
    apply rbind_throws_objects.
    + destruct x; try exact Hx; apply ok_throws_objects.
    + intros s. apply rbind_throws_objects;
        [ exact IHr | intros; apply ok_throws_objects ].
Qed.

Lemma get_prop_throws_objects (v : value) (name : string) :
  result_throws_objects (get_prop v name).
Proof.
  intros e. destruct v; simpl; intros H; try discriminate H;
    injection H as <-; reflexivity.
Qed.

Lemma get_prop_of_object (e : value) (name : string) :
  nullish e = false -> exists v, get_prop e name = Ok v.
Proof.
  destruct e; simpl; intros H; try discriminate H; eexists; reflexivity.
Qed.

Lemma to_number_throws_objects (v : value) : result_throws_objects (to_number v).
Proof.
  destruct v; cbn [to_number]; try apply ok_throws_objects;
    (apply rbind_throws_objects;
     [ apply to_string_throws_objects | intros; apply ok_throws_objects ]).
Qed.

Lemma invalid_amount_throws_objects (v : value) :
  result_throws_objects (Index.invalid_amount v).
Proof.
  unfold Index.invalid_amount, isNaN, le_number.
  destruct (negb (truthy v)); [ apply ok_throws_objects | ].
  apply rbind_throws_objects.
  - apply rbind_throws_objects;
      [ apply to_number_throws_objects | intros; apply ok_throws_objects ].
  - intros [ | ]; [ apply ok_throws_objects | ].
    apply rbind_throws_objects;
      [ apply to_number_throws_objects | intros; apply ok_throws_objects ].
Qed.

Lemma parseFloat_throws_objects (v : value) :
  result_throws_objects (parseFloat v).
Proof.
  assert (G : result_throws_objects
                (rbind (to_string v)
                       (fun s => Ok (NumLit.parse_float_prefix s)))).
  { apply rbind_throws_objects;
      [ apply to_string_throws_objects | intros; apply ok_throws_objects ]. }
  destruct v as [ | | b | x | s | fs | items | n m ]; try exact G.
  destruct x; apply ok_throws_objects.
Qed.

Lemma destructure_throws_objects (v : value) (first source : string) :
  result_throws_objects (destructure v first source).
Proof.
  intros e. destruct v; simpl; intros H; try discriminate H;
    injection H as <-; reflexivity.
Qed.

Lemma createHmac_throws_objects (key : value) (text : string) :
  result_throws_objects (createHmac_sha256_hex key text).
Proof.
  intros e. destruct key; simpl; intros H; try discriminate H;
    injection H as <-; reflexivity.
Qed.

Lemma ret_throws_objects {A} (a : A) : throws_objects (ret a).
Proof. intros w st e st' H. discriminate H. Qed.

Lemma lift_throws_objects {A} (r : result A) :
  result_throws_objects r -> throws_objects (lift r).
Proof. intros Hr w st e st' H. injection H as H _. now apply Hr. Qed.

Lemma bind_throws_objects {A B} (m : M A) (k : A -> M B) :
  throws_objects m -> (forall a, throws_objects (k a)) ->
  throws_objects (bind m k).
Proof.
  intros Hm Hk w st e st'. unfold bind.
  destruct (m w st) as [[a | e'] st1] eqn:E.
  - apply Hk.
  - intros H. injection H as <- _. exact (Hm w st e' st1 E).
Qed.

Lemma process_env_throws_objects (name : string) :
  throws_objects (process_env name).
Proof. intros w st e st' H. discriminate H. Qed.

Lemma Date_now_throws_objects : throws_objects Date_now.
Proof. intros w st e st' H. discriminate H. Qed.

Lemma receipt_or_default_throws_objects (receipt : value) :
  throws_objects (Index.receipt_or_default receipt).
Proof.
  unfold Index.receipt_or_default. destruct (truthy receipt).
  - apply ret_throws_objects.
  - apply bind_throws_objects;
      [ apply Date_now_throws_objects | intros; apply ret_throws_objects ].
Qed.

Lemma orders_create_throws_objects (options : value) :
  throws_objects (razorpay_orders_create options).
Proof.
  intros w st e st'. unfold razorpay_orders_create.
  destruct (orders_create w options) as [order | r]; intros H;
    [ discriminate H | ].
  injection H as <- _. destruct r; reflexivity.
Qed.

Create HintDb throws.
#[local] Hint Resolve ret_throws_objects lift_throws_objects
  process_env_throws_objects Date_now_throws_objects
  receipt_or_default_throws_objects orders_create_throws_objects
  destructure_throws_objects invalid_amount_throws_objects
  parseFloat_throws_objects to_string_throws_objects
  createHmac_throws_objects to_number_throws_objects
  get_prop_throws_objects : throws.

Ltac throws :=
  repeat first
    [ apply bind_throws_objects; [ | intros ]
    | match goal with
      | |- throws_objects (if ?c then _ else _) => destruct c
      | |- throws_objects (let _ := _ in _) => cbv zeta
      end
    | solve [ auto with throws ] ].

(** A try block whose catch clause reads [error.message] and responds
    lets nothing out when the block throws objects only. *)
Lemma try_catch_responds (m : M response) (h : value -> M response) :
  throws_objects m ->
  (forall e w st, nullish e = false -> exists r st', h e w st = (Ok r, st')) ->
  forall w st, exists r st', try_catch m h w st = (Ok r, st').
Proof.
  intros Hm Hh w st. unfold try_catch.
  destruct (m w st) as [[r | e] st1] eqn:E.
  - now exists r, st1.
  - apply Hh. exact (Hm w st e st1 E).
Qed.

(** ** POST /create-order *)

(** C8.  When the gateway key id or the key secret is absent from the
    environment, the order-creation handler answers 500 with the
    configuration-error message, whatever the request, and makes no call
    to the gateway client. *)
Theorem create_order_reports_missing_credentials (w : world) (body : value) :
  env w "RAZORPAY_KEY_ID" = None \/ env w "RAZORPAY_KEY_SECRET" = None ->
  handle Index.create_order w body = (Responded configuration_error, []).
Proof.
  intros H.
  unfold handle, Index.create_order, try_catch, bind, process_env, ret, getenv.
  destruct H as [H | H]; rewrite H; step.
  - reflexivity.
  - rewrite Bool.orb_true_r. reflexivity.
Qed.

(** An instance: the sample order request under a deployment without
    credentials. *)
Lemma create_order_reports_missing_credentials_witness :
  handle Index.create_order Samples.unconfigured Samples.order_request
    = (Responded configuration_error, []).
Proof.
  apply (create_order_reports_missing_credentials
           Samples.unconfigured Samples.order_request).
  left. reflexivity.
Defined.

(** The same holds for a credential that is set to the empty string. *)
Lemma create_order_reports_empty_credentials (w : world) (body : value) :
  truthy (getenv w "RAZORPAY_KEY_ID") = false
  \/ truthy (getenv w "RAZORPAY_KEY_SECRET") = false ->
  handle Index.create_order w body = (Responded configuration_error, []).
Proof.
  intros H.
  unfold handle, Index.create_order, try_catch, bind, process_env, ret.
  destruct H as [H | H]; rewrite H; step.
  - reflexivity.
  - rewrite Bool.orb_true_r. reflexivity.
Qed.

(** A request that fails the validation of the body or of the amount is
    answered 400 before anything else happens. *)
Lemma create_order_run_rejected (w : world) (body : value) :
  configured w ->
  nullish body = false ->
  Index.invalid_amount (prop body "amount") = Ok true ->
  handle Index.create_order w body =
    (Responded (if negb (truthy body) || Nat.eqb (keys_length body) 0
                then empty_body
                else bad_amount (prop body "amount")),
     []).
Proof.
  intros [Hid Hsec] Hb Hbad.
  unfold handle, Index.create_order, try_catch, bind, lift, process_env, ret.
  rewrite Hid, Hsec. cbn [negb orb]. step.
  rewrite (destructure_ok _ _ _ Hb). step.
  destruct (negb (truthy body) || Nat.eqb (keys_length body) 0);
    [ reflexivity | ].
  rewrite Hbad. reflexivity.
Qed.

(** The options of the gateway call for a request that passes. *)
Lemma create_order_run_accepted (w : world) (body : value) (parsed : Num.number) :
  configured w ->
  nullish body = false ->
  negb (truthy body) || Nat.eqb (keys_length body) 0 = false ->
  Index.invalid_amount (prop body "amount") = Ok false ->
  parseFloat (prop body "amount") = Ok parsed ->
  snd (handle Index.create_order w body)
    = [OrdersCreate (options_sent w body parsed)]
  /\ forall order,
       orders_create w (options_sent w body parsed) = inl order ->
       fst (handle Index.create_order w body)
         = Responded (order_created order (getenv w "RAZORPAY_KEY_ID")).
Proof.
  intros [Hid Hsec] Hb Hne Hok Hparse.
  unfold handle, Index.create_order, try_catch, bind, lift, process_env, ret.
  rewrite Hid, Hsec. cbn [negb orb]. step.
  rewrite (destructure_ok _ _ _ Hb). step.
  rewrite Hne, Hok. step. rewrite Hparse. step.
  unfold options_sent, receipt_sent, Index.receipt_or_default,
    razorpay_orders_create, Date_now, bind, ret.
  destruct (truthy (prop body "receipt")); step; cbn [reads calls app];
    match goal with
    | |- context [orders_create w ?o] => destruct (orders_create w o) eqn:E
    end; step; cbn [reads calls app fst snd].
  all: try match goal with r : reason |- _ => destruct r end.
  all: split; [ reflexivity | intros order H; try discriminate H ].
  all: injection H as ->; reflexivity.
Qed.

Lemma positive_number_passes (A : Num.number) :
  Num.ltb Num.zero A = true ->
  Index.invalid_amount (VNum A) = Ok false /\ parseFloat (VNum A) = Ok A.
Proof.
  destruct A as [s | s | | s m e]; simpl; intros H; try discriminate H;
    destruct s; try discriminate H; split; reflexivity.
Qed.

Lemma owner_of_a_field (body : value) (name : string) (x : Num.number) :
  get_prop body name = Ok (VNum x) ->
  nullish body = false
  /\ negb (truthy body) || Nat.eqb (keys_length body) 0 = false
  /\ prop body name = VNum x.
Proof.
  intros H. assert (P : prop body name = VNum x) by (unfold prop; now rewrite H).
  destruct body as [ | | b | y | t | fs | items | n m ]; simpl in H;
    try discriminate H.
  - destruct fs as [ | kv fs ]; [ discriminate H | ]. repeat split; assumption.
  - destruct (String.eqb name "message"); [ discriminate H | ].
    destruct (String.eqb name "name"); discriminate H.
Qed.

(** C2, as amended.  With the gateway configured, every request whose
    amount is a Number [A > 0] passes validation, and the gateway's
    order-creation call receives, as its amount, [Math.round(A * 100)],
    where the product is the binary64 product: whenever that product is
    finite, the amount is the Number of the integer nearest to it (the
    upper one on a tie); otherwise the product has overflowed and the
    amount is Infinity. *)
Theorem create_order_sends_rounded_minor_units
    (w : world) (body : value) (A : Num.number) :
  configured w ->
  get_prop body "amount" = Ok (VNum A) ->
  Num.ltb Num.zero A = true ->
  exists options sent,
    snd (handle Index.create_order w body) = [OrdersCreate options]
    /\ prop options "amount" = VNum sent
    /\ sent = Num.Math_round (Num.mul A (Num.of_Z 100))
    /\ (forall q,
          Num.to_Q (Num.mul A (Num.of_Z 100)) = Some q ->
          exists (r : Z) (q' : Q),
            Num.to_Q sent = Some q'
            /\ (q' == inject_Z r)%Q
            /\ (inject_Z r - (1 # 2) <= q /\ q < inject_Z r + (1 # 2))%Q)
    /\ (Num.to_Q (Num.mul A (Num.of_Z 100)) = None -> sent = Num.Infinity).
Proof.
  intros Hc Hget Hpos.
  destruct (owner_of_a_field body "amount" A Hget) as (Hb & Hne & Hamount).
  destruct (positive_number_passes A Hpos) as [Hvalid Hparse].
  rewrite <- Hamount in Hvalid, Hparse.
  destruct (create_order_run_accepted w body A Hc Hb Hne Hvalid Hparse)
    as [Hcalls _].
  exists (options_sent w body A),
         (Num.Math_round (Num.mul A (Num.of_Z 100))).
  split; [ exact Hcalls | ]. split; [ reflexivity | ].
  split; [ reflexivity | ].
  destruct (times_100_cases A Hpos) as [E | [E | (m & e & E & Hm)]];
    rewrite E; split.
  - intros q Hq. injection Hq as <-. exists 0, 0%Q.
    split; [ reflexivity | ]. split; [ reflexivity | ].
    split; [ discriminate | reflexivity ].
  - intros H. discriminate H.
  - intros q Hq. discriminate Hq.
  - intros _. reflexivity.
  - intros q Hq. exact (Math_round_is_nearest_integer false m e q Hm Hq).
  - intros H. discriminate H.
Qed.

(** 499.99 yields 49999 (and the currency defaults to INR). *)
Lemma create_order_sends_rounded_minor_units_witness :
  exists options,
    snd (handle Index.create_order Samples.shop Samples.order_request)
      = [OrdersCreate options]
    /\ prop options "amount" = VNum (Num.of_Z 49999)
    /\ prop options "currency" = VStr "INR".
Proof.
  destruct (create_order_sends_rounded_minor_units
              Samples.shop Samples.order_request Samples.n499_99)
    as (options & sent & Hcalls & Hamount & Hsent & _);
    [ split; reflexivity | reflexivity | reflexivity | ].
  exists options. split; [ exact Hcalls | ].
  rewrite Hamount, Hsent. split; [ vm_compute; reflexivity | ].
  assert (E : [OrdersCreate options]
              = [OrdersCreate (options_sent Samples.shop Samples.order_request
                                            Samples.n499_99)])
    by (rewrite <- Hcalls; vm_compute; reflexivity).
  injection E as ->. reflexivity.
Defined.

(** C2, as stated, fails on two accepted amounts.  The Number 0.015 times
    one hundred is less than 3/2, so the integer nearest to it is 1; its
    binary64 product with 100 is 1.5, and the gateway is sent 2.  The
    product of 1e308 and 100 overflows, and the gateway is sent Infinity,
    which is no integer. *)
Lemma create_order_amount_sent_is_not_the_nearest_integer :
  (exists q,
     Num.to_Q Samples.n0_015 = Some q
     /\ (inject_Z 1 - (1 # 2) <= q * inject_Z 100
         /\ q * inject_Z 100 < inject_Z 1 + (1 # 2))%Q)
  /\ amounts_sent (snd (handle Index.create_order Samples.shop
                               Samples.small_fraction_request))
     = [VNum (Num.of_Z 2)]
  /\ Num.ltb Num.zero Samples.n1e308 = true
  /\ amounts_sent (snd (handle Index.create_order Samples.shop
                               Samples.huge_amount_request))
     = [VNum Num.Infinity].
Proof.
  split; [ | vm_compute; repeat split ].
  eexists. split; [ vm_compute; reflexivity | ].
  split; vm_compute; [ discriminate | reflexivity ].
Qed.

(** What the validation does stop.  A request with a parsed body whose
    amount is absent, coerces to NaN or is at most zero never reaches the
    gateway; it is answered 400 when the gateway credentials are
    configured, and with the configuration error, 500, when they are
    not: the credentials are looked at first. *)
Lemma create_order_rejects_unacceptable_amount (w : world) (body : value) :
  nullish body = false ->
  unacceptable_amount (prop body "amount") ->
  snd (handle Index.create_order w body) = []
  /\ (configured w ->
        status_of (fst (handle Index.create_order w body)) = Some 400)
  /\ (~ configured w ->
        fst (handle Index.create_order w body)
          = Responded configuration_error).
Proof.
  intros Hb Hbad.
  assert (Hinv : Index.invalid_amount (prop body "amount") = Ok true).
  { unfold Index.invalid_amount, isNaN, le_number.
    destruct Hbad as [E | [(x & E & Hx) | (x & E & Hx)]].
    - now rewrite E.
    - destruct (truthy (prop body "amount")); [ | reflexivity ].
      simpl negb. step. rewrite E. simpl. now rewrite Hx.
    - destruct (truthy (prop body "amount")); [ | reflexivity ].
      simpl negb. step. rewrite E. simpl.
      destruct (Num.is_nan x); [ reflexivity | now rewrite Hx ]. }
  assert (Hyes : configured w ->
                 status_of (fst (handle Index.create_order w body)) = Some 400
                 /\ snd (handle Index.create_order w body) = []).
  { intros Hc. rewrite (create_order_run_rejected w body Hc Hb Hinv).
    destruct (negb (truthy body) || Nat.eqb (keys_length body) 0);
      split; reflexivity. }
  assert (Hno : ~ configured w ->
                handle Index.create_order w body
                  = (Responded configuration_error, [])).
  { intros Hn. apply create_order_reports_empty_credentials.
    unfold configured in Hn.
    destruct (truthy (getenv w "RAZORPAY_KEY_ID"));
      [ | left; reflexivity ].
    destruct (truthy (getenv w "RAZORPAY_KEY_SECRET"));
      [ | right; reflexivity ].
    exfalso. apply Hn. split; reflexivity. }
  assert (Hdec : configured w \/ ~ configured w).
  { unfold configured.
    destruct (truthy (getenv w "RAZORPAY_KEY_ID"));
      destruct (truthy (getenv w "RAZORPAY_KEY_SECRET"));
      first [ left; split; reflexivity
            | right; intros [H1 H2]; discriminate ]. }
  split; [ | split ].
  - destruct Hdec as [Hc | Hn];
      [ exact (proj2 (Hyes Hc)) | now rewrite (Hno Hn) ].
  - intros Hc. exact (proj1 (Hyes Hc)).
  - intros Hn. now rewrite (Hno Hn).
Qed.

(** An instance: an amount of -5 under the configured deployment. *)
Lemma create_order_rejects_unacceptable_amount_witness :
  status_of (fst (handle Index.create_order Samples.shop
                         Samples.negative_amount_request)) = Some 400
  /\ snd (handle Index.create_order Samples.shop
                 Samples.negative_amount_request) = [].
Proof.
  assert (Hbad : unacceptable_amount
                   (prop Samples.negative_amount_request "amount")).
  { right. right. exists (Num.of_Z (-5)). split; reflexivity. }
  destruct (create_order_rejects_unacceptable_amount
              Samples.shop Samples.negative_amount_request eq_refl Hbad)
    as (Hcalls & Hstatus & _).
  split; [ apply Hstatus; split; reflexivity | exact Hcalls ].
Defined.

(** The validation coerces with Number() and the conversion reads with
    parseFloat, and the two disagree on a few amounts that are not JSON
    numbers: [true] passes as 1 and is sent as NaN, the string "0x10"
    passes as 16 and is sent as 0. *)
Example create_order_amounts_that_pass_unread :
  amounts_sent (snd (handle Index.create_order Samples.shop
                            (VObj [ ("amount", VBool true) ])))
    = [VNum Num.NaN]
  /\ amounts_sent (snd (handle Index.create_order Samples.shop
                               (VObj [ ("amount", VStr "0x10") ])))
     = [VNum Num.zero]
  /\ amounts_sent (snd (handle Index.create_order Samples.shop
                               (VObj [ ("amount", VStr "499.99") ])))
     = [VNum (Num.of_Z 49999)]
  /\ amounts_sent (snd (handle Index.create_order Samples.shop
                               (VObj [ ("amount", VStr "abc") ])))
     = [].
Proof. vm_compute. repeat split. Qed.

(** The /create-order handler always sends a response: its whole body is
    inside the try block. *)
Lemma create_order_never_escapes (w : world) (body : value) :
  exists r, fst (handle Index.create_order w body) = Responded r.
Proof.
  unfold handle, Index.create_order.
  match goal with
  | |- context [try_catch ?m ?h] =>
      destruct (try_catch_responds m h) with (w := w)
        (st := {| reads := O; calls := [] |}) as (r & st' & E)
  end.
  - throws.
  - intros e w' st Hn. unfold bind, lift, ret, Date_now.
    destruct (get_prop_of_object e "message" Hn) as [v ->].
    eexists. eexists. reflexivity.
  - rewrite E. now exists r.
Qed.

(** ** POST /verify-payment *)

(** The whole behaviour of the handler on a parsed body whose identifiers
    print, under a configured secret. *)
Lemma verify_payment_run (w : world) (body : value) (S so sp : string) :
  env w "RAZORPAY_KEY_SECRET" = Some S ->
  nullish body = false ->
  to_string (prop body "razorpay_order_id") = Ok so ->
  to_string (prop body "razorpay_payment_id") = Ok sp ->
  handle Index.verify_payment w body =
    (Responded
       (if strict_eq_string (Crypto.hmac_sha256_hex S (so ++ "|" ++ sp))
                            (prop body "razorpay_signature")
        then verified (prop body "razorpay_order_id")
                      (prop body "razorpay_payment_id")
        else not_verified),
     []).
Proof.
  intros HS Hb Ho Hp.
  unfold handle, Index.verify_payment, try_catch, bind, lift, process_env, ret.
  rewrite (destructure_ok _ _ _ Hb). step.
  rewrite Ho. step. rewrite Hp. step. unfold getenv. rewrite HS. step.
  unfold createHmac_sha256_hex. step.
  destruct (strict_eq_string _ _); reflexivity.
Qed.

(** C1.  Under a configured secret [S], a verification request whose
    order and payment identifiers are the strings [o] and [p] is answered
    200 (success) exactly when the supplied signature is the string
    hex(HMAC-SHA256(S, o + "|" + p)); any other signature value, the empty
    string and a missing signature included, is answered 400. *)
Theorem verify_payment_accepts_exactly_the_hmac
    (w : world) (body : value) (S o p : string) :
  env w "RAZORPAY_KEY_SECRET" = Some S ->
  get_prop body "razorpay_order_id" = Ok (VStr o) ->
  get_prop body "razorpay_payment_id" = Ok (VStr p) ->
  let s := prop body "razorpay_signature" in
  let digest := Crypto.hmac_sha256_hex S (o ++ "|" ++ p) in
  (s = VStr digest ->
     handle Index.verify_payment w body
       = (Responded (verified (VStr o) (VStr p)), []))
  /\ (s <> VStr digest ->
        handle Index.verify_payment w body = (Responded not_verified, []))
  /\ (status_of (fst (handle Index.verify_payment w body)) = Some 200
        <-> s = VStr digest).
Proof.
  intros HS Ho Hp s digest.
  assert (Hb : nullish body = false).
  { destruct body; simpl in Ho; try discriminate Ho; reflexivity. }
  assert (Ho' : prop body "razorpay_order_id" = VStr o)
    by (unfold prop; now rewrite Ho).
  assert (Hp' : prop body "razorpay_payment_id" = VStr p)
    by (unfold prop; now rewrite Hp).
  pose proof (verify_payment_run w body S o p HS Hb) as Hrun.
  rewrite Ho', Hp' in Hrun. specialize (Hrun eq_refl eq_refl).
  fold s digest in Hrun.
  repeat split.
  - intros E. rewrite Hrun.
    now rewrite (proj2 (strict_eq_string_iff digest s) E).
  - intros E. rewrite Hrun. now rewrite (strict_eq_string_other digest s E).
  - rewrite Hrun. destruct (strict_eq_string digest s) eqn:E.
    + intros _. now apply strict_eq_string_iff.
    + simpl. intros H. discriminate H.
  - intros E. rewrite Hrun.
    now rewrite (proj2 (strict_eq_string_iff digest s) E).
Qed.

(** C10.  A verification request that lacks the order identifier, the
    payment identifier or both is not rejected as malformed: the absent
    identifier enters the HMAC input as the text "undefined", and the
    request is answered 200 when the signature is the digest of that text
    (of "undefined|undefined" when both are absent) and 400 otherwise. *)
Theorem verify_payment_missing_ids_hash_as_undefined
    (w : world) (body : value) (S : string) :
  env w "RAZORPAY_KEY_SECRET" = Some S ->
  nullish body = false ->
  let order_id := prop body "razorpay_order_id" in
  let payment_id := prop body "razorpay_payment_id" in
  let s := prop body "razorpay_signature" in
  let answer (text : string) :=
    if strict_eq_string (Crypto.hmac_sha256_hex S text) s
    then verified order_id payment_id else not_verified in
  (order_id = VUndef -> payment_id = VUndef ->
     handle Index.verify_payment w body
       = (Responded (answer "undefined|undefined"), []))
  /\ (forall p, order_id = VUndef -> payment_id = VStr p ->
        handle Index.verify_payment w body
          = (Responded (answer ("undefined|" ++ p)), []))
  /\ (forall o, order_id = VStr o -> payment_id = VUndef ->
        handle Index.verify_payment w body
          = (Responded (answer (o ++ "|undefined")), [])).
Proof.
  intros HS Hb order_id payment_id s answer. unfold answer.
  repeat split.
  - intros Ho Hp.
    rewrite (verify_payment_run w body S "undefined" "undefined" HS Hb);
      fold order_id payment_id; [ reflexivity | now rewrite Ho | now rewrite Hp ].
  - intros p Ho Hp.
    rewrite (verify_payment_run w body S "undefined" p HS Hb);
      fold order_id payment_id; [ reflexivity | now rewrite Ho | now rewrite Hp ].
  - intros o Ho Hp.
    rewrite (verify_payment_run w body S o "undefined" HS Hb);
      fold order_id payment_id; [ reflexivity | now rewrite Ho | now rewrite Hp ].
Qed.

(** The outcome of a verification depends on the request and on the
    world through the three fields and the secret only. *)
Lemma verify_payment_depends_on_four_inputs (w1 w2 : world) (b1 b2 : value) :
  nullish b1 = false -> nullish b2 = false ->
  env w1 "RAZORPAY_KEY_SECRET" = env w2 "RAZORPAY_KEY_SECRET" ->
  prop b1 "razorpay_order_id" = prop b2 "razorpay_order_id" ->
  prop b1 "razorpay_payment_id" = prop b2 "razorpay_payment_id" ->
  prop b1 "razorpay_signature" = prop b2 "razorpay_signature" ->
  handle Index.verify_payment w1 b1 = handle Index.verify_payment w2 b2.
Proof.
  intros H1 H2 HS Ho Hp Hs.
  unfold handle, Index.verify_payment, try_catch, bind, lift, process_env, ret.
  rewrite (destructure_ok _ _ _ H1), (destructure_ok _ _ _ H2). step.
  unfold getenv. rewrite Ho, Hp, Hs, HS.
  destruct (to_string (prop b2 "razorpay_order_id")); step;
    [ | reflexivity ].
  destruct (to_string (prop b2 "razorpay_payment_id")); step;
    [ | reflexivity ].
  destruct (env w2 "RAZORPAY_KEY_SECRET"); unfold createHmac_sha256_hex; step;
    [ | reflexivity ].
  destruct (strict_eq_string _ _); reflexivity.
Qed.

(** C9.  Verification is deterministic: two requests with the same order
    identifier, payment identifier and signature, handled under the same
    secret, get the same status code and the same success flag, whatever
    else differs between the two requests or the two runs. *)
Theorem verify_payment_deterministic (w1 w2 : world) (b1 b2 : value) :
  nullish b1 = false -> nullish b2 = false ->
  env w1 "RAZORPAY_KEY_SECRET" = env w2 "RAZORPAY_KEY_SECRET" ->
  prop b1 "razorpay_order_id" = prop b2 "razorpay_order_id" ->
  prop b1 "razorpay_payment_id" = prop b2 "razorpay_payment_id" ->
  prop b1 "razorpay_signature" = prop b2 "razorpay_signature" ->
  let o1 := fst (handle Index.verify_payment w1 b1) in
  let o2 := fst (handle Index.verify_payment w2 b2) in
  status_of o1 = status_of o2 /\ success_of o1 = success_of o2.
Proof.
  intros H1 H2 HS Ho Hp Hs o1 o2. unfold o1, o2.
  now rewrite (verify_payment_depends_on_four_inputs w1 w2 b1 b2).
Qed.

(** An instance: the scenario order_1, pay_1, s3cr3t with its signature. *)
Lemma verify_payment_accepts_exactly_the_hmac_witness :
  handle Index.verify_payment Samples.shop Samples.verify_request
    = (Responded (verified (VStr "order_1") (VStr "pay_1")), []).
Proof.
  apply (verify_payment_accepts_exactly_the_hmac
           Samples.shop Samples.verify_request "s3cr3t" "order_1" "pay_1");
    [ reflexivity | reflexivity | reflexivity | vm_compute; reflexivity ].
Defined.

(** An instance: no identifiers, and the signature of
    "undefined|undefined". *)
Lemma verify_payment_missing_ids_hash_as_undefined_witness :
  handle Index.verify_payment Samples.shop Samples.verify_request_without_ids
    = (Responded (verified VUndef VUndef), []).
Proof.
  pose proof (proj1 (verify_payment_missing_ids_hash_as_undefined
                       Samples.shop Samples.verify_request_without_ids
                       "s3cr3t" eq_refl eq_refl) eq_refl eq_refl) as H.
  rewrite H. vm_compute. reflexivity.
Defined.

(** An instance: the same three fields in another order, with one more
    field, under another deployment with the same secret. *)
Lemma verify_payment_deterministic_witness :
  status_of (fst (handle Index.verify_payment Samples.shop
                         Samples.verify_request))
    = status_of (fst (handle Index.verify_payment Samples.mail_down
                             (VObj [ ("razorpay_signature",
                                      prop Samples.verify_request
                                           "razorpay_signature")
                                   ; ("razorpay_payment_id", VStr "pay_1")
                                   ; ("note", VStr "retry")
                                   ; ("razorpay_order_id", VStr "order_1") ]))).
Proof.
  apply (verify_payment_deterministic Samples.shop Samples.mail_down);
    reflexivity.
Defined.

(** The /verify-payment handler always sends a response. *)
Lemma verify_payment_never_escapes (w : world) (body : value) :
  exists r, fst (handle Index.verify_payment w body) = Responded r.
Proof.
  unfold handle, Index.verify_payment.
  match goal with
  | |- context [try_catch ?m ?h] =>
      destruct (try_catch_responds m h) with (w := w)
        (st := {| reads := O; calls := [] |}) as (r & st' & E)
  end.
  - throws.
  - intros e w' st Hn. unfold bind, lift, ret.
    destruct (get_prop_of_object e "message" Hn) as [v ->].
    eexists. eexists. reflexivity.
  - rewrite E. now exists r.
Qed.

(** ** POST /agent_to_customer *)

Section Confirmation.
Variables wave rupee : string.

(** A falsy customer address ends the handling before anything is
    rendered or sent. *)
Lemma agent_to_customer_run_no_email (w : world) (body : value) :
  nullish body = false ->
  truthy (prop body "customerEmail") = false ->
  handle (Index.agent_to_customer_with wave rupee) w body
    = (Responded email_required, []).
Proof.
  intros Hb He.
  unfold handle, Index.agent_to_customer_with, bind, lift, ret.
  rewrite (destructure_ok _ _ _ Hb). step. rewrite He. reflexivity.
Qed.

(** With an address but no order details, reading the order number
    throws outside of any try block. *)
Lemma agent_to_customer_run_no_order_details (w : world) (body : value) :
  nullish body = false ->
  truthy (prop body "customerEmail") = true ->
  nullish (prop body "orderDetails") = true ->
  exists e, handle (Index.agent_to_customer_with wave rupee) w body
            = (Escaped e, []).
Proof.
  intros Hb He Hod.
  unfold handle, Index.agent_to_customer_with, bind, lift, ret.
  rewrite (destructure_ok _ _ _ Hb). step. rewrite He. cbn [negb]. step.
  destruct (prop body "orderDetails"); try discriminate Hod;
    eexists; reflexivity.
Qed.

(** The mail options of a request that reaches the transport. *)
Lemma agent_to_customer_run_sent
    (w : world) (body : value) (s_orderNumber html : string) :
  nullish body = false ->
  truthy (prop body "customerEmail") = true ->
  rbind (get_prop (prop body "orderDetails") "orderNumber") to_string
    = Ok s_orderNumber ->
  Index.htmlContent wave rupee
    (prop body "customerDetails") (prop body "orderDetails")
    (Index.resolvedAgentName (prop body "orderDetails") (prop body "agentName"))
    (prop body "productName") = Ok html ->
  let mailOptions :=
    VObj [ ("from", getenv w "EMAIL_USER")
         ; ("to", prop body "customerEmail")
         ; ("cc", getenv w "EMAIL_USER")
         ; ("subject", VStr ("Order Confirmation #" ++ s_orderNumber))
         ; ("html", VStr html) ] in
  handle (Index.agent_to_customer_with wave rupee) w body
    = (match sendMail w mailOptions with
       | inl _ => Responded email_sent
       | inr r => Responded (email_failed (prop (reason_value r) "message"))
       end,
       [SendMail mailOptions]).
Proof.
  intros Hb He Hnum Hhtml mailOptions. subst mailOptions.
  unfold handle, Index.agent_to_customer_with, bind, lift, ret, try_catch,
    process_env, transporter_sendMail.
  rewrite (destructure_ok _ _ _ Hb). step. rewrite He. cbn [negb]. step.
  unfold rbind in Hnum.
  destruct (get_prop (prop body "orderDetails") "orderNumber") as [n | e];
    [ | discriminate Hnum ].
  step. rewrite Hnum. step. rewrite Hhtml. step. cbn [reads calls app].
  destruct (sendMail w _) as [info | r]; step; [ reflexivity | ].
  destruct r; reflexivity.
Qed.

(** A request either never reaches the transport, or is one of those the
    previous lemma describes. *)
Lemma agent_to_customer_cases (w : world) (body : value) :
  snd (handle (Index.agent_to_customer_with wave rupee) w body) = []
  \/ exists s_orderNumber html,
       nullish body = false
       /\ truthy (prop body "customerEmail") = true
       /\ rbind (get_prop (prop body "orderDetails") "orderNumber") to_string
          = Ok s_orderNumber
       /\ Index.htmlContent wave rupee
            (prop body "customerDetails") (prop body "orderDetails")
            (Index.resolvedAgentName (prop body "orderDetails")
                                     (prop body "agentName"))
            (prop body "productName") = Ok html.
Proof.
  destruct (nullish body) eqn:Hb.
  { left. destruct body; try discriminate Hb; reflexivity. }
  destruct (truthy (prop body "customerEmail")) eqn:He.
  2: { left. now rewrite (agent_to_customer_run_no_email w body Hb He). }
  destruct (rbind (get_prop (prop body "orderDetails") "orderNumber") to_string)
    as [s_orderNumber | e] eqn:Hnum.
  2: { left.
       unfold handle, Index.agent_to_customer_with, bind, lift, ret.
       rewrite (destructure_ok _ _ _ Hb). step. rewrite He. cbn [negb]. step.
       unfold rbind in Hnum.
       destruct (get_prop (prop body "orderDetails") "orderNumber");
         step; [ rewrite Hnum | ]; reflexivity. }
  destruct (Index.htmlContent wave rupee
              (prop body "customerDetails") (prop body "orderDetails")
              (Index.resolvedAgentName (prop body "orderDetails")
                                       (prop body "agentName"))
              (prop body "productName")) as [html | e] eqn:Hhtml.
  2: { left.
       unfold handle, Index.agent_to_customer_with, bind, lift, ret.
       rewrite (destructure_ok _ _ _ Hb). step. rewrite He. cbn [negb]. step.
       unfold rbind in Hnum.
       destruct (get_prop (prop body "orderDetails") "orderNumber");
         [ | discriminate Hnum ].
       step. rewrite Hnum. step. rewrite Hhtml. reflexivity. }
  right. exists s_orderNumber, html. repeat split; assumption.
Qed.

(** Whenever the transport was called, the reply is decided by its
    answer alone. *)
Lemma agent_to_customer_reply_after_send (w : world) (body m : value) :
  snd (handle (Index.agent_to_customer_with wave rupee) w body)
    = [SendMail m] ->
  fst (handle (Index.agent_to_customer_with wave rupee) w body)
    = match sendMail w m with
      | inl _ => Responded email_sent
      | inr r => Responded (email_failed (prop (reason_value r) "message"))
      end.
Proof.
  destruct (agent_to_customer_cases w body)
    as [E | (s & html & Hb & He & Hnum & Hhtml)].
  - rewrite E. intros H. discriminate H.
  - rewrite (agent_to_customer_run_sent w body s html Hb He Hnum Hhtml).
    cbn [fst snd]. intros H. injection H as H. subst m. reflexivity.
Qed.

End Confirmation.

(** C7.  A confirmation request without a customerEmail field is answered
    400 and the mail transport is not called, in either copy of the
    handler. *)
Theorem confirmation_requires_customer_email
    (h : value -> M response) (w : world) (body : value) :
  confirmation_handler h ->
  nullish body = false ->
  prop body "customerEmail" = VUndef ->
  handle h w body = (Responded email_required, [])
  /\ status email_required = 400.
Proof.
  intros Hh Hb He. split; [ | reflexivity ].
  destruct Hh as [-> | ->];
    (apply agent_to_customer_run_no_email; [ exact Hb | now rewrite He ]).
Qed.

(** An instance: a request with everything but the address. *)
Lemma confirmation_requires_customer_email_witness :
  handle Index.agent_to_customer Samples.shop Samples.confirmation_without_email
    = (Responded email_required, []).
Proof.
  apply (confirmation_requires_customer_email
           Index.agent_to_customer
           Samples.shop Samples.confirmation_without_email);
    [ left | | ]; reflexivity.
Defined.

(** C4, at the failing request.  A confirmation request that carries the
    customer's address and no orderDetails makes the handler throw a
    TypeError that no try block encloses: the exception leaves the
    handler, and no JSON response is produced.  Both copies of the
    handler do so. *)
Theorem confirmation_without_order_details_escapes (w : world) :
  handle Index.agent_to_customer w Samples.confirmation_without_order_details
    = (Escaped
         (TypeError
            "Cannot read properties of undefined (reading 'orderNumber')"),
       [])
  /\ handle Part000.agent_to_customer w
            Samples.confirmation_without_order_details
     = (Escaped
          (TypeError
             "Cannot read properties of undefined (reading 'orderNumber')"),
        []).
Proof. split; reflexivity. Qed.

(** C5, as amended.  Once the transport has been called, the handler
    answers 200 with the fixed success message and nothing else when the
    send succeeds, whatever the provider returned, and 500 with the
    message of the error when the send fails. *)
Theorem confirmation_reply_follows_the_send
    (h : value -> M response) (w : world) (body m : value) :
  confirmation_handler h ->
  snd (handle h w body) = [SendMail m] ->
  (forall info, sendMail w m = inl info ->
     fst (handle h w body) = Responded email_sent)
  /\ (forall r, sendMail w m = inr r ->
        fst (handle h w body)
          = Responded (email_failed (prop (reason_value r) "message"))).
Proof.
  intros Hh H.
  assert (R : fst (handle h w body)
              = match sendMail w m with
                | inl _ => Responded email_sent
                | inr r =>
                    Responded (email_failed (prop (reason_value r) "message"))
                end).
  { destruct Hh as [-> | ->];
      now apply agent_to_customer_reply_after_send. }
  split; intros x E; rewrite R, E; reflexivity.
Qed.

(** An instance: the sample request while the transport is down. *)
Lemma confirmation_reply_follows_the_send_witness :
  fst (handle Index.agent_to_customer Samples.mail_down
              Samples.confirmation_request)
    = Responded (email_failed (VStr "connect ECONNREFUSED")).
Proof.
  set (m := match snd (handle Index.agent_to_customer Samples.mail_down
                              Samples.confirmation_request) with
            | [SendMail m] => m
            | _ => VUndef
            end).
  apply (proj2 (confirmation_reply_follows_the_send
                  Index.agent_to_customer
                  Samples.mail_down Samples.confirmation_request m
                  (or_introl eq_refl)
                  ltac:(vm_compute; reflexivity))
               (RError "Error" "connect ECONNREFUSED")).
  reflexivity.
Defined.

(** C5, as stated, fails: the provider returns the message identifier
    <m1@example.com> for the request below, and the 200 response holds the
    success flag and the fixed message only. *)
Lemma confirmation_reply_omits_the_message_id :
  match handle Index.agent_to_customer Samples.shop
               Samples.confirmation_request with
  | (Responded r, [SendMail m]) =>
      sendMail Samples.shop m = inl [ ("messageId", VStr "<m1@example.com>") ]
      /\ status r = 200
      /\ json r = VObj [ ("success", VBool true)
                       ; ("message",
                          VStr "Confirmation email sent successfully!") ]
      /\ ~ body_includes r (VStr "<m1@example.com>")
  | _ => False
  end.
Proof.
  vm_compute. repeat split.
  intros [k [H | [H | []]]]; discriminate H.
Qed.

Lemma falsy_has_no_property (v : value) (name : string) :
  truthy v = false -> prop v name = VUndef.
Proof.
  destruct v as [ | | b | x | s | fs | items | n m ]; simpl; intros H;
    try discriminate H; reflexivity.
Qed.

(** The source's expression, against the precedence spelled out. *)
Lemma resolvedAgentName_by_cases (orderDetails agentName : value) :
  Index.resolvedAgentName orderDetails agentName
    = if truthy (prop orderDetails "agentName")
      then prop orderDetails "agentName"
      else if truthy agentName then agentName
           else VStr "Call Center Agent".
Proof.
  unfold Index.resolvedAgentName, or_else.
  destruct (truthy orderDetails) eqn:Hod.
  - destruct (truthy (prop orderDetails "agentName")) eqn:Hin.
    + now rewrite Hin.
    + destruct (truthy agentName) eqn:Han; now rewrite ?Han.
  - rewrite (falsy_has_no_property orderDetails "agentName" Hod), Hod.
    cbn [truthy]. destruct (truthy agentName) eqn:Han; now rewrite ?Han.
Qed.

(** C6.  The agent name of the e-mail is resolved in this order: the
    agentName of orderDetails when it is present (truthy: a non-empty
    string), else the top-level agentName when it is present, else the
    label 'Call Center Agent'.  With "X" in orderDetails and "Y" at the
    top level the name is "X". *)
Theorem agent_name_precedence (orderDetails agentName : value) :
  let in_details := prop orderDetails "agentName" in
  let resolved := Index.resolvedAgentName orderDetails agentName in
  (truthy in_details = true -> resolved = in_details)
  /\ (truthy in_details = false -> truthy agentName = true ->
        resolved = agentName)
  /\ (truthy in_details = false -> truthy agentName = false ->
        resolved = VStr "Call Center Agent").
Proof.
  intros in_details resolved. unfold resolved, in_details.
  rewrite resolvedAgentName_by_cases.
  repeat split; intros H; [ | intros H' .. ]; rewrite H, ?H'; reflexivity.
Qed.

(** The three cases on the names "X" and "Y". *)
Lemma agent_name_precedence_witness :
  Index.resolvedAgentName (VObj [ ("agentName", VStr "X") ]) (VStr "Y")
    = VStr "X"
  /\ Index.resolvedAgentName (VObj []) (VStr "Y") = VStr "Y"
  /\ Index.resolvedAgentName (VObj []) VUndef = VStr "Call Center Agent".
Proof.
  split; [ | split ].
  - exact (proj1 (agent_name_precedence (VObj [ ("agentName", VStr "X") ])
                                        (VStr "Y")) eq_refl).
  - exact (proj1 (proj2 (agent_name_precedence (VObj []) (VStr "Y")))
                 eq_refl eq_refl).
  - exact (proj2 (proj2 (agent_name_precedence (VObj []) VUndef))
                 eq_refl eq_refl).
Defined.

(** The mail of the sample request: its subject and addresses, and its
    HTML, by its SHA-256 (the digest of the template text of index.js with
    the request's values substituted). *)
Example confirmation_mail_of_the_sample :
  match handle Index.agent_to_customer Samples.shop
               Samples.confirmation_request with
  | (_, [SendMail m]) =>
      prop m "subject" = VStr "Order Confirmation #1042"
      /\ prop m "to" = VStr "asha@example.com"
      /\ prop m "from" = VStr "shop@example.com"
      /\ prop m "cc" = VStr "shop@example.com"
      /\ rbind (to_string (prop m "html"))
               (fun h => Ok (Crypto.hex (Crypto.sha256
                                           (Crypto.bytes_of_string h))))
         = Ok "4f965d3b66358ebc03b755a369a96be043f91f69de261203c59dda2548189f45"
  | _ => False
  end.
Proof. vm_compute. repeat split. Qed.

(** ** The agent name in the rendered e-mail *)

Lemma append_assoc (a b c : string) : (a ++ b) ++ c = a ++ (b ++ c).
Proof. induction a as [ | x a IH ]; simpl; [ reflexivity | now rewrite IH ]. Qed.

(** The printed agent name stands in the template's agent-name cell,
    between [piece7] and [piece8]. *)
Lemma htmlContent_names_the_agent
    (wave rupee : string) (customerDetails orderDetails resolved productName : value)
    (html : string) :
  Index.htmlContent wave rupee customerDetails orderDetails resolved productName
    = Ok html ->
  exists name pre post,
    to_string resolved = Ok name
    /\ html = pre ++ Template.piece7 ++ name ++ Template.piece8 ++ post.
Proof.
  unfold Index.htmlContent. intros H.
  repeat match type of H with
         | rbind ?r _ = Ok _ =>
             let E := fresh "E" in
             destruct r eqn:E; cbn [rbind] in H; [ | discriminate H ]
         end.
  match type of H with
  | context [Template.piece7 ++ ?n ++ Template.piece8 ++ ?p] =>
      exists n;
      exists (Template.piece0 ++ a0 ++ Template.piece1 wave ++ a2
                ++ Template.piece2 ++ a4 ++ Template.piece3 ++ a6
                ++ Template.piece4 ++ a4 ++ Template.piece5 ++ a8
                ++ Template.piece6 ++ a10);
      exists p
  end.
  split; [ reflexivity | ].
  rewrite !append_assoc. congruence.
Qed.

(** Every e-mail the handler hands to the transport names the agent the
    precedence of C6 resolves. *)
Lemma confirmation_mail_names_the_resolved_agent
    (wave rupee : string) (w : world) (body m : value) :
  snd (handle (Index.agent_to_customer_with wave rupee) w body)
    = [SendMail m] ->
  exists name pre post,
    to_string (Index.resolvedAgentName (prop body "orderDetails")
                                       (prop body "agentName")) = Ok name
    /\ prop m "html"
       = VStr (pre ++ Template.piece7 ++ name ++ Template.piece8 ++ post).
Proof.
  destruct (agent_to_customer_cases wave rupee w body)
    as [E | (s & html & Hb & He & Hnum & Hhtml)].
  - rewrite E. intros H. discriminate H.
  - rewrite (agent_to_customer_run_sent wave rupee w body s html
               Hb He Hnum Hhtml).
    cbn [snd]. intros H. injection H as H. subst m.
    destruct (htmlContent_names_the_agent _ _ _ _ _ _ _ Hhtml)
      as (name & pre & post & Hname & ->).
    exists name, pre, post. split; [ exact Hname | reflexivity ].
Qed.

(** ** The earlier copy of the server, src/unnamed/part_000 *)

(** Its /verify-payment handler is the handler of index.js. *)
Lemma part000_verify_payment_is_the_same :
  Part000.verify_payment = Index.verify_payment.
Proof. reflexivity. Qed.

(** Its /create-order handler checks neither the credentials nor the
    amount and does not round: without credentials the gateway client is
    called; an amount of -5 is sent on as -500; and 4.35 is sent as
    434.99999999999994 where index.js sends 435. *)
Lemma part000_create_order_is_unguarded :
  amounts_sent (snd (handle Part000.create_order Samples.unconfigured
                            Samples.order_request))
    = [VNum (Num.of_Z 49999)]
  /\ amounts_sent (snd (handle Part000.create_order Samples.shop
                               Samples.negative_amount_request))
     = [VNum (Num.of_Z (-500))]
  /\ map to_string
         (amounts_sent (snd (handle Part000.create_order Samples.shop
                                    Samples.fractional_request)))
     = [Ok "434.99999999999994"]
  /\ map to_string
         (amounts_sent (snd (handle Index.create_order Samples.shop
                                    Samples.fractional_request)))
     = [Ok "435"].
Proof. vm_compute. repeat split. Qed.

(** Its /agent_to_customer handler renders the same template with the two
    glyphs in their proper UTF-8 form: the mail of the sample request, by
    the SHA-256 of its HTML. *)
Example part000_confirmation_mail_of_the_sample :
  match handle Part000.agent_to_customer Samples.shop
               Samples.confirmation_request with
  | (Responded r, [SendMail m]) =>
      r = email_sent
      /\ prop m "subject" = VStr "Order Confirmation #1042"
      /\ rbind (to_string (prop m "html"))
               (fun h => Ok (Crypto.hex (Crypto.sha256
                                           (Crypto.bytes_of_string h))))
         = Ok "aa350a9efbd0c94a93ac168246dfb4492bd41b11414dd69f4f11a0beefb7abe5"
  | _ => False
  end.
Proof. vm_compute. repeat split. Qed.

(** Its /create-order handler, too, always sends a response. *)
Lemma part000_create_order_never_escapes (w : world) (body : value) :
  exists r, fst (handle Part000.create_order w body) = Responded r.
Proof.
  unfold handle, Part000.create_order.
  match goal with
  | |- context [try_catch ?m ?h] =>
      destruct (try_catch_responds m h) with (w := w)
        (st := {| reads := O; calls := [] |}) as (r & st' & E)
  end.
  - throws. apply lift_throws_objects. unfold times.
    apply rbind_throws_objects;
      [ apply to_number_throws_objects | intros; apply ok_throws_objects ].
  - intros e w' st Hn. unfold bind, lift, ret.
    destruct (get_prop_of_object e "message" Hn) as [v ->].
    eexists. eexists. reflexivity.
  - rewrite E. now exists r.
Qed.

(* ================================================================== *)
(** * Further properties of the handlers *)

(** ** /create-order of index.js, case by case *)

Lemma message_of_object (e : value) :
  nullish e = false -> get_prop e "message" = Ok (prop e "message").
Proof.
  intros H. unfold prop.
  destruct (get_prop_of_object e "message" H) as [v ->]. reflexivity.
Qed.

(** An amount that passed the validation can be read by [parseFloat]. *)
Lemma validated_amount_parses (amount : value) :
  Index.invalid_amount amount = Ok false ->
  exists parsed, parseFloat amount = Ok parsed.
Proof.
  unfold Index.invalid_amount, isNaN, le_number, parseFloat.
  destruct amount as [ | | b | x | s | fs | items | n m ];
    try (intros _; eexists; reflexivity).
  - destruct x; intros _; eexists; reflexivity.
  - cbn [truthy negb to_number]. step.
    destruct (to_string (VObj fs)); cbn [rbind];
      [ intros _; eexists; reflexivity | intros H; discriminate H ].
  - cbn [truthy negb to_number]. step.
    destruct (to_string (VArr items)); cbn [rbind];
      [ intros _; eexists; reflexivity | intros H; discriminate H ].
Qed.

(** An exception raised before the gateway is called is answered by the
    catch clause, with the first two readings of the clock. *)
Lemma create_order_run_threw (w : world) (body e : value) :
  configured w ->
  destructure body "amount" "req.body" = Throw e
  \/ (nullish body = false
      /\ negb (truthy body) || Nat.eqb (keys_length body) 0 = false
      /\ Index.invalid_amount (prop body "amount") = Throw e) ->
  handle Index.create_order w body
    = (Responded (order_failed (prop e "message") (clock w 0) (clock w 1)),
       []).
Proof.
  intros [Hid Hsec] H.
  assert (He : nullish e = false).
  { destruct H as [H | (_ & _ & H)].
    - exact (destructure_throws_objects _ _ _ e H).
    - exact (invalid_amount_throws_objects _ e H). }
  unfold handle, Index.create_order, try_catch, bind, lift, process_env, ret,
    Date_now.
  rewrite Hid, Hsec. cbn [negb orb]. step.
  destruct H as [H | (Hb & Hne & H)].
  - rewrite H. step. rewrite (message_of_object e He). reflexivity.
  - rewrite (destructure_ok _ _ _ Hb). step. rewrite Hne, H. step.
    rewrite (message_of_object e He). reflexivity.
Qed.

(** A request that passes validation: the one call, and the answer that
    follows from the answer of the gateway. *)
Lemma create_order_run_called (w : world) (body : value) (parsed : Num.number) :
  configured w ->
  nullish body = false ->
  negb (truthy body) || Nat.eqb (keys_length body) 0 = false ->
  Index.invalid_amount (prop body "amount") = Ok false ->
  parseFloat (prop body "amount") = Ok parsed ->
  handle Index.create_order w body
    = (match orders_create w (options_sent w body parsed) with
       | inl order =>
           Responded (order_created order (getenv w "RAZORPAY_KEY_ID"))
       | inr r =>
           let k := reads_before_call (prop body "receipt") in
           Responded (order_failed (prop (reason_value r) "message")
                                   (clock w k) (clock w (S k)))
       end,
       [OrdersCreate (options_sent w body parsed)]).
Proof.
  intros [Hid Hsec] Hb Hne Hok Hparse.
  unfold handle, Index.create_order, try_catch, bind, lift, process_env, ret.
  rewrite Hid, Hsec. cbn [negb orb]. step.
  rewrite (destructure_ok _ _ _ Hb). step.
  rewrite Hne, Hok. step. rewrite Hparse. step.
  unfold options_sent, receipt_sent, reads_before_call,
    Index.receipt_or_default, razorpay_orders_create, Date_now, bind, ret.
  destruct (truthy (prop body "receipt")); step; cbn [reads calls app];
    match goal with
    | |- context [orders_create w ?o] => destruct (orders_create w o) as [order | r]
    end; step; cbn [reads calls app]; try reflexivity;
    destruct r; reflexivity.
Qed.

(** Every way the handling of a request can go. *)
Lemma create_order_cases (w : world) (body : value) :
  handle Index.create_order w body = (Responded configuration_error, [])
  \/ (exists v t1 t2,
        handle Index.create_order w body
          = (Responded (order_failed v t1 t2), []))
  \/ handle Index.create_order w body = (Responded empty_body, [])
  \/ handle Index.create_order w body
     = (Responded (bad_amount (prop body "amount")), [])
  \/ (exists parsed order,
        (configured w
         /\ Index.invalid_amount (prop body "amount") = Ok false
         /\ parseFloat (prop body "amount") = Ok parsed)
        /\ orders_create w (options_sent w body parsed) = inl order
        /\ handle Index.create_order w body
           = (Responded (order_created order (getenv w "RAZORPAY_KEY_ID")),
              [OrdersCreate (options_sent w body parsed)]))
  \/ (exists parsed r t1 t2,
        (configured w
         /\ Index.invalid_amount (prop body "amount") = Ok false
         /\ parseFloat (prop body "amount") = Ok parsed)
        /\ orders_create w (options_sent w body parsed) = inr r
        /\ handle Index.create_order w body
           = (Responded (order_failed (prop (reason_value r) "message") t1 t2),
              [OrdersCreate (options_sent w body parsed)])).
Proof.
  destruct (truthy (getenv w "RAZORPAY_KEY_ID")) eqn:Hid.
  2: { left. apply create_order_reports_empty_credentials. now left. }
  destruct (truthy (getenv w "RAZORPAY_KEY_SECRET")) eqn:Hsec.
  2: { left. apply create_order_reports_empty_credentials. now right. }
  assert (Hc : configured w) by (split; assumption).
  destruct (destructure body "amount" "req.body") as [[] | e] eqn:Hd.
  2: { right. left. eexists. eexists. eexists.
       apply (create_order_run_threw w body e Hc). now left. }
  assert (Hb : nullish body = false)
    by (destruct body; try reflexivity; discriminate Hd).
  destruct (negb (truthy body) || Nat.eqb (keys_length body) 0) eqn:Hne.
  { destruct (Index.invalid_amount (prop body "amount")) as [[ | ] | e] eqn:Hv.
    - right. right. left.
      rewrite (create_order_run_rejected w body Hc Hb Hv), Hne. reflexivity.
    - right. right. left.
      unfold handle, Index.create_order, try_catch, bind, lift, process_env,
        ret.
      destruct Hc as [-> ->]. cbn [negb orb]. step.
      rewrite (destructure_ok _ _ _ Hb). step. rewrite Hne. reflexivity.
    - right. right. left.
      unfold handle, Index.create_order, try_catch, bind, lift, process_env,
        ret.
      destruct Hc as [-> ->]. cbn [negb orb]. step.
      rewrite (destructure_ok _ _ _ Hb). step. rewrite Hne. reflexivity. }
  destruct (Index.invalid_amount (prop body "amount")) as [[ | ] | e] eqn:Hv.
  - right. right. right. left.
    rewrite (create_order_run_rejected w body Hc Hb Hv), Hne. reflexivity.
  - destruct (validated_amount_parses _ Hv) as [parsed Hp].
    pose proof (create_order_run_called w body parsed Hc Hb Hne Hv Hp) as R.
    destruct (orders_create w (options_sent w body parsed)) as [order | r] eqn:E.
    + right. right. right. right. left. exists parsed, order.
      split; [ now repeat split | now split ].
    + right. right. right. right. right.
      exists parsed, r. eexists. eexists.
      split; [ now repeat split | split; [ exact E | exact R ] ].
  - right. left. eexists. eexists. eexists.
    apply (create_order_run_threw w body e Hc). right. now repeat split.
Qed.

Ltac case_of_create_order w body :=
  destruct (create_order_cases w body)
    as [E | [(v & t1 & t2 & E) | [E | [E | [(parsed & order & P & G & E)
                                           | (parsed & r & t1 & t2 & P & G & E)
                                           ]]]]];
  rewrite E; cbn [fst snd].

(** C3, at the failing request.  The validation coerces its operand:
    [true] is truthy, its Number coercion is 1, which is neither NaN nor
    at most zero, so a request whose amount is the boolean [true] passes
    the test that is meant to stop what is not a positive number.
    parseFloat then reads the text "true" as NaN, and the gateway is
    called with the amount NaN: the request is never answered 400. *)
Theorem create_order_accepts_a_boolean_amount (w : world) :
  configured w ->
  exists options,
    snd (handle Index.create_order w Samples.boolean_amount_request)
      = [OrdersCreate options]
    /\ prop options "amount" = VNum Num.NaN
    /\ status_of (fst (handle Index.create_order w
                               Samples.boolean_amount_request))
       <> Some 400.
Proof.
  intros Hc.
  assert (Hv : Index.invalid_amount
                 (prop Samples.boolean_amount_request "amount") = Ok false)
    by (vm_compute; reflexivity).
  assert (Hp : parseFloat (prop Samples.boolean_amount_request "amount")
               = Ok Num.NaN)
    by (vm_compute; reflexivity).
  rewrite (create_order_run_called w Samples.boolean_amount_request Num.NaN
             Hc eq_refl eq_refl Hv Hp).
  cbn [fst snd].
  exists (options_sent w Samples.boolean_amount_request Num.NaN).
  split; [ reflexivity | ]. split; [ reflexivity | ].
  destruct (orders_create w _); intros H; discriminate H.
Qed.

(** An instance: under the sample deployment the request is answered
    200. *)
Lemma create_order_accepts_a_boolean_amount_witness :
  amounts_sent (snd (handle Index.create_order Samples.shop
                            Samples.boolean_amount_request))
    = [VNum Num.NaN]
  /\ status_of (fst (handle Index.create_order Samples.shop
                             Samples.boolean_amount_request)) = Some 200.
Proof.
  destruct (create_order_accepts_a_boolean_amount Samples.shop)
    as (options & Hcalls & Hamount & _); [ split; reflexivity | ].
  rewrite Hcalls. cbn [amounts_sent flat_map app]. rewrite Hamount.
  split; [ reflexivity | vm_compute; reflexivity ].
Defined.

(** X1.  The /create-order handler of index.js answers every request:
    nothing it does throws past its try block.  The status is 200, 400 or
    500; the gateway is called at most once and nothing else is called;
    and a 400 is always given without a call. *)
Theorem create_order_answers_and_calls_at_most_once (w : world) (body : value) :
  exists r,
    fst (handle Index.create_order w body) = Responded r
    /\ (status r = 200 \/ status r = 400 \/ status r = 500)
    /\ (snd (handle Index.create_order w body) = []
        \/ exists options,
             snd (handle Index.create_order w body) = [OrdersCreate options])
    /\ (status r = 400 -> snd (handle Index.create_order w body) = []).
Proof.
  case_of_create_order w body; eexists; (split; [ reflexivity | ]);
    cbn [status respond configuration_error order_failed empty_body
         bad_amount order_created];
    repeat split;
    first [ now left | now (right; left) | now (right; right)
          | now (right; eexists) | intros H; discriminate H | reflexivity ].
Qed.

(** X2.  A 200 answer is only ever given after exactly one call to the
    gateway that succeeded; its body carries the order object the gateway
    returned, unchanged, and the configured key id. *)
Theorem create_order_success_comes_from_the_gateway
    (w : world) (body : value) (answer : response) :
  fst (handle Index.create_order w body) = Responded answer ->
  status answer = 200 ->
  exists options order,
    snd (handle Index.create_order w body) = [OrdersCreate options]
    /\ orders_create w options = inl order
    /\ answer = order_created order (getenv w "RAZORPAY_KEY_ID").
Proof.
  case_of_create_order w body; intros H; injection H as <-;
    cbn [status respond configuration_error order_failed empty_body
         bad_amount order_created];
    intros S; try discriminate S.
  exists (options_sent w body parsed), order. repeat split. exact G.
Qed.

(** An instance: the sample order, which the sample gateway accepts. *)
Lemma create_order_success_comes_from_the_gateway_witness :
  exists options order,
    snd (handle Index.create_order Samples.shop Samples.order_request)
      = [OrdersCreate options]
    /\ orders_create Samples.shop options = inl order
    /\ prop order "id" = VStr "order_1".
Proof.
  destruct (create_order_success_comes_from_the_gateway
              Samples.shop Samples.order_request
              (order_created
                 (VObj [ ("id", VStr "order_1")
                       ; ("amount", VNum (Num.of_Z 49999)) ])
                 (VStr "rzp_test_1")))
    as (options & order & Hcalls & Hgate & Hr);
    [ vm_compute; reflexivity | reflexivity | ].
  exists options, order. split; [ exact Hcalls | ]. split; [ exact Hgate | ].
  injection Hr as <-. reflexivity.
Defined.

(** X3.  When the gateway rejects the order, the handler answers 500
    "Failed to create order" with the message of the rejection, and has
    called the gateway once: there is no retry. *)
Theorem create_order_reports_a_gateway_rejection
    (w : world) (body options : value) (why : reason) :
  snd (handle Index.create_order w body) = [OrdersCreate options] ->
  orders_create w options = inr why ->
  exists t1 t2,
    fst (handle Index.create_order w body)
      = Responded (order_failed (prop (reason_value why) "message") t1 t2).
Proof.
  case_of_create_order w body; intros H; try discriminate H;
    injection H as <-; intros G'; rewrite G in G';
    [ discriminate G' | injection G' as <- ].
  exists t1, t2. reflexivity.
Qed.

(** An instance: the sample order while the gateway is unreachable. *)
Lemma create_order_reports_a_gateway_rejection_witness :
  exists t1 t2,
    fst (handle Index.create_order Samples.gateway_down Samples.order_request)
      = Responded (order_failed (VStr "getaddrinfo ENOTFOUND") t1 t2).
Proof.
  set (options := match snd (handle Index.create_order Samples.gateway_down
                                    Samples.order_request) with
                  | [OrdersCreate o] => o
                  | _ => VUndef
                  end).
  exact (create_order_reports_a_gateway_rejection
           Samples.gateway_down Samples.order_request options
           (RError "Error" "getaddrinfo ENOTFOUND")
           ltac:(vm_compute; reflexivity) eq_refl).
Defined.

(** X4.  The options of every gateway call: the currency, the receipt
    and the notes of the request are sent as given when they are truthy;
    otherwise the currency is "INR", the notes are an empty object and the
    receipt is "receipt_" followed by a reading of the clock. *)
Theorem create_order_fills_in_defaults (w : world) (body options : value) :
  snd (handle Index.create_order w body) = [OrdersCreate options] ->
  prop options "currency"
    = (if truthy (prop body "currency") then prop body "currency"
       else VStr "INR")
  /\ prop options "notes"
     = (if truthy (prop body "notes") then prop body "notes" else VObj [])
  /\ prop options "receipt"
     = (if truthy (prop body "receipt") then prop body "receipt"
        else VStr ("receipt_" ++ Num.to_string (Num.of_Z (clock w 1)))).
Proof.
  case_of_create_order w body; intros H; try discriminate H;
    injection H as <-; repeat split.
Qed.

(** An instance: the sample order names no currency and no receipt. *)
Lemma create_order_fills_in_defaults_witness :
  exists options,
    snd (handle Index.create_order Samples.shop Samples.order_request)
      = [OrdersCreate options]
    /\ prop options "currency" = VStr "INR"
    /\ prop options "notes" = VObj []
    /\ prop options "receipt" = VStr "receipt_1793583723457".
Proof.
  set (options := match snd (handle Index.create_order Samples.shop
                                    Samples.order_request) with
                  | [OrdersCreate o] => o
                  | _ => VUndef
                  end).
  assert (Hcalls : snd (handle Index.create_order Samples.shop
                               Samples.order_request)
                   = [OrdersCreate options]) by (vm_compute; reflexivity).
  destruct (create_order_fills_in_defaults
              Samples.shop Samples.order_request options Hcalls)
    as (Hc & Hn & Hr).
  exists options. split; [ exact Hcalls | ].
  split; [ exact Hc | ]. split; [ exact Hn | ].
  rewrite Hr. vm_compute. reflexivity.
Defined.

(** X5.  A parsed body with no key at all (the empty object, the empty
    array) is answered 400 "Invalid request", before the amount is looked
    at, and the gateway is not called. *)
Theorem create_order_rejects_an_empty_body (w : world) (body : value) :
  configured w ->
  nullish body = false ->
  keys_length body = 0%nat ->
  handle Index.create_order w body = (Responded empty_body, []).
Proof.
  intros [Hid Hsec] Hb Hk.
  unfold handle, Index.create_order, try_catch, bind, lift, process_env, ret.
  rewrite Hid, Hsec. cbn [negb orb]. step.
  rewrite (destructure_ok _ _ _ Hb). step. rewrite Hk.
  cbn [Nat.eqb]. rewrite Bool.orb_true_r. reflexivity.
Qed.

(** An instance: the body [{}]. *)
Lemma create_order_rejects_an_empty_body_witness :
  handle Index.create_order Samples.shop (VObj [])
    = (Responded empty_body, []).
Proof.
  apply (create_order_rejects_an_empty_body Samples.shop (VObj []));
    [ split | | ]; reflexivity.
Defined.

(** X6.  When req.body is undefined or null, the destructuring of line 77
    throws before the [!req.body] test of line 80 is reached: the answer
    is the 500 of the catch clause, with the TypeError's message, not the
    400 of the test. *)
Theorem create_order_without_a_body_is_answered_500 (w : world) (body : value) :
  configured w ->
  nullish body = true ->
  exists message,
    handle Index.create_order w body
      = (Responded (order_failed (VStr message) (clock w 0) (clock w 1)), []).
Proof.
  intros Hc Hb.
  destruct body; try discriminate Hb.
  - eexists.
    rewrite (create_order_run_threw w VUndef _ Hc (or_introl eq_refl)).
    reflexivity.
  - eexists.
    rewrite (create_order_run_threw w VNull _ Hc (or_introl eq_refl)).
    reflexivity.
Qed.

(** An instance: no body at all. *)
Lemma create_order_without_a_body_is_answered_500_witness :
  status_of (fst (handle Index.create_order Samples.shop VUndef)) = Some 500.
Proof.
  destruct (create_order_without_a_body_is_answered_500
              Samples.shop VUndef) as [message E];
    [ split; reflexivity | reflexivity | ].
  rewrite E. reflexivity.
Defined.

(** X21.  What reaches the gateway is read by parseFloat: whenever the
    handler of index.js calls the gateway, both credentials are
    configured, the amount of the request passed the validation, and the
    amount of the call is [Math.round(parseFloat(amount) * 100)], for
    amounts of any type (a numeric string is accepted like a Number). *)
Theorem create_order_sends_what_parseFloat_reads
    (w : world) (body options : value) :
  snd (handle Index.create_order w body) = [OrdersCreate options] ->
  configured w
  /\ Index.invalid_amount (prop body "amount") = Ok false
  /\ exists parsed,
       parseFloat (prop body "amount") = Ok parsed
       /\ prop options "amount"
          = VNum (Num.Math_round (Num.mul parsed (Num.of_Z 100))).
Proof.
  case_of_create_order w body; intros H; try discriminate H;
    injection H as <-; destruct P as (Hc & Hv & Hp);
    (split; [ exact Hc | split; [ exact Hv | ] ]);
    exists parsed; (split; [ exact Hp | reflexivity ]).
Qed.

(** An instance: the amount "499.99", a string, is sent as 49999. *)
Lemma create_order_sends_what_parseFloat_reads_witness :
  exists options,
    snd (handle Index.create_order Samples.shop Samples.string_amount_request)
      = [OrdersCreate options]
    /\ prop options "amount" = VNum (Num.of_Z 49999).
Proof.
  set (options := match snd (handle Index.create_order Samples.shop
                                    Samples.string_amount_request) with
                  | [OrdersCreate o] => o
                  | _ => VUndef
                  end).
  assert (Hcalls : snd (handle Index.create_order Samples.shop
                               Samples.string_amount_request)
                   = [OrdersCreate options])
    by (vm_compute; reflexivity).
  destruct (create_order_sends_what_parseFloat_reads
              Samples.shop Samples.string_amount_request options Hcalls)
    as (_ & _ & parsed & Hp & Hamount).
  exists options. split; [ exact Hcalls | ].
  rewrite Hamount. vm_compute in Hp. injection Hp as <-.
  vm_compute. reflexivity.
Defined.

(** X22.  An amount of whole paise is sent exactly: for a request whose
    amount is the Number of the decimal [k / 100], with [0 < k < 2^48],
    the gateway is called with the amount [k].  Neither the rounding of
    [k / 100] to a Number nor that of the product with 100 moves the
    result away from [k]. *)
Theorem create_order_sends_whole_paise_exactly
    (w : world) (body : value) (k : Z) :
  configured w ->
  0 < k < 2 ^ 48 ->
  get_prop body "amount" = Ok (VNum (Num.of_decimal false k (-2))) ->
  amounts_sent (snd (handle Index.create_order w body)) = [VNum (Num.of_Z k)].
Proof.
  intros Hc Hk Hget.
  assert (Hpos : Num.ltb Num.zero (Num.of_decimal false k (-2)) = true).
  { destruct (of_decimal_hundredths k Hk) as (ma & j & -> & _). reflexivity. }
  destruct (owner_of_a_field body "amount" _ Hget) as (Hb & Hne & Hamount).
  destruct (positive_number_passes _ Hpos) as [Hvalid Hparse].
  rewrite <- Hamount in Hvalid, Hparse.
  destruct (create_order_run_accepted w body _ Hc Hb Hne Hvalid Hparse)
    as [Hcalls _].
  rewrite Hcalls, <- (whole_paise_exact k Hk). reflexivity.
Qed.

(** An instance: 499.99 is 49999 paise. *)
Lemma create_order_sends_whole_paise_exactly_witness :
  amounts_sent (snd (handle Index.create_order Samples.shop
                            Samples.order_request))
    = [VNum (Num.of_Z 49999)].
Proof.
  apply (create_order_sends_whole_paise_exactly
           Samples.shop Samples.order_request 49999);
    [ split; reflexivity | lia | reflexivity ].
Defined.

(** ** /verify-payment, case by case *)

(** Every way the handling of a verification request can go: the catch
    clause answers when the body is missing, an identifier cannot be
    printed or the secret is not configured; otherwise the comparison
    decides. *)
Lemma verify_payment_cases (w : world) (body : value) :
  (exists v,
     handle Index.verify_payment w body = (Responded (verification_failed v), [])
     /\ (nullish body = true
         \/ (exists e, to_string (prop body "razorpay_order_id") = Throw e)
         \/ (exists e, to_string (prop body "razorpay_payment_id") = Throw e)
         \/ env w "RAZORPAY_KEY_SECRET" = None))
  \/ (exists S so sp,
        env w "RAZORPAY_KEY_SECRET" = Some S
        /\ nullish body = false
        /\ to_string (prop body "razorpay_order_id") = Ok so
        /\ to_string (prop body "razorpay_payment_id") = Ok sp
        /\ handle Index.verify_payment w body
           = (Responded
                (if strict_eq_string
                      (Crypto.hmac_sha256_hex S (so ++ "|" ++ sp))
                      (prop body "razorpay_signature")
                 then verified (prop body "razorpay_order_id")
                               (prop body "razorpay_payment_id")
                 else not_verified),
              [])).
Proof.
  destruct (nullish body) eqn:Hb.
  { left. destruct body; try discriminate Hb; eexists;
      (split; [ reflexivity | now left ]). }
  destruct (to_string (prop body "razorpay_order_id")) as [so | e] eqn:Ho.
  2: { left. exists (prop e "message"). split; [ | right; left; now exists e ].
       unfold handle, Index.verify_payment, try_catch, bind, lift, ret.
       rewrite (destructure_ok _ _ _ Hb). step. rewrite Ho. step.
       rewrite (message_of_object e (to_string_throws_objects _ e Ho)).
       reflexivity. }
  destruct (to_string (prop body "razorpay_payment_id")) as [sp | e] eqn:Hp.
  2: { left. exists (prop e "message").
       split; [ | right; right; left; now exists e ].
       unfold handle, Index.verify_payment, try_catch, bind, lift, ret.
       rewrite (destructure_ok _ _ _ Hb). step. rewrite Ho. step.
       rewrite Hp. step.
       rewrite (message_of_object e (to_string_throws_objects _ e Hp)).
       reflexivity. }
  destruct (env w "RAZORPAY_KEY_SECRET") as [S | ] eqn:HS.
  - right. exists S, so, sp. repeat split; try assumption.
    exact (verify_payment_run w body S so sp HS Hb Ho Hp).
  - left. eexists. split; [ | right; right; right; reflexivity ].
    unfold handle, Index.verify_payment, try_catch, bind, lift, ret,
      process_env, getenv.
    rewrite (destructure_ok _ _ _ Hb). step. rewrite Ho. step.
    rewrite Hp. step. rewrite HS. reflexivity.
Qed.

(** X7.  The /verify-payment handler answers every request, with 200,
    400 or 500, and calls neither the gateway nor the mail transport. *)
Theorem verify_payment_answers_and_calls_nothing (w : world) (body : value) :
  exists r,
    handle Index.verify_payment w body = (Responded r, [])
    /\ (status r = 200 \/ status r = 400 \/ status r = 500).
Proof.
  destruct (verify_payment_cases w body)
    as [(v & E & _) | (S & so & sp & _ & _ & _ & _ & E)]; rewrite E.
  - eexists. split; [ reflexivity | now (right; right) ].
  - destruct (strict_eq_string _ _); eexists;
      (split; [ reflexivity | ]); [ now left | now (right; left) ].
Qed.

(** X8.  While RAZORPAY_KEY_SECRET is absent from the environment, no
    request is verified: every request, whatever its signature, is
    answered 500 by the catch clause. *)
Theorem verify_payment_needs_the_secret (w : world) (body : value) :
  env w "RAZORPAY_KEY_SECRET" = None ->
  exists v,
    handle Index.verify_payment w body = (Responded (verification_failed v), [])
    /\ status (verification_failed v) = 500.
Proof.
  intros HS.
  destruct (verify_payment_cases w body)
    as [(v & E & _) | (S & so & sp & HS' & _)].
  - exists v. split; [ exact E | reflexivity ].
  - rewrite HS in HS'. discriminate HS'.
Qed.

(** An instance: the request of the scenario, with its right signature,
    under a deployment without the secret. *)
Lemma verify_payment_needs_the_secret_witness :
  status_of (fst (handle Index.verify_payment Samples.unconfigured
                         Samples.verify_request)) = Some 500.
Proof.
  destruct (verify_payment_needs_the_secret
              Samples.unconfigured Samples.verify_request eq_refl)
    as (v & E & _).
  rewrite E. reflexivity.
Defined.

(** X10.  The identifiers are compared as text: two requests whose
    identifiers print alike (the number 123 and the string "123") are
    accepted or rejected alike by the same signature under the same
    secret. *)
Theorem verify_payment_reads_identifiers_as_text
    (w1 w2 : world) (b1 b2 : value) :
  nullish b1 = false -> nullish b2 = false ->
  env w1 "RAZORPAY_KEY_SECRET" = env w2 "RAZORPAY_KEY_SECRET" ->
  to_string (prop b1 "razorpay_order_id")
    = to_string (prop b2 "razorpay_order_id") ->
  to_string (prop b1 "razorpay_payment_id")
    = to_string (prop b2 "razorpay_payment_id") ->
  prop b1 "razorpay_signature" = prop b2 "razorpay_signature" ->
  let o1 := fst (handle Index.verify_payment w1 b1) in
  let o2 := fst (handle Index.verify_payment w2 b2) in
  status_of o1 = status_of o2 /\ success_of o1 = success_of o2.
Proof.
  intros H1 H2 HS Ho Hp Hs o1 o2. unfold o1, o2.
  unfold handle, Index.verify_payment, try_catch, bind, lift, process_env, ret.
  rewrite (destructure_ok _ _ _ H1), (destructure_ok _ _ _ H2). step.
  unfold getenv. rewrite Ho, Hp, Hs, HS.
  destruct (to_string (prop b2 "razorpay_order_id")) as [so | e] eqn:Eo; step.
  2: { rewrite (message_of_object e (to_string_throws_objects _ e Eo)).
       split; reflexivity. }
  destruct (to_string (prop b2 "razorpay_payment_id")) as [sp | e] eqn:Ep; step.
  2: { rewrite (message_of_object e (to_string_throws_objects _ e Ep)).
       split; reflexivity. }
  destruct (env w2 "RAZORPAY_KEY_SECRET"); unfold createHmac_sha256_hex; step;
    [ | split; reflexivity ].
  destruct (strict_eq_string _ _); split; reflexivity.
Qed.

(** An instance: the order identifier 123 sent as a number and as a
    string. *)
Lemma verify_payment_reads_identifiers_as_text_witness :
  status_of (fst (handle Index.verify_payment Samples.shop
                    (VObj [ ("razorpay_order_id", VNum (Num.of_Z 123))
                          ; ("razorpay_payment_id", VStr "pay_1") ])))
    = status_of (fst (handle Index.verify_payment Samples.shop
                        (VObj [ ("razorpay_order_id", VStr "123")
                              ; ("razorpay_payment_id", VStr "pay_1") ]))).
Proof.
  apply (verify_payment_reads_identifiers_as_text Samples.shop Samples.shop);
    reflexivity.
Defined.

(** ** The shape of the expected signature *)

Lemma be_bytes_length (n : nat) (x : Z) :
  List.length (Crypto.be_bytes n x) = n.
Proof.
  unfold Crypto.be_bytes. now rewrite length_map, length_rev, length_seq.
Qed.

Lemma be_bytes_are_bytes (n : nat) (x : Z) :
  Forall (fun b => 0 <= b < 256) (Crypto.be_bytes n x).
Proof.
  unfold Crypto.be_bytes. apply Forall_map, Forall_forall. intros i _.
  change 0xff with (Z.ones 8). rewrite Z.land_ones by lia.
  apply Z.mod_pos_bound. lia.
Qed.

Lemma sha256_length (m : Crypto.bytes) :
  List.length (Crypto.sha256 m) = 32%nat.
Proof.
  unfold Crypto.sha256. cbn [map List.concat].
  now rewrite !length_app, !be_bytes_length.
Qed.

Lemma sha256_are_bytes (m : Crypto.bytes) :
  Forall (fun b => 0 <= b < 256) (Crypto.sha256 m).
Proof.
  unfold Crypto.sha256. cbn [map List.concat].
  repeat (apply Forall_app; split); try apply be_bytes_are_bytes.
  constructor.
Qed.

Lemma hex_digit_is_lower_hex (d : Z) :
  0 <= d < 16 -> is_lower_hex (Crypto.hex_digit d) = true.
Proof.
  intros H.
  assert (C : d = 0 \/ d = 1 \/ d = 2 \/ d = 3 \/ d = 4 \/ d = 5 \/ d = 6
              \/ d = 7 \/ d = 8 \/ d = 9 \/ d = 10 \/ d = 11 \/ d = 12
              \/ d = 13 \/ d = 14 \/ d = 15) by lia.
  repeat (destruct C as [-> | C]; [ reflexivity | ]). now subst.
Qed.

Lemma hex_length (bs : Crypto.bytes) :
  String.length (Crypto.hex bs) = (2 * List.length bs)%nat.
Proof.
  induction bs as [ | b bs IH ]; [ reflexivity | ].
  cbn [Crypto.hex String.length List.length]. rewrite IH. lia.
Qed.

Lemma hex_is_lower_hex (bs : Crypto.bytes) :
  Forall (fun b => 0 <= b < 256) bs ->
  Forall (fun c => is_lower_hex c = true)
         (list_ascii_of_string (Crypto.hex bs)).
Proof.
  induction 1 as [ | b bs Hb _ IH ]; [ constructor | ].
  cbn [Crypto.hex list_ascii_of_string].
  constructor; [ | constructor; [ | exact IH ] ];
    apply hex_digit_is_lower_hex.
  - split; [ apply Z.div_pos; lia | apply Z.div_lt_upper_bound; lia ].
  - apply Z.mod_pos_bound. lia.
Qed.

(** The digest the handler compares with: 64 lowercase hexadecimal
    digits, whatever the secret and the text. *)
Lemma expected_signature_shape (key text : string) :
  String.length (Crypto.hmac_sha256_hex key text) = 64%nat
  /\ Forall (fun c => is_lower_hex c = true)
            (list_ascii_of_string (Crypto.hmac_sha256_hex key text)).
Proof.
  unfold Crypto.hmac_sha256_hex, Crypto.hmac_sha256. split.
  - now rewrite hex_length, sha256_length.
  - apply hex_is_lower_hex, sha256_are_bytes.
Qed.

(** X9.  Only a signature that is a string of exactly 64 lowercase
    hexadecimal digits can be accepted: a request answered 200 carries
    such a signature, so an upper-case, truncated, padded or non-string
    signature is never verified. *)
Theorem verify_payment_accepts_only_lowercase_hex
    (w : world) (body : value) :
  status_of (fst (handle Index.verify_payment w body)) = Some 200 ->
  exists s,
    prop body "razorpay_signature" = VStr s
    /\ String.length s = 64%nat
    /\ Forall (fun c => is_lower_hex c = true) (list_ascii_of_string s).
Proof.
  destruct (verify_payment_cases w body)
    as [(v & E & _) | (S & so & sp & _ & _ & _ & _ & E)]; rewrite E;
    cbn [fst status_of].
  - intros H. discriminate H.
  - destruct (strict_eq_string _ _) eqn:Q; [ | intros H; discriminate H ].
    intros _. apply strict_eq_string_iff in Q.
    eexists. split; [ exact Q | apply expected_signature_shape ].
Qed.

(** An instance: the signature of the scenario. *)
Lemma verify_payment_accepts_only_lowercase_hex_witness :
  exists s,
    prop Samples.verify_request "razorpay_signature" = VStr s
    /\ String.length s = 64%nat.
Proof.
  destruct (verify_payment_accepts_only_lowercase_hex
              Samples.shop Samples.verify_request)
    as (s & Hs & Hlen & _); [ vm_compute; reflexivity | ].
  exists s. split; assumption.
Defined.

(** ** /agent_to_customer: what is sent, and when *)

(** The rendered e-mail, piece by piece. *)
Lemma htmlContent_shape
    (wave rupee : string)
    (customerDetails orderDetails resolved productName : value) (html : string) :
  Index.htmlContent wave rupee customerDetails orderDetails resolved productName
    = Ok html ->
  exists v_first first v_number number v_currency currency v_total total
         v_advance advance v_method method agent product,
    get_prop customerDetails "firstName" = Ok v_first
    /\ to_string v_first = Ok first
    /\ get_prop orderDetails "orderNumber" = Ok v_number
    /\ to_string v_number = Ok number
    /\ get_prop orderDetails "currency" = Ok v_currency
    /\ to_string (or_else v_currency (VStr rupee)) = Ok currency
    /\ get_prop orderDetails "totalAmount" = Ok v_total
    /\ to_string v_total = Ok total
    /\ get_prop orderDetails "Advance_Amount" = Ok v_advance
    /\ to_string v_advance = Ok advance
    /\ get_prop orderDetails "paymentMethod" = Ok v_method
    /\ to_string v_method = Ok method
    /\ to_string resolved = Ok agent
    /\ to_string productName = Ok product
    /\ html = Template.piece0 ++ first ++ Template.piece1 wave ++ number
                ++ Template.piece2 ++ currency ++ Template.piece3 ++ total
                ++ Template.piece4 ++ currency ++ Template.piece5 ++ advance
                ++ Template.piece6 ++ method ++ Template.piece7 ++ agent
                ++ Template.piece8 ++ product ++ Template.piece9.
Proof.
  unfold Index.htmlContent. intros H.
  repeat match type of H with
         | rbind ?r _ = Ok _ =>
             let E := fresh "E" in
             destruct r eqn:E; cbn [rbind] in H; [ | discriminate H ]
         end.
  exists a, a0, a1, a2, a3, a4, a5, a6, a7, a8, a9, a10, a11, a12.
  do 14 (split; [ first [ assumption | reflexivity ] | ]).
  congruence.
Qed.

(** What a request that reached the transport looked like, and the mail
    it sent. *)
Lemma agent_to_customer_sent
    (wave rupee : string) (w : world) (body m : value) :
  snd (handle (Index.agent_to_customer_with wave rupee) w body)
    = [SendMail m] ->
  exists number html,
    nullish body = false
    /\ truthy (prop body "customerEmail") = true
    /\ rbind (get_prop (prop body "orderDetails") "orderNumber") to_string
       = Ok number
    /\ Index.htmlContent wave rupee
         (prop body "customerDetails") (prop body "orderDetails")
         (Index.resolvedAgentName (prop body "orderDetails")
                                  (prop body "agentName"))
         (prop body "productName") = Ok html
    /\ m = VObj [ ("from", getenv w "EMAIL_USER")
                ; ("to", prop body "customerEmail")
                ; ("cc", getenv w "EMAIL_USER")
                ; ("subject", VStr ("Order Confirmation #" ++ number))
                ; ("html", VStr html) ].
Proof.
  destruct (agent_to_customer_cases wave rupee w body)
    as [E | (s & html & Hb & He & Hnum & Hhtml)].
  - rewrite E. intros H. discriminate H.
  - rewrite (agent_to_customer_run_sent wave rupee w body s html
               Hb He Hnum Hhtml).
    cbn [snd]. intros H. injection H as H. subst m.
    exists s, html. repeat split; assumption.
Qed.

Lemma confirmation_handler_glyphs (h : value -> M response) :
  confirmation_handler h ->
  exists wave rupee, h = Index.agent_to_customer_with wave rupee.
Proof.
  intros [-> | ->].
  - exists Index.wave, Index.rupee. exact eq_refl.
  - exists Part000.wave, Part000.rupee. exact eq_refl.
Qed.

(** X11.  The envelope of every confirmation mail, in either copy of the
    handler: it goes to the customerEmail of the request as given (which
    is truthy, and not checked otherwise), from the configured EMAIL_USER
    mailbox with a copy to the same mailbox, under the subject
    "Order Confirmation #" followed by the printed order number. *)
Theorem confirmation_mail_envelope
    (h : value -> M response) (w : world) (body m : value) :
  confirmation_handler h ->
  snd (handle h w body) = [SendMail m] ->
  prop m "to" = prop body "customerEmail"
  /\ truthy (prop body "customerEmail") = true
  /\ prop m "from" = getenv w "EMAIL_USER"
  /\ prop m "cc" = getenv w "EMAIL_USER"
  /\ exists number,
       rbind (get_prop (prop body "orderDetails") "orderNumber") to_string
         = Ok number
       /\ prop m "subject" = VStr ("Order Confirmation #" ++ number).
Proof.
  intros Hh H. destruct (confirmation_handler_glyphs h Hh) as (wv & rp & ->).
  destruct (agent_to_customer_sent wv rp w body m H)
    as (number & html & _ & He & Hnum & _ & ->).
  repeat split; try assumption. exists number. split; [ exact Hnum | reflexivity ].
Qed.

(** An instance: the sample request. *)
Lemma confirmation_mail_envelope_witness :
  exists m,
    snd (handle Index.agent_to_customer Samples.shop
                Samples.confirmation_request) = [SendMail m]
    /\ prop m "to" = VStr "asha@example.com"
    /\ prop m "from" = VStr "shop@example.com"
    /\ prop m "cc" = VStr "shop@example.com"
    /\ prop m "subject" = VStr "Order Confirmation #1042".
Proof.
  set (m := match snd (handle Index.agent_to_customer Samples.shop
                              Samples.confirmation_request) with
            | [SendMail m] => m
            | _ => VUndef
            end).
  assert (Hcalls : snd (handle Index.agent_to_customer Samples.shop
                               Samples.confirmation_request) = [SendMail m])
    by (vm_compute; reflexivity).
  destruct (confirmation_mail_envelope
              Index.agent_to_customer Samples.shop
              Samples.confirmation_request m (or_introl eq_refl) Hcalls)
    as (Hto & _ & Hfrom & Hcc & number & Hnum & Hsubject).
  exists m. split; [ exact Hcalls | ].
  split; [ exact Hto | ]. split; [ exact Hfrom | ]. split; [ exact Hcc | ].
  rewrite Hsubject. vm_compute in Hnum. injection Hnum as <-. reflexivity.
Defined.

(** X12.  Either copy of the /agent_to_customer handler calls the mail
    transport at most once and never calls the gateway; and an exception
    can only leave the handler before the transport is called, so a
    request whose handling crashes has sent no mail. *)
Theorem confirmation_sends_at_most_once
    (h : value -> M response) (w : world) (body : value) :
  confirmation_handler h ->
  (snd (handle h w body) = []
   \/ exists m, snd (handle h w body) = [SendMail m])
  /\ (forall e, fst (handle h w body) = Escaped e ->
        snd (handle h w body) = []).
Proof.
  intros Hh. destruct (confirmation_handler_glyphs h Hh) as (wv & rp & ->).
  destruct (agent_to_customer_cases wv rp w body)
    as [E | (s & html & Hb & He & Hnum & Hhtml)].
  - split; [ now left | intros; exact E ].
  - rewrite (agent_to_customer_run_sent wv rp w body s html Hb He Hnum Hhtml).
    cbn [fst snd]. split; [ right; eexists; reflexivity | ].
    intros e H. destruct (sendMail w _); discriminate H.
Qed.

Lemma confirmation_sends_at_most_once_witness :
  snd (handle Index.agent_to_customer Samples.shop
              Samples.confirmation_without_order_details) = [].
Proof.
  apply (proj2 (confirmation_sends_at_most_once
                  Index.agent_to_customer Samples.shop
                  Samples.confirmation_without_order_details
                  (or_introl eq_refl))
               (TypeError
                  "Cannot read properties of undefined (reading 'orderNumber')")).
  reflexivity.
Defined.

(** ** /agent_to_customer: when nothing is sent *)

(** An exception raised while the subject and the HTML are put together
    leaves the handler: no try block encloses them. *)
Lemma agent_to_customer_run_threw
    (wave rupee : string) (w : world) (body e : value) :
  nullish body = false ->
  truthy (prop body "customerEmail") = true ->
  rbind (rbind (get_prop (prop body "orderDetails") "orderNumber") to_string)
        (fun _ =>
           Index.htmlContent wave rupee
             (prop body "customerDetails") (prop body "orderDetails")
             (Index.resolvedAgentName (prop body "orderDetails")
                                      (prop body "agentName"))
             (prop body "productName"))
    = Throw e ->
  handle (Index.agent_to_customer_with wave rupee) w body = (Escaped e, []).
Proof.
  intros Hb He H.
  unfold handle, Index.agent_to_customer_with, bind, lift, ret.
  rewrite (destructure_ok _ _ _ Hb). step. rewrite He. cbn [negb]. step.
  destruct (get_prop (prop body "orderDetails") "orderNumber") as [n | e1];
    cbn [rbind] in H; step.
  2: { injection H as ->. reflexivity. }
  destruct (to_string n) as [s | e1]; cbn [rbind] in H; step.
  2: { injection H as ->. reflexivity. }
  rewrite H. reflexivity.
Qed.

(** X13.  Either copy of the /agent_to_customer handler answers 400
    exactly when the customerEmail of a parsed request is falsy: absent,
    null, the empty string, zero or false.  The answer is then
    "Customer email is required" and nothing has been called; and no
    other request is ever answered 400. *)
Theorem confirmation_answers_400_exactly_without_an_address
    (h : value -> M response) (w : world) (body : value) :
  confirmation_handler h ->
  nullish body = false ->
  (truthy (prop body "customerEmail") = false ->
     handle h w body = (Responded email_required, []))
  /\ (status_of (fst (handle h w body)) = Some 400 ->
        truthy (prop body "customerEmail") = false).
Proof.
  intros Hh Hb. destruct (confirmation_handler_glyphs h Hh) as (wv & rp & ->).
  split; [ exact (agent_to_customer_run_no_email wv rp w body Hb) | ].
  destruct (truthy (prop body "customerEmail")) eqn:He; [ | reflexivity ].
  destruct (rbind (get_prop (prop body "orderDetails") "orderNumber")
                  to_string) as [number | e] eqn:Hnum.
  - destruct (Index.htmlContent wv rp
                (prop body "customerDetails") (prop body "orderDetails")
                (Index.resolvedAgentName (prop body "orderDetails")
                                         (prop body "agentName"))
                (prop body "productName")) as [html | e] eqn:Hhtml.
    + rewrite (agent_to_customer_run_sent wv rp w body number html
                 Hb He Hnum Hhtml).
      cbn [fst]. destruct (sendMail w _); intros H;
        cbv [status_of status email_sent email_failed respond] in H;
        discriminate H.
    + rewrite (agent_to_customer_run_threw wv rp w body e Hb He).
      * intros H. discriminate H.
      * rewrite Hnum. cbn [rbind]. exact Hhtml.
  - rewrite (agent_to_customer_run_threw wv rp w body e Hb He).
    + intros H. discriminate H.
    + rewrite Hnum. reflexivity.
Qed.

(** An instance: an empty address. *)
Lemma confirmation_answers_400_exactly_without_an_address_witness :
  handle Part000.agent_to_customer Samples.shop
         Samples.confirmation_with_empty_email
    = (Responded email_required, []).
Proof.
  apply (proj1 (confirmation_answers_400_exactly_without_an_address
                  Part000.agent_to_customer Samples.shop
                  Samples.confirmation_with_empty_email
                  (or_intror eq_refl) eq_refl)).
  reflexivity.
Defined.

(** X14.  A request with an address whose orderDetails is absent or null,
    or whose order number prints while its customerDetails is absent or
    null, makes either copy of the handler throw a TypeError that nothing
    catches: no response is sent, and no mail. *)
Theorem confirmation_without_details_escapes
    (h : value -> M response) (w : world) (body : value) :
  confirmation_handler h ->
  nullish body = false ->
  truthy (prop body "customerEmail") = true ->
  nullish (prop body "orderDetails") = true
  \/ ((exists number,
         rbind (get_prop (prop body "orderDetails") "orderNumber") to_string
           = Ok number)
      /\ nullish (prop body "customerDetails") = true) ->
  exists msg, handle h w body = (Escaped (TypeError msg), []).
Proof.
  intros Hh Hb He H.
  destruct (confirmation_handler_glyphs h Hh) as (wv & rp & ->).
  destruct H as [Hod | [[number Hnum] Hcd]].
  - destruct (prop body "orderDetails") eqn:E; try discriminate Hod;
      eexists; apply (agent_to_customer_run_threw wv rp w body _ Hb He);
      rewrite E; reflexivity.
  - destruct (prop body "customerDetails") eqn:E; try discriminate Hcd;
      eexists; apply (agent_to_customer_run_threw wv rp w body _ Hb He);
      rewrite Hnum, E; reflexivity.
Qed.

(** An instance: order details without customer details. *)
Lemma confirmation_without_details_escapes_witness :
  exists msg,
    handle Index.agent_to_customer Samples.shop
           Samples.confirmation_without_customer_details
      = (Escaped (TypeError msg), []).
Proof.
  apply (confirmation_without_details_escapes
           Index.agent_to_customer Samples.shop
           Samples.confirmation_without_customer_details
           (or_introl eq_refl) eq_refl eq_refl).
  right. split; [ eexists; reflexivity | reflexivity ].
Defined.

(** ** /agent_to_customer: what the e-mail is made of *)

Lemma prop_of_get_prop (v x : value) (name : string) :
  get_prop v name = Ok x -> prop v name = x.
Proof. intros H. unfold prop. now rewrite H. Qed.

(** The subject and the HTML of a mail that was handed to the transport,
    in terms of the request. *)
Lemma confirmation_mail_anatomy
    (wave rupee : string) (w : world) (body m : value) :
  snd (handle (Index.agent_to_customer_with wave rupee) w body)
    = [SendMail m] ->
  exists first number currency total advance method agent product,
    to_string (prop (prop body "customerDetails") "firstName") = Ok first
    /\ to_string (prop (prop body "orderDetails") "orderNumber") = Ok number
    /\ to_string (or_else (prop (prop body "orderDetails") "currency")
                          (VStr rupee)) = Ok currency
    /\ to_string (prop (prop body "orderDetails") "totalAmount") = Ok total
    /\ to_string (prop (prop body "orderDetails") "Advance_Amount")
       = Ok advance
    /\ to_string (prop (prop body "orderDetails") "paymentMethod")
       = Ok method
    /\ to_string (Index.resolvedAgentName (prop body "orderDetails")
                                          (prop body "agentName")) = Ok agent
    /\ to_string (prop body "productName") = Ok product
    /\ prop m "subject" = VStr ("Order Confirmation #" ++ number)
    /\ prop m "html"
       = VStr (Template.piece0 ++ first ++ Template.piece1 wave ++ number
                 ++ Template.piece2 ++ currency ++ Template.piece3 ++ total
                 ++ Template.piece4 ++ currency ++ Template.piece5 ++ advance
                 ++ Template.piece6 ++ method ++ Template.piece7 ++ agent
                 ++ Template.piece8 ++ product ++ Template.piece9).
Proof.
  intros H.
  destruct (agent_to_customer_sent wave rupee w body m H)
    as (number0 & html & _ & _ & Hnum & Hhtml & ->).
  destruct (htmlContent_shape _ _ _ _ _ _ _ Hhtml)
    as (v1 & first & v2 & number & v3 & currency & v4 & total & v5 & advance
        & v6 & method & agent & product
        & G1 & S1 & G2 & S2 & G3 & S3 & G4 & S4 & G5 & S5 & G6 & S6
        & S7 & S8 & ->).
  rewrite G2 in Hnum. cbn [rbind] in Hnum. rewrite S2 in Hnum.
  injection Hnum as <-.
  apply prop_of_get_prop in G1, G2, G3, G4, G5, G6.
  rewrite G1, G2, G3, G4, G5, G6.
  exists first, number, currency, total, advance, method, agent, product.
  do 8 (split; [ assumption | ]). split; reflexivity.
Qed.

(** X15.  The values of the request are put into the markup as they
    are, without any escaping: when the first name and the product name
    are strings, the HTML of the mail is the head of the template, the
    first name, the middle part, the product name and the tail of the
    template, whatever characters the two names hold. *)
Theorem confirmation_mail_inserts_text_verbatim
    (h : value -> M response) (w : world) (body m : value)
    (first product : string) :
  confirmation_handler h ->
  snd (handle h w body) = [SendMail m] ->
  prop (prop body "customerDetails") "firstName" = VStr first ->
  prop body "productName" = VStr product ->
  exists middle,
    prop m "html"
      = VStr (Template.piece0 ++ first ++ middle ++ product
                ++ Template.piece9).
Proof.
  intros Hh H Hfirst Hproduct.
  destruct (confirmation_handler_glyphs h Hh) as (wv & rp & ->).
  destruct (confirmation_mail_anatomy wv rp w body m H)
    as (first' & number & currency & total & advance & method & agent
        & product' & S1 & _ & _ & _ & _ & _ & _ & S8 & _ & ->).
  rewrite Hfirst in S1. rewrite Hproduct in S8. cbn [to_string] in S1, S8.
  injection S1 as <-. injection S8 as <-.
  exists (Template.piece1 wv ++ number
            ++ Template.piece2 ++ currency ++ Template.piece3 ++ total
            ++ Template.piece4 ++ currency ++ Template.piece5 ++ advance
            ++ Template.piece6 ++ method ++ Template.piece7 ++ agent
            ++ Template.piece8).
  rewrite !append_assoc. reflexivity.
Qed.

(** An instance: markup in the two names reaches the mail unchanged. *)
Lemma confirmation_mail_inserts_text_verbatim_witness :
  exists m middle,
    snd (handle Index.agent_to_customer Samples.shop
                Samples.confirmation_with_markup) = [SendMail m]
    /\ prop m "html"
       = VStr (Template.piece0 ++ "<b>Asha</b>" ++ middle ++ "<img src=x>"
                 ++ Template.piece9).
Proof.
  set (m := match snd (handle Index.agent_to_customer Samples.shop
                              Samples.confirmation_with_markup) with
            | [SendMail m] => m
            | _ => VUndef
            end).
  assert (Hcalls : snd (handle Index.agent_to_customer Samples.shop
                               Samples.confirmation_with_markup)
                   = [SendMail m])
    by (vm_compute; reflexivity).
  destruct (confirmation_mail_inserts_text_verbatim
              Index.agent_to_customer Samples.shop
              Samples.confirmation_with_markup m
              "<b>Asha</b>" "<img src=x>"
              (or_introl eq_refl) Hcalls eq_refl eq_refl)
    as [middle Hhtml].
  exists m, middle. split; [ exact Hcalls | exact Hhtml ].
Defined.

(** X16.  The two amount cells of the mail carry one and the same
    currency text before the total and before the advance: the printed
    currency of the order details when it is truthy, and the rupee glyph
    of the template otherwise. *)
Theorem confirmation_mail_currency_cells
    (wave rupee : string) (w : world) (body m : value) :
  snd (handle (Index.agent_to_customer_with wave rupee) w body)
    = [SendMail m] ->
  exists currency total pre post,
    to_string (or_else (prop (prop body "orderDetails") "currency")
                       (VStr rupee)) = Ok currency
    /\ (truthy (prop (prop body "orderDetails") "currency") = false ->
          currency = rupee)
    /\ prop m "html"
       = VStr (pre ++ Template.piece2 ++ currency ++ Template.piece3
                 ++ total ++ Template.piece4 ++ currency ++ Template.piece5
                 ++ post).
Proof.
  intros H.
  destruct (confirmation_mail_anatomy wave rupee w body m H)
    as (first & number & currency & total & advance & method & agent
        & product & _ & _ & S3 & _ & _ & _ & _ & _ & _ & ->).
  exists currency, total,
         (Template.piece0 ++ first ++ Template.piece1 wave ++ number),
         (advance ++ Template.piece6 ++ method ++ Template.piece7 ++ agent
            ++ Template.piece8 ++ product ++ Template.piece9).
  split; [ exact S3 | ]. split.
  - intros Hc. unfold or_else in S3. rewrite Hc in S3.
    cbn [to_string] in S3. now injection S3 as <-.
  - rewrite !append_assoc. reflexivity.
Qed.

(** An instance: the sample request names no currency, and the copy of
    part_000 prints the rupee sign. *)
Lemma confirmation_mail_currency_cells_witness :
  exists m total pre post,
    snd (handle Part000.agent_to_customer Samples.shop
                Samples.confirmation_request) = [SendMail m]
    /\ prop m "html"
       = VStr (pre ++ Template.piece2 ++ Part000.rupee ++ Template.piece3
                 ++ total ++ Template.piece4 ++ Part000.rupee
                 ++ Template.piece5 ++ post).
Proof.
  set (m := match snd (handle Part000.agent_to_customer Samples.shop
                              Samples.confirmation_request) with
            | [SendMail m] => m
            | _ => VUndef
            end).
  assert (Hcalls : snd (handle (Index.agent_to_customer_with
                                  Part000.wave Part000.rupee) Samples.shop
                               Samples.confirmation_request)
                   = [SendMail m])
    by (vm_compute; reflexivity).
  destruct (confirmation_mail_currency_cells
              Part000.wave Part000.rupee Samples.shop
              Samples.confirmation_request m Hcalls)
    as (currency & total & pre & post & _ & Hdefault & Hhtml).
  rewrite (Hdefault eq_refl) in Hhtml.
  exists m, total, pre, post. split; [ exact Hcalls | exact Hhtml ].
Defined.

(** X17.  The agent-name cell of every mail, in either copy of the
    handler, holds the name the precedence resolves: a non-empty string
    agentName of the order details; else a non-empty string agentName of
    the request; else, when both are falsy, "Call Center Agent". *)
Theorem confirmation_mail_names_the_agent
    (h : value -> M response) (w : world) (body m : value) :
  confirmation_handler h ->
  snd (handle h w body) = [SendMail m] ->
  exists name pre post,
    prop m "html"
      = VStr (pre ++ Template.piece7 ++ name ++ Template.piece8 ++ post)
    /\ (forall x, prop (prop body "orderDetails") "agentName" = VStr x ->
                  x <> EmptyString -> name = x)
    /\ (truthy (prop (prop body "orderDetails") "agentName") = false ->
        forall y, prop body "agentName" = VStr y ->
                  y <> EmptyString -> name = y)
    /\ (truthy (prop (prop body "orderDetails") "agentName") = false ->
        truthy (prop body "agentName") = false ->
        name = "Call Center Agent").
Proof.
  intros Hh H.
  destruct (confirmation_handler_glyphs h Hh) as (wv & rp & ->).
  destruct (confirmation_mail_names_the_resolved_agent wv rp w body m H)
    as (name & pre & post & Hname & Hhtml).
  exists name, pre, post. split; [ exact Hhtml | ].
  rewrite resolvedAgentName_by_cases in Hname.
  repeat split.
  - intros x Hx Hne. rewrite Hx in Hname.
    destruct x; [ now elim Hne | ]. cbn [truthy to_string] in Hname.
    now injection Hname as <-.
  - intros Hin y Hy Hne. rewrite Hin, Hy in Hname.
    destruct y; [ now elim Hne | ]. cbn [truthy to_string] in Hname.
    now injection Hname as <-.
  - intros Hin Htop. rewrite Hin, Htop in Hname.
    cbn [to_string] in Hname. now injection Hname as <-.
Qed.

(** An instance: a request that names its agent at the top level only. *)
Lemma confirmation_mail_names_the_agent_witness :
  exists m pre post,
    snd (handle Index.agent_to_customer Samples.shop
                Samples.confirmation_with_markup) = [SendMail m]
    /\ prop m "html"
       = VStr (pre ++ Template.piece7 ++ "Y" ++ Template.piece8 ++ post).
Proof.
  set (m := match snd (handle Index.agent_to_customer Samples.shop
                              Samples.confirmation_with_markup) with
            | [SendMail m] => m
            | _ => VUndef
            end).
  assert (Hcalls : snd (handle Index.agent_to_customer Samples.shop
                               Samples.confirmation_with_markup)
                   = [SendMail m])
    by (vm_compute; reflexivity).
  destruct (confirmation_mail_names_the_agent
              Index.agent_to_customer Samples.shop
              Samples.confirmation_with_markup m
              (or_introl eq_refl) Hcalls)
    as (name & pre & post & Hhtml & _ & Htop & _).
  rewrite (Htop eq_refl "Y" eq_refl ltac:(discriminate)) in Hhtml.
  exists m, pre, post. split; [ exact Hcalls | exact Hhtml ].
Defined.

(** ** /create-order of part_000, case by case *)

(** A parsed request whose amount coerces to a Number: the one call, and
    the answer that follows from the answer of the gateway. *)
Lemma part000_create_order_run (w : world) (body : value) (x : Num.number) :
  nullish body = false ->
  to_number (prop body "amount") = Ok x ->
  handle Part000.create_order w body
    = (match orders_create w (part000_options_sent w body x) with
       | inl order =>
           Responded (order_created order (getenv w "RAZORPAY_KEY_ID"))
       | inr r =>
           Responded (order_failed_plain (prop (reason_value r) "message"))
       end,
       [OrdersCreate (part000_options_sent w body x)]).
Proof.
  intros Hb Hx.
  unfold handle, Part000.create_order, try_catch, bind, lift, process_env,
    ret, times.
  rewrite (destructure_ok _ _ _ Hb). step. rewrite Hx. cbn [rbind]. step.
  unfold part000_options_sent, Index.receipt_or_default,
    razorpay_orders_create, Date_now, bind, ret.
  destruct (truthy (prop body "receipt")); step; cbn [reads calls app];
    match goal with
    | |- context [orders_create w ?o] => destruct (orders_create w o) as [order | r]
    end; step; cbn [reads calls app]; try reflexivity;
    destruct r; reflexivity.
Qed.

(** An exception raised before the gateway is called is answered by the
    catch clause. *)
Lemma part000_create_order_run_threw (w : world) (body e : value) :
  rbind (destructure body "amount" "req.body")
        (fun _ => to_number (prop body "amount")) = Throw e ->
  handle Part000.create_order w body
    = (Responded (order_failed_plain (prop e "message")), []).
Proof.
  intros H.
  assert (He : nullish e = false).
  { destruct (destructure body "amount" "req.body") as [[] | e1] eqn:Hd;
      cbn [rbind] in H.
    - exact (to_number_throws_objects _ e H).
    - injection H as ->. exact (destructure_throws_objects _ _ _ e Hd). }
  unfold handle, Part000.create_order, try_catch, bind, lift, ret, times.
  destruct (destructure body "amount" "req.body") as [[] | e1];
    cbn [rbind] in H; step.
  - rewrite H. cbn [rbind]. step. rewrite (message_of_object e He).
    reflexivity.
  - injection H as ->. rewrite (message_of_object e He). reflexivity.
Qed.

(** X18.  The /create-order handler of part_000 checks nothing: for a
    parsed request whose amount coerces to a Number [x], whatever its
    sign and whether or not the gateway credentials are configured, the
    gateway is called once with the amount [x * 100], the binary64
    product, not rounded; the currency and the notes default as in
    index.js, and the default receipt is the first reading of the
    clock. *)
Theorem part000_create_order_forwards_the_amount_unchecked
    (w : world) (body : value) (x : Num.number) :
  nullish body = false ->
  to_number (prop body "amount") = Ok x ->
  exists options,
    snd (handle Part000.create_order w body) = [OrdersCreate options]
    /\ prop options "amount" = VNum (Num.mul x (Num.of_Z 100))
    /\ prop options "currency"
       = (if truthy (prop body "currency") then prop body "currency"
          else VStr "INR")
    /\ prop options "notes"
       = (if truthy (prop body "notes") then prop body "notes" else VObj [])
    /\ prop options "receipt"
       = (if truthy (prop body "receipt") then prop body "receipt"
          else VStr ("receipt_" ++ Num.to_string (Num.of_Z (clock w 0)))).
Proof.
  intros Hb Hx. exists (part000_options_sent w body x).
  rewrite (part000_create_order_run w body x Hb Hx). repeat split.
Qed.

(** An instance: an amount of -5 without credentials is sent on as -500. *)
Lemma part000_create_order_forwards_the_amount_unchecked_witness :
  exists options,
    snd (handle Part000.create_order Samples.unconfigured
                Samples.negative_amount_request) = [OrdersCreate options]
    /\ prop options "amount" = VNum (Num.of_Z (-500))
    /\ prop options "currency" = VStr "INR".
Proof.
  destruct (part000_create_order_forwards_the_amount_unchecked
              Samples.unconfigured Samples.negative_amount_request
              (Num.of_Z (-5)) eq_refl eq_refl)
    as (options & Hcalls & Hamount & Hcurrency & _).
  exists options. split; [ exact Hcalls | ].
  split; [ rewrite Hamount; vm_compute; reflexivity | exact Hcurrency ].
Defined.

(** X19.  The /create-order handler of part_000 answers every request,
    with 200 or with 500 and never with 400; it calls the gateway at most
    once; and a 200 is only given after a call that the gateway
    accepted. *)
Theorem part000_create_order_answers_200_or_500 (w : world) (body : value) :
  exists r,
    fst (handle Part000.create_order w body) = Responded r
    /\ (status r = 200 \/ status r = 500)
    /\ (snd (handle Part000.create_order w body) = []
        \/ exists options,
             snd (handle Part000.create_order w body)
               = [OrdersCreate options])
    /\ (status r = 200 ->
        exists options order,
          snd (handle Part000.create_order w body) = [OrdersCreate options]
          /\ orders_create w options = inl order
          /\ r = order_created order (getenv w "RAZORPAY_KEY_ID")).
Proof.
  destruct (rbind (destructure body "amount" "req.body")
                  (fun _ => to_number (prop body "amount")))
    as [x | e] eqn:H.
  - assert (Hb : nullish body = false)
      by (destruct body; try reflexivity; discriminate H).
    rewrite (destructure_ok _ _ _ Hb) in H. cbn [rbind] in H.
    rewrite (part000_create_order_run w body x Hb H). cbn [fst snd].
    destruct (orders_create w (part000_options_sent w body x))
      as [order | r] eqn:E; eexists; (split; [ reflexivity | ]).
    + split; [ now left | ]. split; [ right; now eexists | ].
      intros _. exists (part000_options_sent w body x), order.
      repeat split. exact E.
    + split; [ now right | ]. split; [ right; now eexists | ].
      intros Hs. discriminate Hs.
  - rewrite (part000_create_order_run_threw w body e H). cbn [fst snd].
    eexists. split; [ reflexivity | ].
    split; [ now right | ]. split; [ now left | ].
    intros Hs. discriminate Hs.
Qed.

(** X20.  Where both copies accept a request, index.js sends the rounding
    of what part_000 sends: with the gateway configured and a Number
    amount [A > 0], part_000 calls the gateway with the amount [A * 100]
    and index.js with [Math.round] of that same Number. *)
Theorem index_rounds_what_part000_forwards
    (w : world) (body : value) (A : Num.number) :
  configured w ->
  get_prop body "amount" = Ok (VNum A) ->
  Num.ltb Num.zero A = true ->
  exists x,
    amounts_sent (snd (handle Part000.create_order w body)) = [VNum x]
    /\ amounts_sent (snd (handle Index.create_order w body))
       = [VNum (Num.Math_round x)]
    /\ x = Num.mul A (Num.of_Z 100).
Proof.
  intros Hc Hget Hpos.
  destruct (owner_of_a_field body "amount" A Hget) as (Hb & Hne & Hamount).
  destruct (positive_number_passes A Hpos) as [Hvalid Hparse].
  rewrite <- Hamount in Hvalid, Hparse.
  assert (Hx : to_number (prop body "amount") = Ok A)
    by (rewrite Hamount; reflexivity).
  exists (Num.mul A (Num.of_Z 100)).
  rewrite (part000_create_order_run w body A Hb Hx).
  rewrite (create_order_run_called w body A Hc Hb Hne Hvalid Hparse).
  repeat split.
Qed.

(** An instance: 4.35 goes out as 434.99999999999994 from part_000 and
    as 435 from index.js. *)
Lemma index_rounds_what_part000_forwards_witness :
  exists x,
    amounts_sent (snd (handle Part000.create_order Samples.shop
                              Samples.fractional_request)) = [VNum x]
    /\ amounts_sent (snd (handle Index.create_order Samples.shop
                                 Samples.fractional_request))
       = [VNum (Num.of_Z 435)]
    /\ to_string (VNum x) = Ok "434.99999999999994".
Proof.
  destruct (index_rounds_what_part000_forwards
              Samples.shop Samples.fractional_request Samples.n4_35)
    as (x & Hold & Hnew & Hx);
    [ split; reflexivity | reflexivity | reflexivity | ].
  exists x. split; [ exact Hold | ]. subst x.
  split; [ rewrite Hnew | ]; vm_compute; reflexivity.
Defined.
